(** * MoodBoard Maker: a shallow embedding of [app.py]

    The application is a Tk front end over three MongoDB collections
    ([users], [images], [boards]) and a directory of PNG files.  Every
    handler of [app.py] that carries logic is transcribed here as a pure
    function: the collections, the file system and the widgets' variables
    are passed in and returned, the answers of modal dialogs and the
    readings of the clock are arguments, and message boxes are returned as
    a list of [dialog] events in the order they are shown.  The texts of
    the message boxes are kept, with the dash of "Account created" written
    in ASCII and without the text of the exception that "Can't open
    image" ends with.  Paths follow the POSIX flavour of [os.path].
    What only draws (fonts, geometry, the preview label, the list box) is
    left out. *)

From Stdlib Require Import List String Ascii Bool Arith ZArith Lia PrimFloat.
From Stdlib Require Import Sorted Permutation.
Import ListNotations.
Local Open Scope string_scope.
Local Open Scope Z_scope.

(** ** Python values *)

Module Py.

(** [str.isspace] on the code points below 256 (a [string] is read as a
    sequence of such code points). *)
Definition isspace (c : ascii) : bool :=
  let n := Z.of_nat (nat_of_ascii c) in
  ((9 <=? n) && (n <=? 13)) || ((28 <=? n) && (n <=? 32))
  || (n =? 133) || (n =? 160).

Fixpoint lstrip (s : string) : string :=
  match s with
  | EmptyString => EmptyString
  | String c s' => if isspace c then lstrip s' else s
  end.

Fixpoint rstrip (s : string) : string :=
  match s with
  | EmptyString => EmptyString
  | String c s' =>
      match rstrip s' with
      | EmptyString => if isspace c then EmptyString else String c EmptyString
      | r => String c r
      end
  end.

(** [s.strip()] *)
Definition strip (s : string) : string := rstrip (lstrip s).

(** Truth value of a [str]: [not s] holds for the empty string only. *)
Definition truthy (s : string) : bool :=
  match s with EmptyString => false | _ => true end.

(** Truth value of a value that may be [None]. *)
Definition truthy_opt (o : option string) : bool :=
  match o with Some s => truthy s | None => false end.

(** [s.encode("utf-8")] for code points below 256. *)
Fixpoint encode_utf8 (s : string) : string :=
  match s with
  | EmptyString => EmptyString
  | String c s' =>
      let n := Z.of_nat (nat_of_ascii c) in
      if n <? 128 then String c (encode_utf8 s')
      else String (ascii_of_nat (Z.to_nat (192 + n / 64)))
             (String (ascii_of_nat (Z.to_nat (128 + n mod 64))) (encode_utf8 s'))
  end.

End Py.

(** ** The clock

    [datetime.utcnow()] is an input of every handler that reads it. *)

Record datetime := mk_datetime {
  year : Z; month : Z; day : Z;
  hour : Z; minute : Z; second : Z; microsecond : Z }.

(** ** Message boxes *)

Inductive dialog :=
| showwarning (title message : string)
| showerror (title message : string)
| showinfo (title message : string).

(** ** bcrypt

    The hashing library is an interface of the program: [hashpw] takes the
    encoded password and a salt (the salt [gensalt()] draws is an input of
    registration), [checkpw] verifies an encoded password against a stored
    hash. *)

Class Bcrypt := {
  hashpw : string -> string -> string;
  checkpw : string -> string -> bool }.

Section Credentials.
Context {bcrypt : Bcrypt}.

Definition hash_password (plain_text_password salt : string) : string :=
  hashpw (Py.encode_utf8 plain_text_password) salt.

Definition check_password (plain_text_password hashed : string) : bool :=
  checkpw (Py.encode_utf8 plain_text_password) hashed.
End Credentials.

(** ** The [users] collection *)

Record user_doc := mk_user {
  u_username : string;
  u_password : string;
  u_created_at : datetime }.

Module Users.
(** [users_col.find_one({"username": u})]: the first document in natural
    order whose [username] is [u]. *)
Definition find_one (col : list user_doc) (u : string) : option user_doc :=
  find (fun d => String.eqb (u_username d) u) col.

(** [users_col.insert_one(doc)] *)
Definition insert_one (col : list user_doc) (d : user_doc) : list user_doc :=
  col ++ [d].
End Users.

(** ** Images (Pillow)

    An image is modelled by value: its mode, its size and its pixel data.
    Pillow's operations are an interface of the program.  [thumbnail] is
    [Image.thumbnail(box)], which resizes in place: the result is the
    resized image, or [None] when the call raises. *)

Record image := mk_image {
  im_mode : string;
  im_width : Z;
  im_height : Z;
  im_data : list Z }.

Class Pillow := {
  convert : image -> string -> image;
  thumbnail : image -> Z * Z -> option image;
  (* [img.convert(mode)] is an image of that mode *)
  convert_mode : forall img mode, im_mode (convert img mode) = mode }.

(** [img.filter(ImageFilter.GaussianBlur(radius=r))],
    [ImageEnhance.Brightness(img).enhance(f)] and
    [ImageEnhance.Contrast(img).enhance(f)]. *)
Class PillowFilters := {
  GaussianBlur : image -> float -> image;
  Brightness_enhance : image -> float -> image;
  Contrast_enhance : image -> float -> image }.

(** [img.copy()]: a new image object with the same mode, size and pixels. *)
Definition copy (img : image) : image := img.

(** ** The file system

    A path holds an image file, or a file that [Image.open] cannot read. *)

Inductive file :=
| ImageFile (img : image)
| OtherFile.

Module FS.

Definition t := list (string * file).

Fixpoint lookup (fs : t) (path : string) : option file :=
  match fs with
  | [] => None
  | (p, f) :: fs' => if String.eqb p path then Some f else lookup fs' path
  end.

(** [os.path.exists(path)] *)
Definition exists_ (fs : t) (path : string) : bool :=
  match lookup fs path with Some _ => true | None => false end.

Definition unlink (fs : t) (path : string) : t :=
  filter (fun e => negb (String.eqb (fst e) path)) fs.

(** Writing a file creates it or replaces its content. *)
Definition write (fs : t) (path : string) (f : file) : t :=
  (path, f) :: unlink fs path.

(** [os.remove(path)]: [None] when it raises, which it does when the file
    is absent and when the operating system refuses ([denied]). *)
Definition remove (fs : t) (path : string) (denied : bool) : option t :=
  if denied then None
  else if exists_ fs path then Some (unlink fs path) else None.

(** [Image.open(path)], [None] when it raises. *)
Definition open (fs : t) (path : string) : option image :=
  match lookup fs path with
  | Some (ImageFile img) => Some img
  | _ => None
  end.

End FS.

(** ** [os.path] (POSIX flavour) *)

Module OsPath.

Definition sep : ascii := "/"%char.
Definition extsep : ascii := "."%char.

Fixpoint ends_with_sep (s : string) : bool :=
  match s with
  | EmptyString => false
  | String c EmptyString => Ascii.eqb c sep
  | String _ s' => ends_with_sep s'
  end.

(** [os.path.join(a, b)] *)
Definition join (a b : string) : string :=
  match b with
  | String c _ =>
      if Ascii.eqb c sep then b
      else if negb (Py.truthy a) || ends_with_sep a then a ++ b
      else a ++ String sep b
  | EmptyString =>
      if negb (Py.truthy a) || ends_with_sep a then a else a ++ String sep ""
  end.

(** [os.path.basename(p)]: what follows the last separator. *)
Fixpoint basename (p : string) : string :=
  match p with
  | EmptyString => EmptyString
  | String c p' =>
      if Ascii.eqb c sep then basename p'
      else if existsb (Ascii.eqb sep) (list_ascii_of_string p') then basename p'
      else p
  end.

(** Position of the last [extsep] of [s], if it has one. *)
Fixpoint rfind_dot (s : string) : option nat :=
  match s with
  | EmptyString => None
  | String c s' =>
      match rfind_dot s' with
      | Some i => Some (S i)
      | None => if Ascii.eqb c extsep then Some 0%nat else None
      end
  end.

Fixpoint all_dots (s : string) : bool :=
  match s with
  | EmptyString => true
  | String c s' => Ascii.eqb c extsep && all_dots s'
  end.

(** [os.path.splitext(p)] for a [p] without separator (a base name): the
    split is at the last dot, unless only dots come before it. *)
Definition splitext (p : string) : string * string :=
  match rfind_dot p with
  | Some i =>
      if all_dots (substring 0%nat i p) then (p, "")
      else (substring 0%nat i p, substring i (String.length p - i)%nat p)
  | None => (p, "")
  end.

(** Whether [s] contains a separator. *)
Definition has_sep (s : string) : bool :=
  existsb (Ascii.eqb sep) (list_ascii_of_string s).

End OsPath.

(** ** [datetime.strftime] *)

Definition digit (n : Z) : ascii := ascii_of_nat (Z.to_nat (48 + n)).

(** [n] written on [width] decimal digits, zero-padded. *)
Fixpoint zfill (width : nat) (n : Z) : string :=
  match width with
  | O => ""
  | S k => zfill k (n / 10) ++ String (digit (n mod 10)) ""
  end.

(** [t.strftime("%Y%m%dT%H%M%S%f")].  The year is written on four digits,
    as it is for the years 1000 to 9999. *)
Definition strftime_stamp (t : datetime) : string :=
  zfill 4 (year t) ++ zfill 2 (month t) ++ zfill 2 (day t) ++ "T"
  ++ zfill 2 (hour t) ++ zfill 2 (minute t) ++ zfill 2 (second t)
  ++ zfill 6 (microsecond t).

(** A reading of the clock: a date of the years 1000 to 9999. *)
Definition valid_datetime (t : datetime) : Prop :=
  1000 <= year t <= 9999 /\ 1 <= month t <= 12 /\ 1 <= day t <= 31 /\
  0 <= hour t < 24 /\ 0 <= minute t < 60 /\ 0 <= second t < 60 /\
  0 <= microsecond t < 1000000.

(** Chronological order, as a key: later readings have larger keys. *)
Definition datetime_key (t : datetime) : list Z :=
  [year t; month t; day t; hour t; minute t; second t; microsecond t].

Fixpoint lex_leb (a b : list Z) : bool :=
  match a, b with
  | [], _ => true
  | _ :: _, [] => false
  | x :: a', y :: b' => (x <? y) || ((x =? y) && lex_leb a' b')
  end.

Definition datetime_leb (t1 t2 : datetime) : bool :=
  lex_leb (datetime_key t1) (datetime_key t2).

(** ** Module-level functions of [app.py] *)

Definition UPLOAD_ROOT : string := "uploads".

(** [save_image_file(pil_img, username, orig_filename)], reading the clock
    ([utcnow]) once.  Returns the path and the file system after the
    write; directories are not modelled. *)
Definition save_image_file (pil_img : image) (username orig_filename : string)
    (utcnow : datetime) (fs : FS.t) : string * FS.t :=
  let safe_folder := OsPath.join UPLOAD_ROOT username in
  let timestamp := strftime_stamp utcnow in
  let '(base, ext) := OsPath.splitext (OsPath.basename orig_filename) in
  let out_name := timestamp ++ "_" ++ base ++ ".png" in
  let out_path := OsPath.join safe_folder out_name in
  (out_path, FS.write fs out_path (ImageFile pil_img)).

Section Thumbnails.
Context {pillow : Pillow}.

(** [make_thumbnail(pil_img, size)]; [None] when [thumbnail] raises. *)
Definition make_thumbnail (pil_img : image) (size : Z * Z) : option image :=
  thumbnail (copy pil_img) size.

End Thumbnails.

(** ** The [images] and [boards] collections *)

Record filters_doc := mk_filters {
  f_grayscale : bool;
  f_blur : float;
  f_brightness : float;
  f_contrast : float }.

Record image_doc := mk_image_doc {
  i_username : string;
  i_orig_filename : string;
  i_saved_path : string;
  i_filters : filters_doc;
  i_saved_at : datetime }.

(** An entry of a board's stored layout.  It is a document read back from
    the database, so each key may be absent. *)
Record layout_item := mk_layout_item {
  li_path : option string;
  li_x : option Z;
  li_y : option Z;
  li_w : option Z;
  li_h : option Z }.

Record board_doc := mk_board {
  b_id : nat;
  b_username : string;
  b_board_name : string;
  b_layout : list layout_item;
  b_saved_at : datetime }.

Section Sorting.
Context {D : Type} (saved_at : D -> datetime).

Fixpoint insert_desc (d : D) (l : list D) : list D :=
  match l with
  | [] => [d]
  | e :: l' =>
      if datetime_leb (saved_at e) (saved_at d) then d :: l
      else e :: insert_desc d l'
  end.

(** [.sort("saved_at", -1)]: most recent first, ties in natural order. *)
Definition sort_desc (l : list D) : list D := fold_right insert_desc [] l.

(** Removal of the first document that satisfies [p], as [delete_one]
    does. *)
Fixpoint remove_first (p : D -> bool) (l : list D) : list D :=
  match l with
  | [] => []
  | e :: l' => if p e then l' else e :: remove_first p l'
  end.

End Sorting.

Module Images.

(** [images_col.find({"username": u}).sort("saved_at", -1)] *)
Definition find (col : list image_doc) (u : string) : list image_doc :=
  sort_desc i_saved_at (filter (fun d => String.eqb (i_username d) u) col).

Definition insert_one (col : list image_doc) (d : image_doc) : list image_doc :=
  col ++ [d].

(** [images_col.delete_one({"saved_path": path})] *)
Definition delete_one (col : list image_doc) (path : string) : list image_doc :=
  remove_first (fun d => String.eqb (i_saved_path d) path) col.

End Images.

Module Boards.

Definition owned_by (u : string) (d : board_doc) : bool :=
  String.eqb (b_username d) u.

(** The filter [{"username": u, "board_name": name}]. *)
Definition keyed (u name : string) (d : board_doc) : bool :=
  String.eqb (b_username d) u && String.eqb (b_board_name d) name.

(** The records of the collection under the pair [(u, name)]. *)
Definition records_for (u name : string) (col : list board_doc)
    : list board_doc :=
  filter (keyed u name) col.

(** [boards_col.find({"username": u}).sort("saved_at", -1)] *)
Definition find (col : list board_doc) (u : string) : list board_doc :=
  sort_desc b_saved_at (filter (owned_by u) col).

(** [boards_col.find_one({"_id": ObjectId(board_id)})] *)
Definition find_one (col : list board_doc) (board_id : nat) : option board_doc :=
  List.find (fun d => Nat.eqb (b_id d) board_id) col.

Definition insert_one (col : list board_doc) (d : board_doc) : list board_doc :=
  col ++ [d].

(** [boards_col.delete_one({"_id": id})] *)
Definition delete_one (col : list board_doc) (board_id : nat) : list board_doc :=
  remove_first (fun d => Nat.eqb (b_id d) board_id) col.

(** The [$set] of [save_board] applied to the first document that matches
    the filter; [None] when no document matches. *)
Fixpoint set_first (u name : string) (layout : list layout_item)
    (saved_at : datetime) (col : list board_doc) : option (list board_doc) :=
  match col with
  | [] => None
  | d :: col' =>
      if keyed u name d then
        Some (mk_board (b_id d) u name layout saved_at :: col')
      else
        match set_first u name layout saved_at col' with
        | Some r => Some (d :: r)
        | None => None
        end
  end.

(** [boards_col.update_one(filter, {"$set": ...}, upsert=True)]: the first
    matching document is updated; without a match a document is inserted
    under the fresh identifier [oid]. *)
Definition update_one_upsert (col : list board_doc) (u name : string)
    (layout : list layout_item) (saved_at : datetime) (oid : nat)
    : list board_doc :=
  match set_first u name layout saved_at col with
  | Some col' => col'
  | None => col ++ [mk_board oid u name layout saved_at]
  end.

End Boards.

(** ** The controller, [MoodBoardApp] *)

Record MoodBoardApp := mk_app {
  current_user : option string;
  current_image_path : option string;
  current_original_image : option image;
  current_work_image : option image;
  raised_page : string }.

Module Controller.

(** [show_page] raises the page of that name (every page of the
    application is registered, so the lookup succeeds). *)
Definition show_page (self : MoodBoardApp) (name : string) : MoodBoardApp :=
  mk_app (current_user self) (current_image_path self)
         (current_original_image self) (current_work_image self) name.

Definition login (self : MoodBoardApp) (username : string) : MoodBoardApp :=
  show_page
    (mk_app (Some username) (current_image_path self)
            (current_original_image self) (current_work_image self)
            (raised_page self))
    "DashboardPage".

Definition logout (self : MoodBoardApp) : MoodBoardApp :=
  show_page (mk_app None None None None (raised_page self)) "LandingPage".

Definition set_work_image (self : MoodBoardApp) (img : image) : MoodBoardApp :=
  mk_app (current_user self) (current_image_path self)
         (current_original_image self) (Some img) (raised_page self).

End Controller.

(** ** [LoginPage] *)

Module LoginPage.

(** The two [StringVar]s behind the entry widgets. *)
Record t := mk {
  username : string;
  password : string }.

Record register_result := mk_register_result {
  rr_page : t;
  rr_users : list user_doc;
  rr_shown : list dialog }.

Record login_result := mk_login_result {
  lr_page : t;
  lr_app : MoodBoardApp;
  lr_shown : list dialog }.

Section Handlers.
Context {bcrypt : Bcrypt}.

Definition attempt_register (self : t) (users_col : list user_doc)
    (salt : string) (utcnow : datetime) : register_result :=
  let u := Py.strip (username self) in
  let p := password self in
  if negb (Py.truthy u) || negb (Py.truthy p) then
    mk_register_result self users_col
      [showwarning "Missing" "Provide username and password"]
  else
    match Users.find_one users_col u with
    | Some _ =>
        mk_register_result self users_col
          [showerror "Exists" "Username already exists"]
    | None =>
        let hashed := hash_password p salt in
        mk_register_result
          (mk (username self) "")
          (Users.insert_one users_col (mk_user u hashed utcnow))
          [showinfo "Registered" "Account created - please login."]
    end.

Definition attempt_login (self : t) (users_col : list user_doc)
    (controller : MoodBoardApp) : login_result :=
  let u := Py.strip (username self) in
  let p := password self in
  if negb (Py.truthy u) || negb (Py.truthy p) then
    mk_login_result self controller
      [showwarning "Missing" "Provide username and password"]
  else
    match Users.find_one users_col u with
    | None =>
        mk_login_result self controller
          [showerror "Not found" "No such user"]
    | Some doc =>
        if check_password p (u_password doc) then
          mk_login_result (mk "" "") (Controller.login controller u) []
        else
          mk_login_result self controller
            [showerror "Unauthorized" "Incorrect password"]
    end.

(** A series of presses of "Register", each with the fields of the page,
    the salt drawn and the reading of the clock. *)
Definition register_all (attempts : list (t * string * datetime))
    (users_col : list user_doc) : list user_doc :=
  fold_left
    (fun col a =>
       rr_users (attempt_register (fst (fst a)) col (snd (fst a)) (snd a)))
    attempts users_col.

End Handlers.

End LoginPage.

(** ** [EditorPage] *)

Set Warnings "-inexact-float".

Definition newline : string := String (ascii_of_nat 10) "".

Module EditorPage.

(** The variables behind the check box and the three sliders. *)
Record t := mk {
  var_grayscale : bool;
  blur_var : float;
  brightness_var : float;
  contrast_var : float }.

Definition neutral : t := mk false 0%float 1%float 1%float.

Record save_result := mk_save_result {
  sr_images : list image_doc;
  sr_fs : FS.t;
  sr_shown : list dialog }.

Section Handlers.
Context {pillow : Pillow} {filters : PillowFilters}.

(** [upload_image], with the path the file dialog returned (empty when it
    was cancelled). *)
Definition upload_image (self : t) (controller : MoodBoardApp) (fs : FS.t)
    (path : string) : t * MoodBoardApp * list dialog :=
  if negb (Py.truthy path) then (self, controller, [])
  else
    match FS.open fs path with
    | None => (self, controller, [showerror "Error" "Can't open image"])
    | Some opened =>
        let img := convert opened "RGBA" in
        (neutral,
         mk_app (current_user controller) (Some path)
                (Some (copy img)) (Some (copy img)) (raised_page controller),
         [])
    end.

Definition apply_filters (self : t) (controller : MoodBoardApp)
    : MoodBoardApp :=
  match current_original_image controller with
  | None => controller
  | Some base =>
      let img := copy base in
      let img :=
        if var_grayscale self then convert (convert img "L") "RGBA" else img in
      let blur_val := blur_var self in
      let img :=
        if (0.01 <? blur_val)%float then GaussianBlur img blur_val else img in
      let bright := brightness_var self in
      let img :=
        if (1e-3 <? abs (bright - 1.0))%float
        then Brightness_enhance img bright else img in
      let contrast := contrast_var self in
      let img :=
        if (1e-3 <? abs (contrast - 1.0))%float
        then Contrast_enhance img contrast else img in
      Controller.set_work_image controller img
  end.

Definition reset_edits (self : t) (controller : MoodBoardApp)
    : t * MoodBoardApp :=
  match current_original_image controller with
  | None => (self, controller)
  | Some base => (neutral, Controller.set_work_image controller (copy base))
  end.

(** [save_edited]; the clock is read once for the file name
    ([utcnow_file]) and once for the record ([utcnow_doc]). *)
Definition save_edited (self : t) (controller : MoodBoardApp)
    (images_col : list image_doc) (fs : FS.t)
    (utcnow_file utcnow_doc : datetime) : save_result :=
  match current_work_image controller with
  | None =>
      mk_save_result images_col fs
        [showwarning "No Image" "Load an image first"]
  | Some work =>
      match current_user controller with
      | Some username =>
          if Py.truthy username then
            let orig_name :=
              if Py.truthy_opt (current_image_path controller) then
                match current_image_path controller with
                | Some p => OsPath.basename p
                | None => "untitled"
                end
              else "untitled" in
            let '(out_path, fs') :=
              save_image_file (convert work "RGBA") username orig_name
                utcnow_file fs in
            let metadata :=
              mk_image_doc username orig_name out_path
                (mk_filters (var_grayscale self) (blur_var self)
                   (brightness_var self) (contrast_var self))
                utcnow_doc in
            mk_save_result (Images.insert_one images_col metadata) fs'
              [showinfo "Saved"
                 ("Edited image saved to:" ++ newline ++ out_path)]
          else
            mk_save_result images_col fs
              [showerror "Not logged in"
                 "You must be logged in to save images"]
      | None =>
          mk_save_result images_col fs
            [showerror "Not logged in"
               "You must be logged in to save images"]
      end
  end.

(** The pipeline as the specification words it: the adjustments that are
    switched on, in the order grayscale, blur, brightness, contrast, run
    one after the other on a copy of the source image. *)
Inductive stage :=
| Grayscale
| Blur (radius : float)
| Brightness (factor : float)
| Contrast (factor : float).

Definition run_stage (img : image) (s : stage) : image :=
  match s with
  | Grayscale => convert (convert img "L") "RGBA"
  | Blur radius => GaussianBlur img radius
  | Brightness factor => Brightness_enhance img factor
  | Contrast factor => Contrast_enhance img factor
  end.

Definition enabled_stages (self : t) : list stage :=
  (if var_grayscale self then [Grayscale] else [])
  ++ (if (0.01 <? blur_var self)%float then [Blur (blur_var self)] else [])
  ++ (if (1e-3 <? abs (brightness_var self - 1.0))%float
      then [Brightness (brightness_var self)] else [])
  ++ (if (1e-3 <? abs (contrast_var self - 1.0))%float
      then [Contrast (contrast_var self)] else []).

Definition filter_pipeline (self : t) (source : image) : image :=
  fold_left run_stage (enabled_stages self) (copy source).

End Handlers.

End EditorPage.

(** ** [GalleryPage] *)

Module GalleryPage.

(** A tile of the gallery: the thumbnail drawn and the path it is bound
    to.  (The positions of the tiles depend on the window's width and are
    left out.) *)
Record tile := mk_tile {
  tile_path : string;
  tile_thumb : image }.

Record delete_result := mk_delete_result {
  dr_images : list image_doc;
  dr_fs : FS.t;
  dr_tiles : list tile;
  dr_shown : list dialog }.

Section Handlers.
Context {pillow : Pillow}.

(** The loop of [reload] over the documents found. *)
Fixpoint draw_tiles (fs : FS.t) (docs : list image_doc) : list tile :=
  match docs with
  | [] => []
  | doc :: docs' =>
      let path := i_saved_path doc in
      if negb (Py.truthy path) || negb (FS.exists_ fs path) then
        draw_tiles fs docs'
      else
        match FS.open fs path with
        | Some img =>
            match thumbnail img (180, 130) with
            | Some thumb => mk_tile path thumb :: draw_tiles fs docs'
            | None => draw_tiles fs docs'
            end
        | None => draw_tiles fs docs'
        end
  end.

(** [reload]: the tiles on the canvas afterwards. *)
Definition reload (controller : MoodBoardApp) (images_col : list image_doc)
    (fs : FS.t) : list tile :=
  if Py.truthy_opt (current_user controller) then
    match current_user controller with
    | Some username => draw_tiles fs (Images.find images_col username)
    | None => []
    end
  else [].

(** [do_delete], the handler of the preview window's Delete button for the
    image at [path]: [confirm] is the answer to "Delete this image?",
    [denied] tells whether the operating system refuses the removal of
    the file.  [tiles] are the tiles on the canvas before. *)
Definition do_delete (confirm : bool) (path : string)
    (controller : MoodBoardApp) (images_col : list image_doc) (fs : FS.t)
    (denied : bool) (tiles : list tile) : delete_result :=
  if negb confirm then mk_delete_result images_col fs tiles []
  else
    let images_col' := Images.delete_one images_col path in
    let fs' :=
      match FS.remove fs path denied with
      | Some fs1 => fs1
      | None => fs
      end in
    mk_delete_result images_col' fs' (reload controller images_col' fs') [].

Record preview_result := mk_preview_result {
  pv_window : option image;     (* the picture of the preview window, if
                                   the window stays open *)
  pv_tiles : list tile;
  pv_shown : list dialog }.

(** [preview_image(path)], up to the creation of the buttons.  The Delete
    button, whose handler is [do_delete], exists only in a window that
    stays open. *)
Definition preview_image (path : string) (controller : MoodBoardApp)
    (images_col : list image_doc) (fs : FS.t) (tiles : list tile)
    : preview_result :=
  if negb (FS.exists_ fs path) then
    mk_preview_result None (reload controller images_col fs)
      [showerror "Missing" "File not found"]
  else
    match FS.open fs path with
    | Some img =>
        match thumbnail img (600, 420) with
        | Some thumb => mk_preview_result (Some thumb) tiles []
        | None =>
            mk_preview_result None tiles [showerror "Error" "Can't open image"]
        end
    | None =>
        mk_preview_result None tiles [showerror "Error" "Can't open image"]
    end.

End Handlers.

End GalleryPage.

(** ** The Tk canvas of the board page

    The display list, bottom to top.  Item identifiers are handed out
    increasingly and are not reused after [delete("all")]. *)

Module Canvas.

Record item := mk_item {
  c_id : nat;
  c_x : Z;
  c_y : Z;
  c_image : image }.

Record t := mk {
  items : list item;
  next_id : nat }.

Definition empty : t := mk [] 1.

(** [canvas.create_image(x, y, anchor="nw", image=...)] *)
Definition create_image (c : t) (x y : Z) (img : image) : nat * t :=
  (next_id c, mk (items c ++ [mk_item (next_id c) x y img]) (S (next_id c))).

(** [canvas.coords(id)]: [None] stands for the empty list Tk returns for
    an item that does not exist. *)
Definition coords (c : t) (id : nat) : option (Z * Z) :=
  match find (fun it => Nat.eqb (c_id it) id) (items c) with
  | Some it => Some (c_x it, c_y it)
  | None => None
  end.

(** [canvas.coords(id, x, y)] *)
Definition move (c : t) (id : nat) (x y : Z) : t :=
  mk (map (fun it =>
             if Nat.eqb (c_id it) id then mk_item id x y (c_image it) else it)
          (items c))
     (next_id c).

(** [canvas.delete("all")] *)
Definition delete_all (c : t) : t := mk [] (next_id c).

(** [canvas.tag_raise(id)] *)
Definition tag_raise (c : t) (id : nat) : t :=
  mk (filter (fun it => negb (Nat.eqb (c_id it) id)) (items c)
      ++ filter (fun it => Nat.eqb (c_id it) id) (items c))
     (next_id c).

End Canvas.

(** ** [MoodBoardPage] *)

Module MoodBoardPage.

(** An entry of [board_items].  (The [tk] key, which keeps the Tk image
    alive, is left out, and so is the list [_tk_images].)  The coordinates
    are Python numbers, an [int] at placement and a [float] after a drag
    or a load; all of them are whole numbers of pixels, which Python
    compares by value, so a coordinate is kept as its value: [float(x)]
    and [int(w)] in [save_board] leave it as it is. *)
Record meta := mk_meta {
  m_id : nat;
  m_path : string;
  m_x : Z;
  m_y : Z;
  m_w : Z;
  m_h : Z }.

(** [selected_item] aliases an entry of [board_items]; it is kept as the
    canvas identifier of that entry. *)
Record t := mk {
  board_items : list meta;
  canvas : Canvas.t;
  selected_item : option nat;
  drag_offset : Z * Z;
  current_board : option string;
  _board_docs : list board_doc }.

Definition init : t := mk [] Canvas.empty None (0, 0) None [].

Record result := mk_result {
  r_page : t;
  r_boards : list board_doc;
  r_shown : list dialog }.

(** The answers of the user to the dialogs of [add_image_to_board]. *)
Record add_answers := mk_add_answers {
  create_now : bool;            (* "No board selected. ... create ... now?" *)
  new_name : option string;     (* "Enter board name:" *)
  from_uploads : bool;          (* "Load from your saved uploads?" *)
  picked : option image_doc;    (* the selection dialog's [selected_doc] *)
  chosen_file : string;         (* the file dialog, empty when cancelled *)
  save_to : option string }.    (* "Enter board name to save to:" *)

Definition set_items (self : t) (items : list meta) (c : Canvas.t) : t :=
  mk items c (selected_item self) (drag_offset self) (current_board self)
     (_board_docs self).

Definition set_current_board (self : t) (name : option string) : t :=
  mk (board_items self) (canvas self) (selected_item self) (drag_offset self)
     name (_board_docs self).

Definition set_selection (self : t) (sel : option nat) (off : Z * Z)
    (c : Canvas.t) (items : list meta) : t :=
  mk items c sel off (current_board self) (_board_docs self).

(** [clear_canvas] *)
Definition clear_canvas (self : t) : t :=
  mk [] (Canvas.delete_all (canvas self)) None (drag_offset self)
     (current_board self) (_board_docs self).

(** [refresh_board_list] (the list box shows [_board_docs] line by
    line). *)
Definition refresh_board_list (self : t) (controller : MoodBoardApp)
    (boards_col : list board_doc) : t :=
  match current_user controller with
  | Some username =>
      if Py.truthy username then
        mk (board_items self) (canvas self) (selected_item self)
           (drag_offset self) (current_board self)
           (Boards.find boards_col username)
      else self
  | None => self
  end.

(** [new_board], with the answer to "Enter board name:". *)
Definition new_board (self : t) (controller : MoodBoardApp)
    (boards_col : list board_doc) (answer : option string)
    (utcnow : datetime) (oid : nat) : result :=
  match current_user controller with
  | Some username =>
      if Py.truthy username then
        match answer with
        | Some name =>
            if Py.truthy name then
              let boards' :=
                Boards.insert_one boards_col
                  (mk_board oid username name [] utcnow) in
              mk_result (refresh_board_list self controller boards') boards'
                [showinfo "Created" ("Board '" ++ name ++ "' created.")]
            else mk_result self boards_col []
        | None => mk_result self boards_col []
        end
      else mk_result self boards_col [showerror "Error" "Please login"]
  | None => mk_result self boards_col [showerror "Error" "Please login"]
  end.

(** The layout [save_board] builds from [board_items]. *)
Definition layout_of (self : t) : list layout_item :=
  map (fun meta =>
         let '(x, y) :=
           match Canvas.coords (canvas self) (m_id meta) with
           | Some c => c
           | None => (m_x meta, m_y meta)
           end in
         mk_layout_item (Some (m_path meta)) (Some x) (Some y)
           (Some (m_w meta)) (Some (m_h meta)))
      (board_items self).

Definition save_board (self : t) (controller : MoodBoardApp)
    (boards_col : list board_doc) (utcnow : datetime) (oid : nat) : result :=
  match current_board self with
  | Some name =>
      if Py.truthy name then
        match current_user controller with
        | Some username =>
            if Py.truthy username then
              let layout := layout_of self in
              let boards' :=
                Boards.update_one_upsert boards_col username name layout
                  utcnow oid in
              mk_result (refresh_board_list self controller boards') boards'
                [showinfo "Saved" ("Board '" ++ name ++ "' saved.")]
            else mk_result self boards_col [showerror "Error" "Login first"]
        | None => mk_result self boards_col [showerror "Error" "Login first"]
        end
      else
        mk_result self boards_col
          [showwarning "No Board" "Select or create a board first."]
  | None =>
      mk_result self boards_col
        [showwarning "No Board" "Select or create a board first."]
  end.

Definition get {A : Type} (o : option A) (default : A) : A :=
  match o with Some v => v | None => default end.

Section Handlers.
Context {pillow : Pillow}.

(** The loop of [load_board] over the stored layout: an entry without
    path, whose file is missing, or for which opening or thumbnailing
    raises, is skipped. *)
Fixpoint load_items (fs : FS.t) (layout : list layout_item)
    (c : Canvas.t) (items : list meta) : Canvas.t * list meta :=
  match layout with
  | [] => (c, items)
  | item :: layout' =>
      match li_path item with
      | Some path =>
          if negb (Py.truthy path) || negb (FS.exists_ fs path) then
            load_items fs layout' c items
          else
            match FS.open fs path with
            | Some opened =>
                match thumbnail (convert opened "RGBA")
                        (get (li_w item) 200, get (li_h item) 200) with
                | Some pil =>
                    let '(id_, c') :=
                      Canvas.create_image c (get (li_x item) 10)
                        (get (li_y item) 10) pil in
                    let meta :=
                      mk_meta id_ path (get (li_x item) 0) (get (li_y item) 0)
                        (im_width pil) (im_height pil) in
                    load_items fs layout' c' (items ++ [meta])
                | None => load_items fs layout' c items
                end
            | None => load_items fs layout' c items
            end
      | None => load_items fs layout' c items
      end
  end.

Definition load_board (self : t) (boards_col : list board_doc) (fs : FS.t)
    (board_id : nat) : t * list dialog :=
  match Boards.find_one boards_col board_id with
  | None => (self, [showerror "Error" "Board not found"])
  | Some doc =>
      let self1 :=
        clear_canvas (set_current_board self (Some (b_board_name doc))) in
      let '(c, items) :=
        load_items fs (b_layout doc) (canvas self1) (board_items self1) in
      (set_items self1 items c,
       [showinfo "Loaded" ("Board '" ++ b_board_name doc ++ "' loaded.")])
  end.

(** [add_image_to_board], in three steps.  The last one opens the file at
    [path], thumbnails it and places it on the canvas. *)
Definition place_image (fs : FS.t) (ans : add_answers) (self : t)
    (boards : list board_doc) (shown : list dialog) (path : string)
    : result :=
  match FS.open fs path with
  | None =>
      mk_result self boards (shown ++ [showerror "Error" "Can't open image"])
  | Some opened =>
      match thumbnail (convert opened "RGBA") (300, 300) with
      | None => mk_result self boards shown
      | Some pil =>
          let n := Z.of_nat (List.length (board_items self)) in
          let x := 40 + n * 10 in
          let y := 40 + n * 10 in
          let '(item, c) := Canvas.create_image (canvas self) x y pil in
          let meta := mk_meta item path x y (im_width pil) (im_height pil) in
          let self1 := set_items self (board_items self ++ [meta]) c in
          let self2 :=
            if Py.truthy_opt (current_board self1) then self1
            else set_current_board self1 (save_to ans) in
          mk_result (set_items self2 (board_items self2)
                       (Canvas.tag_raise (canvas self2) item))
            boards shown
      end
  end.

(** The middle step asks where the image comes from: the saved uploads of
    the user or a file of the disk. *)
Definition choose_image (controller : MoodBoardApp)
    (images_col : list image_doc) (fs : FS.t) (ans : add_answers) (self : t)
    (boards : list board_doc) (shown : list dialog) : result :=
  if from_uploads ans then
    let docs :=
      match current_user controller with
      | Some username => Images.find images_col username
      | None => []
      end in
    match docs with
    | [] =>
        mk_result self boards
          (shown ++ [showinfo "No images"
             "No saved images found. Upload in Editor first or choose a file."])
    | _ =>
        match picked ans with
        | Some pick => place_image fs ans self boards shown (i_saved_path pick)
        | None => mk_result self boards shown
        end
    end
  else if Py.truthy (chosen_file ans) then
    place_image fs ans self boards shown (chosen_file ans)
  else mk_result self boards shown.

(** The first step offers to create a board when none is open. *)
Definition add_image_to_board (self : t) (controller : MoodBoardApp)
    (boards_col : list board_doc) (images_col : list image_doc) (fs : FS.t)
    (ans : add_answers) (utcnow : datetime) (oid : nat) : result :=
  if Py.truthy_opt (current_board self) then
    choose_image controller images_col fs ans self boards_col []
  else if negb (create_now ans) then mk_result self boards_col []
  else
    let r := new_board self controller boards_col (new_name ans) utcnow oid in
    let self1 := refresh_board_list (r_page r) controller (r_boards r) in
    let self2 :=
      match _board_docs self1 with
      | d :: _ => set_current_board self1 (Some (b_board_name d))
      | [] => self1
      end in
    choose_image controller images_col fs ans self2 (r_boards r) (r_shown r).

(** A loaded entry [meta] comes from the stored [item]: the item's path
    is a non-empty path of a file that exists and opens, the position is
    the stored one, and the size is that of the thumbnail made for the
    stored box. *)
Definition loaded_from (fs : FS.t) (item : layout_item) (meta : meta) : Prop :=
  exists opened pil,
    li_path item = Some (m_path meta) /\ m_path meta <> ""
    /\ FS.exists_ fs (m_path meta) = true
    /\ FS.open fs (m_path meta) = Some opened
    /\ thumbnail (convert opened "RGBA")
         (get (li_w item) 200, get (li_h item) 200) = Some pil
    /\ m_x meta = get (li_x item) 0 /\ m_y meta = get (li_y item) 0
    /\ m_w meta = im_width pil /\ m_h meta = im_height pil.

(** An in-memory entry that a load gives back as it is: its path is
    non-empty, the file opens, and the thumbnail made for the box
    [(w, h)] of the entry has exactly that size. *)
Definition reloadable (fs : FS.t) (meta : meta) : Prop :=
  m_path meta <> ""
  /\ exists opened pil,
       FS.open fs (m_path meta) = Some opened
       /\ thumbnail (convert opened "RGBA") (m_w meta, m_h meta) = Some pil
       /\ im_width pil = m_w meta /\ im_height pil = m_h meta.

End Handlers.

(** The fields of a PlacedImage: path, x, y, w, h. *)
Definition placed (meta : meta) : string * Z * Z * Z * Z :=
  (m_path meta, m_x meta, m_y meta, m_w meta, m_h meta).

(** The stored form of an entry whose canvas item is where the entry says
    it is. *)
Definition item_of (meta : meta) : layout_item :=
  mk_layout_item (Some (m_path meta)) (Some (m_x meta)) (Some (m_y meta))
    (Some (m_w meta)) (Some (m_h meta)).

(** The canvas shows every entry where the entry says it is. *)
Definition canvas_agrees (self : t) : Prop :=
  forall meta, In meta (board_items self) ->
    match Canvas.coords (canvas self) (m_id meta) with
    | Some c => c = (m_x meta, m_y meta)
    | None => True
    end.

(** The invariant of the page: the entries have different canvas
    identifiers, every entry has its canvas item, at the position the
    entry records, and the canvas has handed out all identifiers in use. *)
Definition consistent (c : Canvas.t) (items : list meta) : Prop :=
  NoDup (map m_id items)
  /\ (forall meta, In meta items ->
        Canvas.coords c (m_id meta) = Some (m_x meta, m_y meta))
  /\ (forall it, In it (Canvas.items c) ->
        (Canvas.c_id it < Canvas.next_id c)%nat).

Definition page_ok (self : t) : Prop :=
  consistent (canvas self) (board_items self).

(** A stored layout whose items all carry a position. *)
Definition positions_present (layout : list layout_item) : Prop :=
  Forall (fun item => li_x item <> None /\ li_y item <> None) layout.

(** [on_canvas_click]: [overlapping] is what
    [canvas.find_overlapping(x, y, x, y)] returns, bottom to top. *)
Definition on_canvas_click (self : t) (event_x event_y : Z)
    (overlapping : list nat) : t :=
  match rev overlapping with
  | [] => set_selection self None (drag_offset self) (canvas self)
            (board_items self)
  | top :: _ =>
      match find (fun meta => Nat.eqb (m_id meta) top) (board_items self) with
      | Some meta =>
          match Canvas.coords (canvas self) (m_id meta) with
          | Some (cx, cy) =>
              set_selection self (Some (m_id meta))
                (event_x - cx, event_y - cy)
                (Canvas.tag_raise (canvas self) (m_id meta))
                (board_items self)
          | None =>
              set_selection self (Some (m_id meta)) (drag_offset self)
                (canvas self) (board_items self)
          end
      | None => self
      end
  end.

(** The entry [selected_item] aliases, moved to [(x, y)]. *)
Fixpoint move_meta (id : nat) (x y : Z) (items : list meta) : list meta :=
  match items with
  | [] => []
  | meta :: items' =>
      if Nat.eqb (m_id meta) id then
        mk_meta id (m_path meta) x y (m_w meta) (m_h meta) :: items'
      else meta :: move_meta id x y items'
  end.

Definition on_canvas_drag (self : t) (event_x event_y : Z) : t :=
  match selected_item self with
  | None => self
  | Some id =>
      let dx := event_x - fst (drag_offset self) in
      let dy := event_y - snd (drag_offset self) in
      set_selection self (Some id) (drag_offset self)
        (Canvas.move (canvas self) id dx dy)
        (move_meta id dx dy (board_items self))
  end.

Definition on_canvas_release (self : t) : t :=
  set_selection self None (drag_offset self) (canvas self) (board_items self).

Section BoardList.
Context {pillow : Pillow}.

(** [on_board_select]: [sel] is the first index of the list box's
    selection, if there is one.  An index outside [_board_docs] raises in
    [self._board_docs[idx]], which leaves the page as it is. *)
Definition on_board_select (self : t) (boards_col : list board_doc)
    (fs : FS.t) (sel : option nat) : t * list dialog :=
  match sel with
  | None => (self, [])
  | Some idx =>
      match nth_error (_board_docs self) idx with
      | Some doc => load_board self boards_col fs (b_id doc)
      | None => (self, [])
      end
  end.

(** [load_board_dialog]: [picked] is the selection dialog's
    [selected_doc]. *)
Definition load_board_dialog (self : t) (controller : MoodBoardApp)
    (boards_col : list board_doc) (fs : FS.t) (picked : option board_doc)
    : t * list dialog :=
  match current_user controller with
  | Some username =>
      if Py.truthy username then
        match Boards.find boards_col username with
        | [] =>
            (self, [showinfo "No boards" "You have not created any boards yet."])
        | _ :: _ =>
            match picked with
            | Some doc => load_board self boards_col fs (b_id doc)
            | None => (self, [])
            end
        end
      else (self, [showerror "Error" "Login first"])
  | None => (self, [showerror "Error" "Login first"])
  end.

(** [delete_selected_board]: [sel] as in [on_board_select], [confirm] the
    answer to "Delete board ...?". *)
Definition delete_selected_board (self : t) (controller : MoodBoardApp)
    (boards_col : list board_doc) (sel : option nat) (confirm : bool)
    : result :=
  match sel with
  | None =>
      mk_result self boards_col [showwarning "Select" "Pick a board to delete."]
  | Some idx =>
      match nth_error (_board_docs self) idx with
      | None => mk_result self boards_col []
      | Some doc =>
          if negb confirm then mk_result self boards_col []
          else
            let boards' := Boards.delete_one boards_col (b_id doc) in
            let self1 := refresh_board_list self controller boards' in
            let self2 :=
              match current_board self1 with
              | Some name =>
                  if String.eqb name (b_board_name doc) then clear_canvas self1
                  else self1
              | None => self1
              end in
            mk_result self2 boards' [showinfo "Deleted" "Board removed."]
      end
  end.

(** What the user does on the board page, with the answers and readings
    each handler needs. *)
Inductive event :=
| NewBoard (answer : option string) (utcnow : datetime) (oid : nat)
| AddImage (images_col : list image_doc) (fs : FS.t) (ans : add_answers)
    (utcnow : datetime) (oid : nat)
| Click (event_x event_y : Z) (overlapping : list nat)
| Drag (event_x event_y : Z)
| Release
| SaveBoard (utcnow : datetime) (oid : nat)
| SelectBoard (fs : FS.t) (sel : option nat)
| LoadBoard (fs : FS.t) (picked : option board_doc)
| DeleteBoard (sel : option nat) (confirm : bool)
| ClearCanvas.

(** One event on the page and the [boards] collection. *)
Definition handle (controller : MoodBoardApp) (st : t * list board_doc)
    (e : event) : t * list board_doc :=
  let '(self, boards_col) := st in
  match e with
  | NewBoard answer utcnow oid =>
      let r := new_board self controller boards_col answer utcnow oid in
      (r_page r, r_boards r)
  | AddImage images_col fs ans utcnow oid =>
      let r :=
        add_image_to_board self controller boards_col images_col fs ans
          utcnow oid in
      (r_page r, r_boards r)
  | Click event_x event_y overlapping =>
      (on_canvas_click self event_x event_y overlapping, boards_col)
  | Drag event_x event_y => (on_canvas_drag self event_x event_y, boards_col)
  | Release => (on_canvas_release self, boards_col)
  | SaveBoard utcnow oid =>
      let r := save_board self controller boards_col utcnow oid in
      (r_page r, r_boards r)
  | SelectBoard fs sel => (fst (on_board_select self boards_col fs sel), boards_col)
  | LoadBoard fs picked =>
      (fst (load_board_dialog self controller boards_col fs picked), boards_col)
  | DeleteBoard sel confirm =>
      let r := delete_selected_board self controller boards_col sel confirm in
      (r_page r, r_boards r)
  | ClearCanvas => (clear_canvas self, boards_col)
  end.

Definition run (controller : MoodBoardApp) (events : list event)
    (st : t * list board_doc) : t * list board_doc :=
  fold_left (handle controller) events st.

End BoardList.

End MoodBoardPage.

(** ** [DashboardPage] and [ProfilePage] *)

Module DashboardPage.

(** [on_show]: the text of the welcome label (its long dash is written
    in ASCII). *)
Definition on_show (controller : MoodBoardApp) : string :=
  let u :=
    match current_user controller with
    | Some name => if Py.truthy name then name else ""
    | None => ""
    end in
  "Welcome, " ++ u ++ " - create a new mood board or open your gallery!".

(** [do_logout], with the answer to "Are you sure you want to logout?". *)
Definition do_logout (controller : MoodBoardApp) (confirm : bool)
    : MoodBoardApp :=
  if confirm then Controller.logout controller else controller.

End DashboardPage.

Module ProfilePage.

(** [t.strftime("%Y-%m-%d %H:%M:%S")], for the years 1000 to 9999. *)
Definition strftime_seconds (t : datetime) : string :=
  zfill 4 (year t) ++ "-" ++ zfill 2 (month t) ++ "-" ++ zfill 2 (day t)
  ++ " " ++ zfill 2 (hour t) ++ ":" ++ zfill 2 (minute t) ++ ":"
  ++ zfill 2 (second t).

(** [on_show]: the text of the information label (the dash shown for a
    missing date is written in ASCII). *)
Definition on_show (controller : MoodBoardApp) (users_col : list user_doc)
    : string :=
  let u :=
    match current_user controller with
    | Some name => if Py.truthy name then name else "<not logged>"
    | None => "<not logged>"
    end in
  let created_str :=
    match Users.find_one users_col u with
    | Some doc => strftime_seconds (u_created_at doc)
    | None => "-"
    end in
  "Username: " ++ u ++ newline ++ "Member since: " ++ created_str.

End ProfilePage.

(** ** Instances for running the handlers

    The general statements below hold for every [Bcrypt] and every
    [Pillow].  To run the handlers on concrete inputs two instances are
    fixed here. *)

(** What follows the first ["$"] of [s]. *)
Fixpoint after_dollar (s : string) : string :=
  match s with
  | EmptyString => EmptyString
  | String c s' => if Ascii.eqb c "$"%char then s' else after_dollar s'
  end.

(** A stand-in for bcrypt whose hash is the salt, ["$"], and the password
    itself: enough to tell a verifying password from another one. *)
Definition plain_bcrypt : Bcrypt := {|
  hashpw p salt := salt ++ "$" ++ p;
  checkpw p hashed := String.eqb (after_dollar hashed) p |}.

(** The size [Image.thumbnail] gives an image of size [(W, H)] for the
    requested [(x, y)], after Pillow's [preserve_aspect_ratio]: nothing
    changes when the image fits; otherwise one side is kept and the other
    is the floor or the ceiling of the proportional length, whichever
    keeps the aspect ratio closer (the floor on a tie), and at least 1.
    Pillow compares the ratios in floating point; they are compared
    exactly here. *)
Definition ceil_div (a b : Z) : Z :=
  if a mod b =? 0 then a / b else a / b + 1.

Definition thumbnail_size (W H x y : Z) : Z * Z :=
  if (W <=? x) && (H <=? y) then (W, H)
  else if W * y <=? x * H then
    (* x / y >= aspect: the height is kept *)
    let f := (y * W) / H in
    let c := ceil_div (y * W) H in
    let n := if Z.abs (W * y - c * H) <? Z.abs (W * y - f * H) then c else f in
    (Z.max n 1, y)
  else
    let f := (x * H) / W in
    let c := ceil_div (x * H) W in
    let n :=
      if f =? 0 then f
      else if Z.abs (W * c - x * H) * f <? Z.abs (W * f - x * H) * c then c
      else f in
    (x, Z.max n 1).

(** Sizes follow Pillow; the pixel data is carried along unchanged (no
    statement below reads it).  A request with a side below 1 raises. *)
Definition pillow_sizes : Pillow := {|
  convert img mode := mk_image mode (im_width img) (im_height img) (im_data img);
  thumbnail img box :=
    if (1 <=? fst box) && (1 <=? snd box) then
      let '(w, h) :=
        thumbnail_size (im_width img) (im_height img) (fst box) (snd box) in
      Some (mk_image (im_mode img) w h (im_data img))
    else None;
  convert_mode img mode := eq_refl |}.

(** Sample values for running the handlers. *)

Definition t0 : datetime := mk_datetime 2024 3 9 7 5 1 42.

Definition t1 : datetime := mk_datetime 2024 3 9 7 6 30 977120.

Definition t2 : datetime := mk_datetime 2024 3 9 7 8 12 5310.

Definition app0 : MoodBoardApp := mk_app None None None None "LoginPage".

Definition alice_app : MoodBoardApp :=
  mk_app (Some "alice") None None None "MoodBoardPage".

Definition alice_doc : user_doc :=
  mk_user "alice" (hash_password (bcrypt := plain_bcrypt) "secret" "salt") t0.

(** A tall picture, a small icon, and the icon's path holding a file that
    is no image. *)
Definition fs_tall : FS.t :=
  [("/pics/tall.png", ImageFile (mk_image "RGB" 200 301 []))].

Definition fs_icon : FS.t :=
  [("/pics/icon.png", ImageFile (mk_image "RGBA" 64 48 []))].

Definition fs_broken : FS.t := [("/pics/icon.png", OtherFile)].

(** The answers of a user without open board who has a board "Trip"
    created and picks [file] from the disk. *)
Definition trip_answers (file : string) : MoodBoardPage.add_answers :=
  MoodBoardPage.mk_add_answers true (Some "Trip") false None file None.

(** "Add Image" on a fresh page, then "Save Board". *)
Definition added (fs : FS.t) (file : string) : MoodBoardPage.result :=
  MoodBoardPage.add_image_to_board (pillow := pillow_sizes)
    MoodBoardPage.init alice_app [] [] fs (trip_answers file) t0 1.

Definition saved (fs : FS.t) (file : string) : MoodBoardPage.result :=
  MoodBoardPage.save_board (MoodBoardPage.r_page (added fs file)) alice_app
    (MoodBoardPage.r_boards (added fs file)) t1 2.

(** The editor with a picture loaded, and "Save Edited" pressed at the
    clock readings [utcnow_file] (file name) and [utcnow_doc] (record). *)
Definition editor_app : MoodBoardApp :=
  mk_app (Some "alice") (Some "/home/alice/cat.jpg")
    (Some (mk_image "RGBA" 2 1 [0; 255])) (Some (mk_image "RGBA" 2 1 [0; 255]))
    "EditorPage".

Definition save_pressed (images_col : list image_doc) (fs : FS.t)
    (utcnow_file utcnow_doc : datetime) : EditorPage.save_result :=
  EditorPage.save_edited (pillow := pillow_sizes) EditorPage.neutral
    editor_app images_col fs utcnow_file utcnow_doc.

Definition cat_path : string := "uploads/alice/20240309T070501000042_cat.png".

(** * Properties *)

(** ** Python values and the [users] collection *)

Lemma truthy_true (s : string) : Py.truthy s = true <-> s <> "".
Proof. destruct s; simpl; split; congruence. Qed.

Lemma truthy_false (s : string) : Py.truthy s = false <-> s = "".
Proof. destruct s; simpl; split; congruence. Qed.

(** The guard [if not u or not p] of the two handlers of the login page. *)
Lemma missing_field_guard (u p : string) :
  negb (Py.truthy u) || negb (Py.truthy p) = false <-> u <> "" /\ p <> "".
Proof.
  rewrite orb_false_iff, !negb_false_iff, !truthy_true. tauto.
Qed.

Lemma find_app_none {A : Type} (f : A -> bool) (l l' : list A) :
  find f l = None -> find f (l ++ l') = find f l'.
Proof.
  induction l as [|a l IH]; simpl; [reflexivity|].
  destruct (f a); [discriminate | exact IH].
Qed.

Lemma find_app_some {A : Type} (f : A -> bool) (l l' : list A) (x : A) :
  find f l = Some x -> find f (l ++ l') = Some x.
Proof.
  induction l as [|a l IH]; simpl; [discriminate|].
  destruct (f a); [trivial | exact IH].
Qed.

Lemma find_filter_implied {A : Type} (f g : A -> bool) (l : list A) :
  (forall x, f x = true -> g x = true) ->
  find f (filter g l) = find f l.
Proof.
  intros Himp. induction l as [|a l IH]; simpl; [reflexivity|].
  destruct (g a) eqn:Hg; simpl.
  - now rewrite IH.
  - destruct (f a) eqn:Hfa; [|exact IH].
    rewrite (Himp a Hfa) in Hg. discriminate.
Qed.

Lemma find_none_intro {A : Type} (f : A -> bool) (l : list A) :
  (forall x, In x l -> f x = false) -> find f l = None.
Proof.
  induction l as [|a l IH]; simpl; [reflexivity|]. intros H.
  rewrite (H a (or_introl eq_refl)). apply IH. intros x Hx. apply H. now right.
Qed.

Lemma users_find_one_none (col : list user_doc) (u : string) :
  Users.find_one col u = None <->
  forall d, In d col -> u_username d <> u.
Proof.
  unfold Users.find_one. split.
  - intros H d Hd Heq.
    apply (find_none _ _ H) in Hd. rewrite Heq, String.eqb_refl in Hd.
    discriminate.
  - intros H. induction col as [|d col IH]; simpl; [reflexivity|].
    destruct (String.eqb_spec (u_username d) u) as [Heq|Hne].
    + exfalso. apply (H d); [left; reflexivity | exact Heq].
    + apply IH. intros d' Hd'. apply H. right. exact Hd'.
Qed.

Lemma users_find_one_some (col : list user_doc) (u : string) (doc : user_doc) :
  Users.find_one col u = Some doc -> In doc col /\ u_username doc = u.
Proof.
  unfold Users.find_one. intros H. apply find_some in H.
  destruct H as [Hin Heq]. apply String.eqb_eq in Heq. auto.
Qed.

(** With unique user names the record [find_one] returns is the only
    record of that name. *)
Lemma users_find_one_unique (col : list user_doc) (u : string) (doc : user_doc) :
  NoDup (map u_username col) -> In doc col -> u_username doc = u ->
  Users.find_one col u = Some doc.
Proof.
  unfold Users.find_one. induction col as [|d col IH]; simpl.
  - intros _ [].
  - intros Hnd Hin Hu. inversion Hnd as [|? ? Hnotin Hnd']; subst.
    destruct (String.eqb_spec (u_username d) (u_username doc)) as [Heq|Hne].
    + destruct Hin as [->|Hin]; [reflexivity|].
      exfalso. apply Hnotin. rewrite Heq. apply in_map. exact Hin.
    + destruct Hin as [->|Hin]; [congruence|]. apply IH; auto.
Qed.

(** ** Registration and login *)

Section LoginProperties.
Context {bcrypt : Bcrypt}.

(** A registration that goes through stores one record for the stripped
    user name, holding the hash of the password, and the record is the one
    later lookups find. *)
Lemma attempt_register_inserts (self : LoginPage.t) (users_col : list user_doc)
    (salt : string) (utcnow : datetime) :
  let u := Py.strip (LoginPage.username self) in
  let p := LoginPage.password self in
  u <> "" -> p <> "" -> Users.find_one users_col u = None ->
  let r := LoginPage.attempt_register self users_col salt utcnow in
  LoginPage.rr_users r
  = (users_col ++ [mk_user u (hash_password p salt) utcnow])%list
  /\ Users.find_one (LoginPage.rr_users r) u
     = Some (mk_user u (hash_password p salt) utcnow).
Proof.
  intros u p Hu Hp Hnone r. subst r. unfold LoginPage.attempt_register.
  fold u p.
  rewrite (proj2 (missing_field_guard u p) (conj Hu Hp)), Hnone. simpl.
  split; [reflexivity|].
  unfold Users.find_one, Users.insert_one in *.
  rewrite (find_app_none _ _ _ Hnone). simpl. rewrite String.eqb_refl. reflexivity.
Qed.

(** Registration keeps user names unique. *)
Lemma attempt_register_keeps_names_unique (self : LoginPage.t)
    (users_col : list user_doc) (salt : string) (utcnow : datetime) :
  NoDup (map u_username users_col) ->
  NoDup (map u_username
           (LoginPage.rr_users
              (LoginPage.attempt_register self users_col salt utcnow))).
Proof.
  intros Hnd. unfold LoginPage.attempt_register.
  destruct (negb _ || negb _); [exact Hnd|].
  destruct (Users.find_one users_col _) eqn:Hf; [exact Hnd|].
  simpl. unfold Users.insert_one. rewrite map_app. simpl.
  apply NoDup_app; [exact Hnd | repeat constructor; intros [] | ].
  intros a Ha [<-|[]]. apply in_map_iff in Ha. destruct Ha as [d [Hd Hin]].
  rewrite users_find_one_none in Hf. exact (Hf d Hin Hd).
Qed.

(** C8.  For a non-empty stripped user name [u] and a non-empty password
    [p], [attempt_login] logs [u] in (the controller's [login] is called,
    the two fields are cleared, no message box is shown) if and only if
    the [users] collection returns a record for [u] whose stored hash
    verifies [p]; when no record carries the name [u] the controller is
    left as it was and an error is shown. *)
Theorem attempt_login_succeeds_iff (self : LoginPage.t)
    (users_col : list user_doc) (controller : MoodBoardApp) :
  let u := Py.strip (LoginPage.username self) in
  let p := LoginPage.password self in
  let r := LoginPage.attempt_login self users_col controller in
  u <> "" -> p <> "" ->
  (r = LoginPage.mk_login_result (LoginPage.mk "" "")
         (Controller.login controller u) []
   <-> exists doc, Users.find_one users_col u = Some doc
                   /\ check_password p (u_password doc) = true)
  /\ ((forall d, In d users_col -> u_username d <> u) ->
      LoginPage.lr_app r = controller /\ LoginPage.lr_shown r <> []).
Proof.
  intros u p r Hu Hp. subst r. unfold LoginPage.attempt_login. fold u p.
  rewrite (proj2 (missing_field_guard u p) (conj Hu Hp)).
  split.
  - destruct (Users.find_one users_col u) as [doc|] eqn:Hf.
    + destruct (check_password p (u_password doc)) eqn:Hc.
      * split; [intros _; exists doc; auto | reflexivity].
      * split; [discriminate|].
        intros [doc' [Hd Hc']]. inversion Hd; subst. congruence.
    + split; [discriminate|]. intros [doc [Hd _]]. discriminate.
  - intros Habsent. apply users_find_one_none in Habsent.
    rewrite Habsent. simpl. split; [reflexivity | discriminate].
Qed.

(** C1 (amended).  A failed login with non-empty user name and password
    shows "No such user" exactly when the collection has no record for the
    name, and "Incorrect password" exactly when it has one whose hash does
    not verify the password; whenever a message box is shown the
    controller and the page are left as they were. *)
Theorem attempt_login_failure_errors (self : LoginPage.t)
    (users_col : list user_doc) (controller : MoodBoardApp) :
  let u := Py.strip (LoginPage.username self) in
  let p := LoginPage.password self in
  let r := LoginPage.attempt_login self users_col controller in
  u <> "" -> p <> "" ->
  (LoginPage.lr_shown r = [showerror "Not found" "No such user"]
   <-> Users.find_one users_col u = None)
  /\ (LoginPage.lr_shown r = [showerror "Unauthorized" "Incorrect password"]
      <-> exists doc, Users.find_one users_col u = Some doc
                      /\ check_password p (u_password doc) = false)
  /\ (LoginPage.lr_shown r <> [] ->
      LoginPage.lr_app r = controller /\ LoginPage.lr_page r = self).
Proof.
  intros u p r Hu Hp. subst r. unfold LoginPage.attempt_login. fold u p.
  rewrite (proj2 (missing_field_guard u p) (conj Hu Hp)).
  destruct (Users.find_one users_col u) as [doc|] eqn:Hf.
  - destruct (check_password p (u_password doc)) eqn:Hc; simpl.
    + repeat split; try discriminate; try congruence.
      intros [doc' [Hd Hc']]. inversion Hd; subst. congruence.
    + repeat split; try discriminate; try congruence.
      intros _. exists doc. auto.
  - simpl. repeat split; try discriminate; try congruence.
    intros [doc [Hd _]]. discriminate.
Qed.

(** C6 (amended).  When the collection already returns a record for the
    stripped user name, [attempt_register] leaves the collection as it is,
    so the record and its hash stay; the message shown is "Username
    already exists" exactly when user name and password are both
    non-empty, and the missing-field warning otherwise. *)
Theorem attempt_register_existing_user (self : LoginPage.t)
    (users_col : list user_doc) (salt : string) (utcnow : datetime)
    (doc : user_doc) :
  let u := Py.strip (LoginPage.username self) in
  let p := LoginPage.password self in
  let r := LoginPage.attempt_register self users_col salt utcnow in
  Users.find_one users_col u = Some doc ->
  LoginPage.rr_users r = users_col
  /\ Users.find_one (LoginPage.rr_users r) u = Some doc
  /\ (LoginPage.rr_shown r = [showerror "Exists" "Username already exists"]
      <-> u <> "" /\ p <> "")
  /\ (LoginPage.rr_shown r
      = [showwarning "Missing" "Provide username and password"]
      <-> u = "" \/ p = "").
Proof.
  intros u p r Hf. subst r. unfold LoginPage.attempt_register. fold u p.
  rewrite Hf.
  destruct (negb (Py.truthy u) || negb (Py.truthy p)) eqn:Hg; simpl.
  - assert (Hmiss : u = "" \/ p = "").
    { apply orb_true_iff in Hg.
      destruct Hg as [H|H]; apply negb_true_iff, truthy_false in H; auto. }
    repeat split; auto; try discriminate.
    intros [Hu Hp]. destruct Hmiss; contradiction.
  - apply missing_field_guard in Hg.
    repeat split; auto; try discriminate; try tauto.
Qed.

End LoginProperties.

Lemma attempt_login_succeeds_iff_witness :
  let self := LoginPage.mk "  alice " "secret" in
  let r := LoginPage.attempt_login (bcrypt := plain_bcrypt) self [alice_doc] app0 in
  Py.strip (LoginPage.username self) <> "" /\ LoginPage.password self <> ""
  /\ (r = LoginPage.mk_login_result (LoginPage.mk "" "")
           (Controller.login app0 "alice") []
      <-> exists doc, Users.find_one [alice_doc] "alice" = Some doc
            /\ check_password (bcrypt := plain_bcrypt) "secret" (u_password doc)
               = true)
  /\ ((forall d, In d [alice_doc] -> u_username d <> "alice") ->
      LoginPage.lr_app r = app0 /\ LoginPage.lr_shown r <> []).
Proof.
  intros self r.
  assert (Hu : Py.strip (LoginPage.username self) <> "") by (cbv; discriminate).
  assert (Hp : LoginPage.password self <> "") by (cbv; discriminate).
  split; [exact Hu|]. split; [exact Hp|].
  exact (attempt_login_succeeds_iff (bcrypt := plain_bcrypt)
           self [alice_doc] app0 Hu Hp).
Defined.

(** C1, as stated, fails: with the same credentials the error for an
    unknown user name differs from the error for a wrong password. *)
Lemma login_error_reveals_account :
  let self := LoginPage.mk "alice" "wrong" in
  let absent := LoginPage.attempt_login (bcrypt := plain_bcrypt) self [] app0 in
  let wrong :=
    LoginPage.attempt_login (bcrypt := plain_bcrypt) self [alice_doc] app0 in
  LoginPage.lr_shown absent = [showerror "Not found" "No such user"]
  /\ LoginPage.lr_shown wrong = [showerror "Unauthorized" "Incorrect password"]
  /\ LoginPage.lr_app absent = app0 /\ LoginPage.lr_app wrong = app0
  /\ LoginPage.lr_shown absent <> LoginPage.lr_shown wrong.
Proof.
  cbv. repeat split; discriminate.
Qed.

Lemma attempt_login_failure_errors_witness :
  let self := LoginPage.mk "alice" "wrong" in
  let r := LoginPage.attempt_login (bcrypt := plain_bcrypt) self [alice_doc] app0 in
  Py.strip (LoginPage.username self) <> "" /\ LoginPage.password self <> ""
  /\ (LoginPage.lr_shown r = [showerror "Not found" "No such user"]
      <-> Users.find_one [alice_doc] "alice" = None)
  /\ (LoginPage.lr_shown r = [showerror "Unauthorized" "Incorrect password"]
      <-> exists doc, Users.find_one [alice_doc] "alice" = Some doc
            /\ check_password (bcrypt := plain_bcrypt) "wrong" (u_password doc)
               = false)
  /\ (LoginPage.lr_shown r <> [] ->
      LoginPage.lr_app r = app0 /\ LoginPage.lr_page r = self).
Proof.
  intros self r.
  assert (Hu : Py.strip (LoginPage.username self) <> "") by (cbv; discriminate).
  assert (Hp : LoginPage.password self <> "") by (cbv; discriminate).
  split; [exact Hu|]. split; [exact Hp|].
  exact (attempt_login_failure_errors (bcrypt := plain_bcrypt)
           self [alice_doc] app0 Hu Hp).
Defined.

(** C6, as stated, fails: registering an existing user name with an empty
    password stops at the missing-field warning, not at "already exists". *)
Lemma register_existing_empty_password :
  let r :=
    LoginPage.attempt_register (bcrypt := plain_bcrypt)
      (LoginPage.mk "alice" "") [alice_doc] "salt2" t1 in
  Users.find_one [alice_doc] "alice" = Some alice_doc
  /\ LoginPage.rr_shown r
     = [showwarning "Missing" "Provide username and password"]
  /\ LoginPage.rr_shown r <> [showerror "Exists" "Username already exists"].
Proof.
  cbv. repeat split; discriminate.
Qed.

Lemma attempt_register_existing_user_witness :
  let self := LoginPage.mk "alice " "other" in
  let r :=
    LoginPage.attempt_register (bcrypt := plain_bcrypt) self [alice_doc]
      "salt2" t1 in
  Users.find_one [alice_doc] (Py.strip (LoginPage.username self))
  = Some alice_doc
  /\ LoginPage.rr_users r = [alice_doc]
  /\ Users.find_one (LoginPage.rr_users r) "alice" = Some alice_doc
  /\ (LoginPage.rr_shown r = [showerror "Exists" "Username already exists"]
      <-> "alice" <> "" /\ "other" <> "")
  /\ (LoginPage.rr_shown r
      = [showwarning "Missing" "Provide username and password"]
      <-> "alice" = "" \/ "other" = "").
Proof.
  intros self r.
  assert (Hf : Users.find_one [alice_doc] (Py.strip (LoginPage.username self))
               = Some alice_doc) by reflexivity.
  split; [exact Hf|].
  exact (attempt_register_existing_user (bcrypt := plain_bcrypt)
           self [alice_doc] "salt2" t1 alice_doc Hf).
Defined.

(** ** The editor's filters *)

Section EditorProperties.
Context {pillow : Pillow} {filters : PillowFilters}.

(** C4.  Whatever the previous working image, [apply_filters] sets the
    working image to the result of running, on a copy of the original
    image, the adjustments that are switched on in the fixed order
    grayscale, Gaussian blur (radius above 0.01), brightness (factor
    further than 0.001 from 1), contrast (same rule); the original image,
    the user, the path and the page stay as they were.  The grayscale
    step goes through mode L and comes back in mode RGBA, the mode of
    every original image of the editor. *)
Theorem apply_filters_pipeline (self : EditorPage.t) (user path : option string)
    (base : image) (work : option image) (page : string) :
  EditorPage.apply_filters self (mk_app user path (Some base) work page)
  = mk_app user path (Some base)
      (Some (EditorPage.filter_pipeline self base)) page
  /\ im_mode (EditorPage.run_stage base EditorPage.Grayscale) = "RGBA".
Proof.
  split; [|apply convert_mode].
  unfold EditorPage.apply_filters, EditorPage.filter_pipeline,
    EditorPage.enabled_stages, Controller.set_work_image.
  cbn [current_original_image current_user current_image_path raised_page].
  destruct (EditorPage.var_grayscale self);
    destruct (0.01 <? EditorPage.blur_var self)%float;
    destruct (1e-3 <? abs (EditorPage.brightness_var self - 1.0))%float;
    destruct (1e-3 <? abs (EditorPage.contrast_var self - 1.0))%float;
    reflexivity.
Qed.

(** C5.  With the filters at their neutral values (grayscale off, blur 0,
    brightness 1.0, contrast 1.0) the working image [apply_filters] sets is
    the original image itself. *)
Theorem apply_filters_neutral (user path : option string) (base : image)
    (work : option image) (page : string) :
  EditorPage.apply_filters (EditorPage.mk false 0%float 1%float 1%float)
    (mk_app user path (Some base) work page)
  = mk_app user path (Some base) (Some base) page.
Proof.
  unfold EditorPage.apply_filters, Controller.set_work_image, copy.
  reflexivity.
Qed.

(** The original image of the editor is the uploaded file converted to
    RGBA, and an upload resets the filters to neutral: applying them right
    after an upload leaves that converted image as the working image. *)
Lemma upload_then_apply_filters (self : EditorPage.t) (controller : MoodBoardApp)
    (fs : FS.t) (path : string) (opened : image) :
  path <> "" -> FS.open fs path = Some opened ->
  let '(self', controller', _) :=
    EditorPage.upload_image self controller fs path in
  self' = EditorPage.neutral
  /\ current_original_image controller' = Some (convert opened "RGBA")
  /\ im_mode (convert opened "RGBA") = "RGBA"
  /\ current_work_image (EditorPage.apply_filters self' controller')
     = Some (convert opened "RGBA").
Proof.
  intros Hp Ho. unfold EditorPage.upload_image.
  apply truthy_true in Hp. rewrite Hp, Ho. cbv beta iota zeta.
  repeat split. apply convert_mode.
Qed.

End EditorProperties.

(** ** Stored file names *)

Lemma append_length (a b : string) :
  String.length (a ++ b) = (String.length a + String.length b)%nat.
Proof. induction a as [|c a IH]; simpl; [reflexivity | now rewrite IH]. Qed.

Lemma append_assoc (a b c : string) : (a ++ b) ++ c = a ++ (b ++ c).
Proof. induction a as [|x a IH]; simpl; [reflexivity | now rewrite IH]. Qed.

(** Two concatenations whose first parts have the same length agree part
    by part. *)
Lemma append_inj_length (a a' b b' : string) :
  String.length a = String.length a' -> a ++ b = a' ++ b' ->
  a = a' /\ b = b'.
Proof.
  revert a'. induction a as [|c a IH]; intros [|c' a'] Hlen Heq;
    simpl in *; try discriminate.
  - auto.
  - injection Heq as Hc Hrest. injection Hlen as Hlen.
    destruct (IH a' Hlen Hrest) as [-> ->]. subst. auto.
Qed.

Lemma append_inj_suffix (a a' t : string) : a ++ t = a' ++ t -> a = a'.
Proof.
  intros Heq.
  assert (Hlen : String.length a = String.length a').
  { apply (f_equal String.length) in Heq. rewrite !append_length in Heq. lia. }
  exact (proj1 (append_inj_length a a' t t Hlen Heq)).
Qed.

Lemma append_inj_prefix (a b b' : string) : a ++ b = a ++ b' -> b = b'.
Proof.
  intros Heq. exact (proj2 (append_inj_length a a b b' eq_refl Heq)).
Qed.

Lemma digit_inj (n m : Z) :
  0 <= n < 10 -> 0 <= m < 10 -> digit n = digit m -> n = m.
Proof.
  intros Hn Hm H. unfold digit in H.
  apply (f_equal nat_of_ascii) in H.
  rewrite !nat_ascii_embedding in H by lia. lia.
Qed.

Lemma digit_not_sep (n : Z) : 0 <= n < 10 -> digit n <> OsPath.sep.
Proof.
  intros Hn H. unfold digit in H.
  apply (f_equal nat_of_ascii) in H.
  rewrite nat_ascii_embedding in H by lia.
  change (nat_of_ascii OsPath.sep) with 47%nat in H. lia.
Qed.

Lemma zfill_length (k : nat) (n : Z) : String.length (zfill k n) = k.
Proof.
  revert n. induction k as [|k IH]; intros n; simpl; [reflexivity|].
  rewrite append_length, IH. simpl. lia.
Qed.

(** On [k] digits the numbers below [10^k] are written differently. *)
Lemma zfill_inj (k : nat) (n m : Z) :
  0 <= n < 10 ^ Z.of_nat k -> 0 <= m < 10 ^ Z.of_nat k ->
  zfill k n = zfill k m -> n = m.
Proof.
  revert n m. induction k as [|k IH]; intros n m Hn Hm H.
  - simpl in Hn, Hm. lia.
  - simpl in H.
    apply append_inj_length in H; [|now rewrite !zfill_length].
    destruct H as [Hhi Hlo]. injection Hlo as Hlo.
    rewrite Nat2Z.inj_succ, Z.pow_succ_r in Hn, Hm by lia.
    apply digit_inj in Hlo; try (apply Z.mod_pos_bound; lia).
    apply IH in Hhi.
    + rewrite (Z.div_mod n 10), (Z.div_mod m 10) by lia. congruence.
    + split; [apply Z.div_pos; lia | apply Z.div_lt_upper_bound; lia].
    + split; [apply Z.div_pos; lia | apply Z.div_lt_upper_bound; lia].
Qed.

(** A zero-padded number starts with a digit, not with a separator. *)
Lemma zfill_head (k : nat) (n : Z) :
  exists c rest, zfill (S k) n = String c rest /\ c <> OsPath.sep.
Proof.
  revert n. induction k as [|k IH]; intros n.
  - simpl. exists (digit (n mod 10)), "". split; [reflexivity|].
    apply digit_not_sep. apply Z.mod_pos_bound. lia.
  - destruct (IH (n / 10)) as [c [rest [Heq Hc]]].
    change (zfill (S (S k)) n)
      with (zfill (S k) (n / 10) ++ String (digit (n mod 10)) "").
    rewrite Heq. simpl. eauto.
Qed.

Lemma strftime_stamp_length (t : datetime) :
  String.length (strftime_stamp t) = 21%nat.
Proof.
  unfold strftime_stamp. rewrite !append_length, !zfill_length. reflexivity.
Qed.

(** The stamp determines the reading of the clock. *)
Lemma strftime_stamp_inj (t t' : datetime) :
  valid_datetime t -> valid_datetime t' ->
  strftime_stamp t = strftime_stamp t' -> t = t'.
Proof.
  intros (Hy & Hmo & Hd & Hh & Hmi & Hs & Hus)
         (Hy' & Hmo' & Hd' & Hh' & Hmi' & Hs' & Hus') H.
  unfold strftime_stamp in H.
  repeat match type of H with
  | zfill ?k _ ++ _ = zfill ?k _ ++ _ =>
      apply append_inj_length in H; [|now rewrite !zfill_length];
      let H1 := fresh "E" in destruct H as [H1 H];
      apply zfill_inj in H1; [|simpl; lia|simpl; lia]
  | "T" ++ _ = "T" ++ _ => apply append_inj_prefix in H
  end.
  apply zfill_inj in H; [|simpl; lia|simpl; lia].
  destruct t, t'; simpl in *; congruence.
Qed.

Lemma strftime_stamp_head (t : datetime) :
  exists c rest, strftime_stamp t = String c rest /\ c <> OsPath.sep.
Proof.
  unfold strftime_stamp.
  destruct (zfill_head 3 (year t)) as [c [rest [Heq Hc]]].
  rewrite Heq. simpl. eauto.
Qed.

(** Joining a folder with names that do not start with a separator keeps
    different names apart. *)
Lemma join_inj (a : string) (c c' : ascii) (b b' : string) :
  c <> OsPath.sep -> c' <> OsPath.sep ->
  OsPath.join a (String c b) = OsPath.join a (String c' b') ->
  String c b = String c' b'.
Proof.
  intros Hc Hc'. unfold OsPath.join.
  apply Ascii.eqb_neq in Hc, Hc'. rewrite Hc, Hc'.
  destruct (negb (Py.truthy a) || OsPath.ends_with_sep a); intros H.
  - exact (append_inj_prefix _ _ _ H).
  - apply append_inj_prefix in H. now injection H as -> ->.
Qed.

Lemma save_image_file_path (img : image) (username orig : string)
    (now : datetime) (fs : FS.t) :
  fst (save_image_file img username orig now fs)
  = OsPath.join (OsPath.join UPLOAD_ROOT username)
      (strftime_stamp now ++ "_"
       ++ fst (OsPath.splitext (OsPath.basename orig)) ++ ".png").
Proof.
  unfold save_image_file.
  destruct (OsPath.splitext (OsPath.basename orig)) as [base ext].
  reflexivity.
Qed.

(** C7 (amended).  The stored file is named by the 21-character UTC stamp
    of the clock reading, which ends in the six digits of the
    microsecond, then ["_"], the original base name without directory and
    extension, and [".png"], inside the user's folder.  Two saves of one
    user give the same path exactly when their clock readings and their
    base names are the same. *)
Theorem save_image_file_names (img1 img2 : image)
    (username orig1 orig2 : string) (now1 now2 : datetime) (fs1 fs2 : FS.t) :
  valid_datetime now1 -> valid_datetime now2 ->
  let base1 := fst (OsPath.splitext (OsPath.basename orig1)) in
  let base2 := fst (OsPath.splitext (OsPath.basename orig2)) in
  let path1 := fst (save_image_file img1 username orig1 now1 fs1) in
  let path2 := fst (save_image_file img2 username orig2 now2 fs2) in
  path1 = OsPath.join (OsPath.join UPLOAD_ROOT username)
            (strftime_stamp now1 ++ "_" ++ base1 ++ ".png")
  /\ (exists date_time,
        String.length date_time = 15%nat
        /\ strftime_stamp now1 = date_time ++ zfill 6 (microsecond now1))
  /\ (path1 = path2 <-> now1 = now2 /\ base1 = base2).
Proof.
  intros Hv1 Hv2 base1 base2 path1 path2. subst path1 path2.
  rewrite !save_image_file_path. fold base1 base2.
  split; [reflexivity|]. split.
  - exists (zfill 4 (year now1) ++ zfill 2 (month now1) ++ zfill 2 (day now1)
            ++ "T" ++ zfill 2 (hour now1) ++ zfill 2 (minute now1)
            ++ zfill 2 (second now1)).
    split.
    + rewrite !append_length, !zfill_length. reflexivity.
    + unfold strftime_stamp. rewrite !append_assoc. reflexivity.
  - split.
    + intros H.
      destruct (strftime_stamp_head now1) as [c1 [r1 [E1 Hc1]]].
      destruct (strftime_stamp_head now2) as [c2 [r2 [E2 Hc2]]].
      assert (Hnames :
        strftime_stamp now1 ++ "_" ++ base1 ++ ".png"
        = strftime_stamp now2 ++ "_" ++ base2 ++ ".png").
      { rewrite E1, E2 in *. simpl in *.
        exact (join_inj _ _ _ _ _ Hc1 Hc2 H). }
      apply append_inj_length in Hnames;
        [|now rewrite !strftime_stamp_length].
      destruct Hnames as [Hstamp Hrest].
      split; [exact (strftime_stamp_inj _ _ Hv1 Hv2 Hstamp)|].
      apply (append_inj_prefix "_") in Hrest.
      exact (append_inj_suffix _ _ _ Hrest).
    + intros [-> ->]. reflexivity.
Qed.

Lemma save_image_file_names_witness :
  let img := mk_image "RGBA" 2 1 [0; 255] in
  let base1 := fst (OsPath.splitext (OsPath.basename "cat.jpg")) in
  let base2 := fst (OsPath.splitext (OsPath.basename "/tmp/dog.v2.png")) in
  let path1 := fst (save_image_file img "alice" "cat.jpg" t0 []) in
  let path2 := fst (save_image_file img "alice" "/tmp/dog.v2.png" t1 []) in
  valid_datetime t0 /\ valid_datetime t1
  /\ path1 = OsPath.join (OsPath.join UPLOAD_ROOT "alice")
              (strftime_stamp t0 ++ "_" ++ base1 ++ ".png")
  /\ (exists date_time,
        String.length date_time = 15%nat
        /\ strftime_stamp t0 = date_time ++ zfill 6 (microsecond t0))
  /\ (path1 = path2 <-> t0 = t1 /\ base1 = base2).
Proof.
  intros img base1 base2 path1 path2.
  assert (H0 : valid_datetime t0) by (unfold valid_datetime, t0; simpl; lia).
  assert (H1 : valid_datetime t1) by (unfold valid_datetime, t1; simpl; lia).
  split; [exact H0|]. split; [exact H1|].
  exact (save_image_file_names img img "alice" "cat.jpg" "/tmp/dog.v2.png"
           t0 t1 [] [] H0 H1).
Defined.

Example save_image_file_sample :
  fst (save_image_file (mk_image "RGBA" 2 1 [0; 255]) "alice"
         "/home/alice/cat.photo.jpg" t0 [])
  = "uploads/alice/20240309T070501000042_cat.photo.png".
Proof. reflexivity. Qed.

(** C7, as stated, fails: two successive saves of one user that read the
    same value from the clock are written to the same path, the second
    replacing the file of the first.  (The name is computed from the clock
    and the base name alone; the files already stored are not looked
    at.) *)
Lemma save_image_file_same_reading :
  let first :=
    save_image_file (mk_image "RGBA" 1 1 [7]) "alice" "cat.jpg" t0 [] in
  let second :=
    save_image_file (mk_image "RGBA" 1 1 [9]) "alice" "cat.bmp" t0
      (snd first) in
  fst first = fst second
  /\ FS.lookup (snd first) (fst first)
     = Some (ImageFile (mk_image "RGBA" 1 1 [7]))
  /\ FS.lookup (snd second) (fst first)
     = Some (ImageFile (mk_image "RGBA" 1 1 [9])).
Proof. cbv. repeat split. Qed.

(** ** Saving a board *)

Lemma keyed_refl (u name : string) (id : nat) (layout : list layout_item)
    (now : datetime) :
  Boards.keyed u name (mk_board id u name layout now) = true.
Proof. unfold Boards.keyed. simpl. now rewrite !String.eqb_refl. Qed.

(** What [set_first] does to the records under the pair: the first of them
    takes the new layout and time, the others stay. *)
Lemma set_first_records (u name : string) (layout : list layout_item)
    (now : datetime) (col : list board_doc) :
  match Boards.set_first u name layout now col with
  | Some col' =>
      exists d rest,
        Boards.records_for u name col = d :: rest
        /\ Boards.records_for u name col'
           = mk_board (b_id d) u name layout now :: rest
  | None => Boards.records_for u name col = []
  end.
Proof.
  unfold Boards.records_for.
  induction col as [|d col IH]; simpl; [reflexivity|].
  destruct (Boards.keyed u name d) eqn:Hk.
  - exists d, (filter (Boards.keyed u name) col). simpl.
    rewrite keyed_refl. auto.
  - destruct (Boards.set_first u name layout now col) as [col'|].
    + destruct IH as [d0 [rest [H1 H2]]]. exists d0, rest. simpl.
      rewrite Hk. auto.
    + exact IH.
Qed.

(** The upsert on the records under its pair. *)
Lemma update_one_upsert_records (col : list board_doc) (u name : string)
    (layout : list layout_item) (now : datetime) (oid : nat) :
  Boards.records_for u name
    (Boards.update_one_upsert col u name layout now oid)
  = match Boards.records_for u name col with
    | [] => [mk_board oid u name layout now]
    | d :: rest => mk_board (b_id d) u name layout now :: rest
    end.
Proof.
  unfold Boards.update_one_upsert.
  pose proof (set_first_records u name layout now col) as H.
  destruct (Boards.set_first u name layout now col) as [col'|].
  - destruct H as [d [rest [H1 H2]]]. rewrite H1. exact H2.
  - rewrite H. unfold Boards.records_for in *.
    rewrite filter_app, H. simpl. now rewrite keyed_refl.
Qed.

(** The records under other pairs are not touched by the upsert. *)
Lemma update_one_upsert_others (col : list board_doc) (u name : string)
    (layout : list layout_item) (now : datetime) (oid : nat) :
  filter (fun d => negb (Boards.keyed u name d))
    (Boards.update_one_upsert col u name layout now oid)
  = filter (fun d => negb (Boards.keyed u name d)) col.
Proof.
  unfold Boards.update_one_upsert.
  destruct (Boards.set_first u name layout now col) as [col'|] eqn:Hs.
  - revert col' Hs. induction col as [|d col IH]; intros col' Hs;
      simpl in Hs; [discriminate|].
    destruct (Boards.keyed u name d) eqn:Hk.
    + injection Hs as <-. simpl. now rewrite keyed_refl, Hk.
    + destruct (Boards.set_first u name layout now col) as [r|];
        [|discriminate].
      injection Hs as <-. simpl. rewrite Hk. simpl. f_equal. now apply IH.
  - rewrite filter_app. simpl. rewrite keyed_refl. simpl.
    now rewrite app_nil_r.
Qed.

(** [save_board] for a logged-in owner and an open board is the upsert of
    the layout built from the canvas. *)
Lemma save_board_upserts (page : MoodBoardPage.t) (controller : MoodBoardApp)
    (boards_col : list board_doc) (owner name : string) (now : datetime)
    (oid : nat) :
  current_user controller = Some owner ->
  MoodBoardPage.current_board page = Some name ->
  owner <> "" -> name <> "" ->
  MoodBoardPage.r_boards
    (MoodBoardPage.save_board page controller boards_col now oid)
  = Boards.update_one_upsert boards_col owner name
      (MoodBoardPage.layout_of page) now oid.
Proof.
  intros Hu Hb Ho Hn. unfold MoodBoardPage.save_board.
  apply truthy_true in Ho, Hn. now rewrite Hb, Hn, Hu, Ho.
Qed.

(** C2 (amended).  When the board store holds at most one record for the
    pair (owner, name), both non-empty, two saves under that pair leave
    exactly one record for it, carrying the layout and the time of the
    second save. *)
Theorem save_board_twice (page1 page2 : MoodBoardPage.t)
    (controller : MoodBoardApp) (boards_col : list board_doc)
    (owner name : string) (now1 now2 : datetime) (oid1 oid2 : nat) :
  current_user controller = Some owner ->
  MoodBoardPage.current_board page1 = Some name ->
  MoodBoardPage.current_board page2 = Some name ->
  owner <> "" -> name <> "" ->
  (List.length (Boards.records_for owner name boards_col) <= 1)%nat ->
  let boards1 :=
    MoodBoardPage.r_boards
      (MoodBoardPage.save_board page1 controller boards_col now1 oid1) in
  let boards2 :=
    MoodBoardPage.r_boards
      (MoodBoardPage.save_board page2 controller boards1 now2 oid2) in
  exists id,
    Boards.records_for owner name boards2
    = [mk_board id owner name (MoodBoardPage.layout_of page2) now2].
Proof.
  intros Hu Hb1 Hb2 Ho Hn Hone boards1 boards2. subst boards1 boards2.
  rewrite (save_board_upserts page1 controller boards_col owner name now1 oid1)
    by assumption.
  rewrite (save_board_upserts page2 controller _ owner name now2 oid2)
    by assumption.
  rewrite !update_one_upsert_records.
  destruct (Boards.records_for owner name boards_col) as [|d [|d' rest]].
  - exists oid1. reflexivity.
  - exists (b_id d). reflexivity.
  - simpl in Hone. lia.
Qed.

Lemma save_board_twice_witness :
  let page := MoodBoardPage.set_current_board MoodBoardPage.init (Some "Trip") in
  let boards1 :=
    MoodBoardPage.r_boards (MoodBoardPage.save_board page alice_app [] t1 7) in
  let boards2 :=
    MoodBoardPage.r_boards
      (MoodBoardPage.save_board page alice_app boards1 t2 8) in
  current_user alice_app = Some "alice"
  /\ MoodBoardPage.current_board page = Some "Trip"
  /\ "alice" <> "" /\ "Trip" <> ""
  /\ (List.length (Boards.records_for "alice" "Trip" []) <= 1)%nat
  /\ exists id,
       Boards.records_for "alice" "Trip" boards2
       = [mk_board id "alice" "Trip" (MoodBoardPage.layout_of page) t2].
Proof.
  intros page boards1 boards2.
  assert (Hu : current_user alice_app = Some "alice") by reflexivity.
  assert (Hb : MoodBoardPage.current_board page = Some "Trip") by reflexivity.
  assert (Ho : "alice" <> "") by discriminate.
  assert (Hn : "Trip" <> "") by discriminate.
  assert (Hone : (List.length (Boards.records_for "alice" "Trip" []) <= 1)%nat)
    by (simpl; lia).
  repeat (split; [assumption|]).
  exact (save_board_twice page page alice_app [] "alice" "Trip" t1 t2 7 8
           Hu Hb Hb Ho Hn Hone).
Defined.

(** C2, as stated, fails: "New Board" does not look for a board of the
    same name, so the store can hold two records for one pair; each save
    then updates the first of them and both stay. *)
Lemma save_board_duplicate_names :
  let created1 :=
    MoodBoardPage.new_board MoodBoardPage.init alice_app [] (Some "Trip")
      t0 1 in
  let created2 :=
    MoodBoardPage.new_board (MoodBoardPage.r_page created1) alice_app
      (MoodBoardPage.r_boards created1) (Some "Trip") t0 2 in
  let page :=
    fst (MoodBoardPage.load_board (pillow := pillow_sizes)
           (MoodBoardPage.r_page created2) (MoodBoardPage.r_boards created2)
           [] 1) in
  let saved1 :=
    MoodBoardPage.save_board page alice_app
      (MoodBoardPage.r_boards created2) t1 3 in
  let saved2 :=
    MoodBoardPage.save_board (MoodBoardPage.r_page saved1) alice_app
      (MoodBoardPage.r_boards saved1) t2 4 in
  Boards.records_for "alice" "Trip" (MoodBoardPage.r_boards saved2)
  = [mk_board 1 "alice" "Trip" [] t2; mk_board 2 "alice" "Trip" [] t0].
Proof. reflexivity. Qed.

(** ** Loading a board *)

Lemma open_exists (fs : FS.t) (path : string) (img : image) :
  FS.open fs path = Some img -> FS.exists_ fs path = true.
Proof.
  unfold FS.open, FS.exists_. destruct (FS.lookup fs path); [reflexivity|].
  discriminate.
Qed.

Section BoardProperties.
Context {pillow : Pillow}.

(** The loop of [load_board] appends to the entries it starts from; every
    entry it appends comes from an item of the stored layout and sits on a
    canvas item created by the loop. *)
Lemma load_items_spec (fs : FS.t) (layout : list layout_item) :
  forall (c : Canvas.t) (items : list MoodBoardPage.meta),
  exists new,
    snd (MoodBoardPage.load_items fs layout c items) = (items ++ new)%list
    /\ Forall (fun meta =>
                (exists item, In item layout
                              /\ MoodBoardPage.loaded_from fs item meta)
                /\ (Canvas.next_id c <= MoodBoardPage.m_id meta)%nat) new
    /\ (Canvas.next_id c
        <= Canvas.next_id (fst (MoodBoardPage.load_items fs layout c items)))%nat
    /\ (List.length new <= List.length layout)%nat.
Proof.
  induction layout as [|item layout IH]; intros c items.
  - exists []. simpl. rewrite app_nil_r. auto.
  - assert (Hskip :
      exists new,
        snd (MoodBoardPage.load_items fs layout c items) = (items ++ new)%list
        /\ Forall (fun meta =>
                    (exists it, In it (item :: layout)
                                /\ MoodBoardPage.loaded_from fs it meta)
                    /\ (Canvas.next_id c <= MoodBoardPage.m_id meta)%nat) new
        /\ (Canvas.next_id c
            <= Canvas.next_id
                 (fst (MoodBoardPage.load_items fs layout c items)))%nat
        /\ (List.length new <= List.length (item :: layout))%nat).
    { destruct (IH c items) as [new [H1 [H2 [H3 H4]]]]. exists new.
      repeat split; auto.
      - eapply Forall_impl; [|exact H2]. intros m [[it [Hin Hl]] Hid].
        split; [exists it; split; [right|]; assumption | assumption].
      - simpl. lia. }
    simpl.
    destruct (li_path item) as [path|] eqn:Hpath; [|exact Hskip].
    destruct (negb (Py.truthy path) || negb (FS.exists_ fs path)) eqn:Hg;
      [exact Hskip|].
    destruct (FS.open fs path) as [opened|] eqn:Hopen; [|exact Hskip].
    destruct (thumbnail (convert opened "RGBA")
                (MoodBoardPage.get (li_w item) 200,
                 MoodBoardPage.get (li_h item) 200)) as [pil|] eqn:Hth;
      [|exact Hskip].
    simpl.
    set (meta := MoodBoardPage.mk_meta (Canvas.next_id c) path
                   (MoodBoardPage.get (li_x item) 0)
                   (MoodBoardPage.get (li_y item) 0)
                   (im_width pil) (im_height pil)).
    set (c' := Canvas.mk _ (S (Canvas.next_id c))).
    destruct (IH c' (items ++ [meta])%list) as [new [H1 [H2 [H3 H4]]]].
    exists (meta :: new). rewrite H1, <- app_assoc. simpl.
    apply orb_false_iff in Hg. destruct Hg as [Hg1 Hg2].
    apply negb_false_iff in Hg1, Hg2. apply truthy_true in Hg1.
    repeat split.
    + constructor.
      * split; [|simpl; lia]. exists item. split; [left; reflexivity|].
        exists opened, pil. simpl. repeat split; auto.
      * eapply Forall_impl; [|exact H2]. intros m [[it [Hin Hl]] Hid].
        split; [exists it; split; [right|]; assumption|].
        subst c'. simpl in Hid. lia.
    + subst c'. simpl in H3. lia.
    + simpl. lia.
Qed.

(** A failed lookup leaves the page as it is. *)
Lemma load_board_not_found (self : MoodBoardPage.t)
    (boards_col : list board_doc) (fs : FS.t) (board_id : nat) :
  Boards.find_one boards_col board_id = None ->
  MoodBoardPage.load_board self boards_col fs board_id
  = (self, [showerror "Error" "Board not found"]).
Proof. intros H. unfold MoodBoardPage.load_board. now rewrite H. Qed.

(** A successful lookup: the page takes the name of the board, and its
    entries are what the loop builds from the cleared canvas and the empty
    list. *)
Lemma load_board_found (self : MoodBoardPage.t) (boards_col : list board_doc)
    (fs : FS.t) (board_id : nat) (doc : board_doc) :
  Boards.find_one boards_col board_id = Some doc ->
  MoodBoardPage.current_board
    (fst (MoodBoardPage.load_board self boards_col fs board_id))
  = Some (b_board_name doc)
  /\ MoodBoardPage.board_items
       (fst (MoodBoardPage.load_board self boards_col fs board_id))
     = snd (MoodBoardPage.load_items fs (b_layout doc)
              (Canvas.delete_all (MoodBoardPage.canvas self)) []).
Proof.
  intros Hf. unfold MoodBoardPage.load_board. rewrite Hf.
  cbn [MoodBoardPage.clear_canvas MoodBoardPage.set_current_board
    MoodBoardPage.canvas MoodBoardPage.board_items].
  destruct (MoodBoardPage.load_items fs (b_layout doc)
              (Canvas.delete_all (MoodBoardPage.canvas self)) [])
    as [c items].
  split; reflexivity.
Qed.

(** C10.  When the board is found, the entries in memory after
    [load_board] are those the loop builds from the cleared canvas and the
    empty list: each of them comes from an item of the loaded board's
    stored layout whose file exists and opens, each sits on a canvas item
    created by this load, and none is an entry of the page before. *)
Theorem load_board_replaces_items (self : MoodBoardPage.t)
    (boards_col : list board_doc) (fs : FS.t) (board_id : nat)
    (doc : board_doc) :
  Boards.find_one boards_col board_id = Some doc ->
  let self' := fst (MoodBoardPage.load_board self boards_col fs board_id) in
  MoodBoardPage.current_board self' = Some (b_board_name doc)
  /\ MoodBoardPage.board_items self'
     = snd (MoodBoardPage.load_items fs (b_layout doc)
              (Canvas.delete_all (MoodBoardPage.canvas self)) [])
  /\ Forall (fun meta =>
               (exists item, In item (b_layout doc)
                             /\ MoodBoardPage.loaded_from fs item meta)
               /\ (Canvas.next_id (MoodBoardPage.canvas self)
                   <= MoodBoardPage.m_id meta)%nat)
            (MoodBoardPage.board_items self')
  /\ (List.length (MoodBoardPage.board_items self')
      <= List.length (b_layout doc))%nat.
Proof.
  intros Hf self'. subst self'.
  destruct (load_board_found self boards_col fs board_id doc Hf)
    as [Hname Hitems].
  destruct (load_items_spec fs (b_layout doc)
              (Canvas.delete_all (MoodBoardPage.canvas self)) [])
    as [new [H1 [H2 [_ H4]]]].
  rewrite Hitems, H1. simpl. auto.
Qed.

(** With the canvas in agreement, the layout that is saved is the entries
    themselves. *)
Lemma layout_of_agrees (page : MoodBoardPage.t) :
  MoodBoardPage.canvas_agrees page ->
  MoodBoardPage.layout_of page
  = map MoodBoardPage.item_of (MoodBoardPage.board_items page).
Proof.
  unfold MoodBoardPage.canvas_agrees, MoodBoardPage.layout_of.
  intros H. apply map_ext_in. intros meta Hin. specialize (H meta Hin).
  unfold MoodBoardPage.item_of.
  destruct (Canvas.coords (MoodBoardPage.canvas page)
              (MoodBoardPage.m_id meta)) as [[x y]|].
  - injection H as -> ->. reflexivity.
  - reflexivity.
Qed.

(** The loop gives reloadable entries back field by field. *)
Lemma load_items_reloadable (fs : FS.t) (metas : list MoodBoardPage.meta) :
  Forall (MoodBoardPage.reloadable fs) metas ->
  forall (c : Canvas.t) (items : list MoodBoardPage.meta),
  map MoodBoardPage.placed
    (snd (MoodBoardPage.load_items fs (map MoodBoardPage.item_of metas)
            c items))
  = (map MoodBoardPage.placed items ++ map MoodBoardPage.placed metas)%list.
Proof.
  induction 1 as [|meta metas Hm _ IH]; intros c items.
  - simpl. now rewrite app_nil_r.
  - destruct Hm as [Hp [opened [pil [Ho [Ht [Hw Hh]]]]]].
    simpl. apply truthy_true in Hp.
    rewrite Hp, (open_exists _ _ _ Ho), Ho. simpl. rewrite Ht. simpl.
    rewrite IH, map_app, <- app_assoc. simpl.
    unfold MoodBoardPage.placed at 2 4. simpl. now rewrite Hw, Hh.
Qed.

(** C3 (amended).  When the canvas agrees with the entries and every entry
    is reloadable (non-empty path, the file opens, and the thumbnail for
    the box (w, h) of the entry has exactly that size), loading a board
    whose stored layout is the saved layout of the page gives back the
    same ordered list of (path, x, y, w, h). *)
Theorem load_board_roundtrip (page self : MoodBoardPage.t)
    (boards_col : list board_doc) (fs : FS.t) (board_id : nat)
    (doc : board_doc) :
  MoodBoardPage.canvas_agrees page ->
  Forall (MoodBoardPage.reloadable fs) (MoodBoardPage.board_items page) ->
  Boards.find_one boards_col board_id = Some doc ->
  b_layout doc = MoodBoardPage.layout_of page ->
  map MoodBoardPage.placed
    (MoodBoardPage.board_items
       (fst (MoodBoardPage.load_board self boards_col fs board_id)))
  = map MoodBoardPage.placed (MoodBoardPage.board_items page).
Proof.
  intros Hagree Hre Hf Hlayout.
  destruct (load_board_found self boards_col fs board_id doc Hf)
    as [_ Hitems].
  rewrite Hitems, Hlayout, (layout_of_agrees page Hagree).
  now rewrite load_items_reloadable.
Qed.

End BoardProperties.

(** The size rule on a landscape photograph, whose thumbnail is stable
    under a second pass, and on the tall picture, whose thumbnail is not. *)
Example thumbnail_size_samples :
  thumbnail_size 4000 3000 300 300 = (300, 225)
  /\ thumbnail_size 4000 3000 300 225 = (300, 225)
  /\ thumbnail_size 200 301 300 300 = (199, 300)
  /\ thumbnail_size 200 301 199 300 = (199, 299).
Proof. repeat split. Qed.

Example added_tall_picture :
  map MoodBoardPage.placed
    (MoodBoardPage.board_items
       (MoodBoardPage.r_page (added fs_tall "/pics/tall.png")))
  = [("/pics/tall.png", 40, 40, 199, 300)]
  /\ MoodBoardPage.current_board
       (MoodBoardPage.r_page (added fs_tall "/pics/tall.png"))
     = Some "Trip"
  /\ MoodBoardPage.r_boards (saved fs_tall "/pics/tall.png")
     = [mk_board 1 "alice" "Trip"
          [mk_layout_item (Some "/pics/tall.png") (Some 40) (Some 40)
             (Some 199) (Some 300)] t1].
Proof. repeat split. Qed.

(** C3, as stated, fails, in two ways.  A picture of 200 by 301 pixels is
    placed as 199 by 300; saved and loaded again, with its file in place,
    it comes back as 199 by 299, because the size of an entry is computed
    anew from the file and the stored box.  And an entry whose file still
    exists but no longer opens as an image is dropped by the load. *)
Lemma load_after_save_differs :
  let page := MoodBoardPage.r_page (saved fs_tall "/pics/tall.png") in
  let boards := MoodBoardPage.r_boards (saved fs_tall "/pics/tall.png") in
  let reloaded :=
    fst (MoodBoardPage.load_board (pillow := pillow_sizes) page boards
           fs_tall 1) in
  let page' := MoodBoardPage.r_page (saved fs_icon "/pics/icon.png") in
  let boards' := MoodBoardPage.r_boards (saved fs_icon "/pics/icon.png") in
  let reloaded' :=
    fst (MoodBoardPage.load_board (pillow := pillow_sizes) page' boards'
           fs_broken 1) in
  (FS.exists_ fs_tall "/pics/tall.png" = true
   /\ map MoodBoardPage.placed (MoodBoardPage.board_items page)
      = [("/pics/tall.png", 40, 40, 199, 300)]
   /\ map MoodBoardPage.placed (MoodBoardPage.board_items reloaded)
      = [("/pics/tall.png", 40, 40, 199, 299)])
  /\ (FS.exists_ fs_broken "/pics/icon.png" = true
      /\ map MoodBoardPage.placed (MoodBoardPage.board_items page')
         = [("/pics/icon.png", 40, 40, 64, 48)]
      /\ map MoodBoardPage.placed (MoodBoardPage.board_items reloaded') = []).
Proof. repeat split. Qed.

Lemma load_board_roundtrip_witness :
  let page := MoodBoardPage.r_page (saved fs_icon "/pics/icon.png") in
  let boards := MoodBoardPage.r_boards (saved fs_icon "/pics/icon.png") in
  let doc := mk_board 1 "alice" "Trip" (MoodBoardPage.layout_of page) t1 in
  MoodBoardPage.canvas_agrees page
  /\ Forall (MoodBoardPage.reloadable (pillow := pillow_sizes) fs_icon)
       (MoodBoardPage.board_items page)
  /\ Boards.find_one boards 1 = Some doc
  /\ b_layout doc = MoodBoardPage.layout_of page
  /\ map MoodBoardPage.placed
       (MoodBoardPage.board_items
          (fst (MoodBoardPage.load_board (pillow := pillow_sizes)
                  MoodBoardPage.init boards fs_icon 1)))
     = map MoodBoardPage.placed (MoodBoardPage.board_items page).
Proof.
  intros page boards doc.
  assert (Ha : MoodBoardPage.canvas_agrees page).
  { intros meta [<-|[]]. reflexivity. }
  assert (Hr : Forall (MoodBoardPage.reloadable (pillow := pillow_sizes) fs_icon)
                 (MoodBoardPage.board_items page)).
  { repeat constructor; [discriminate|].
    exists (mk_image "RGBA" 64 48 []), (mk_image "RGBA" 64 48 []).
    repeat split. }
  assert (Hf : Boards.find_one boards 1 = Some doc) by reflexivity.
  assert (Hl : b_layout doc = MoodBoardPage.layout_of page) by reflexivity.
  repeat (split; [assumption|]).
  exact (load_board_roundtrip (pillow := pillow_sizes) page MoodBoardPage.init
           boards fs_icon 1 doc Ha Hr Hf Hl).
Defined.

Lemma load_board_replaces_items_witness :
  let self := MoodBoardPage.r_page (saved fs_tall "/pics/tall.png") in
  let doc :=
    mk_board 5 "alice" "Icons"
      [mk_layout_item (Some "/pics/icon.png") (Some 12) (Some 30) (Some 64)
         (Some 48);
       mk_layout_item (Some "/pics/gone.png") (Some 0) (Some 0) (Some 10)
         (Some 10)] t2 in
  let boards := (MoodBoardPage.r_boards (saved fs_tall "/pics/tall.png")
                 ++ [doc])%list in
  let self' :=
    fst (MoodBoardPage.load_board (pillow := pillow_sizes) self boards
           fs_icon 5) in
  Boards.find_one boards 5 = Some doc
  /\ MoodBoardPage.current_board self' = Some (b_board_name doc)
  /\ MoodBoardPage.board_items self'
     = snd (MoodBoardPage.load_items (pillow := pillow_sizes) fs_icon
              (b_layout doc)
              (Canvas.delete_all (MoodBoardPage.canvas self)) [])
  /\ Forall (fun meta =>
               (exists item, In item (b_layout doc)
                  /\ MoodBoardPage.loaded_from (pillow := pillow_sizes)
                       fs_icon item meta)
               /\ (Canvas.next_id (MoodBoardPage.canvas self)
                   <= MoodBoardPage.m_id meta)%nat)
            (MoodBoardPage.board_items self')
  /\ (List.length (MoodBoardPage.board_items self')
      <= List.length (b_layout doc))%nat.
Proof.
  intros self doc boards self'.
  assert (Hf : Boards.find_one boards 5 = Some doc) by reflexivity.
  split; [exact Hf|].
  exact (load_board_replaces_items (pillow := pillow_sizes) self boards
           fs_icon 5 doc Hf).
Defined.

Example load_board_replaces_items_sample :
  let self := MoodBoardPage.r_page (saved fs_tall "/pics/tall.png") in
  let doc :=
    mk_board 5 "alice" "Icons"
      [mk_layout_item (Some "/pics/icon.png") (Some 12) (Some 30) (Some 64)
         (Some 48);
       mk_layout_item (Some "/pics/gone.png") (Some 0) (Some 0) (Some 10)
         (Some 10)] t2 in
  MoodBoardPage.board_items self
  = [MoodBoardPage.mk_meta 1 "/pics/tall.png" 40 40 199 300]
  /\ MoodBoardPage.board_items
       (fst (MoodBoardPage.load_board (pillow := pillow_sizes) self [doc]
               fs_icon 5))
     = [MoodBoardPage.mk_meta 2 "/pics/icon.png" 12 30 64 48].
Proof. repeat split. Qed.

(** ** Deleting a saved image *)

Section SortingProperties.
Context {D : Type} (saved_at : D -> datetime).

Lemma insert_desc_in (d e : D) (l : list D) :
  In e (insert_desc saved_at d l) <-> e = d \/ In e l.
Proof.
  induction l as [|a l IH]; simpl.
  - intuition.
  - destruct (datetime_leb (saved_at a) (saved_at d)); simpl.
    + intuition.
    + rewrite IH. intuition.
Qed.

(** Sorting keeps exactly the documents it is given. *)
Lemma sort_desc_in (e : D) (l : list D) :
  In e (sort_desc saved_at l) <-> In e l.
Proof.
  induction l as [|a l IH]; simpl; [tauto|].
  rewrite insert_desc_in, IH. intuition.
Qed.

End SortingProperties.

Section RemoveFirstProperties.
Context {D : Type}.

Lemma remove_first_subset (p : D -> bool) (l : list D) (e : D) :
  In e (remove_first p l) -> In e l.
Proof.
  induction l as [|a l IH]; simpl; [tauto|].
  destruct (p a); simpl; intuition.
Qed.

Lemma remove_first_keeps (p : D -> bool) (l : list D) (e : D) :
  p e = false -> In e l -> In e (remove_first p l).
Proof.
  intros He. induction l as [|a l IH]; simpl; [tauto|].
  intros [->|Hin].
  - rewrite He. left. reflexivity.
  - destruct (p a); [exact Hin | right; auto].
Qed.

(** When at most one document satisfies [p], none does after
    [remove_first]. *)
Lemma remove_first_last (p : D -> bool) (l : list D) :
  (List.length (filter p l) <= 1)%nat ->
  forall e, In e (remove_first p l) -> p e = false.
Proof.
  induction l as [|a l IH]; simpl; [tauto|].
  destruct (p a) eqn:Hp; simpl; intros Hlen e Hin.
  - destruct (filter p l) as [|b rest] eqn:Hfil; [|simpl in Hlen; lia].
    destruct (p e) eqn:He; [|reflexivity].
    assert (Hc : In e (filter p l)) by (apply filter_In; auto).
    rewrite Hfil in Hc. destruct Hc.
  - destruct Hin as [<-|Hin]; [exact Hp | exact (IH Hlen e Hin)].
Qed.

End RemoveFirstProperties.

Section GalleryProperties.
Context {pillow : Pillow}.

(** Every tile is drawn for a document of the list. *)
Lemma draw_tiles_from_docs (fs : FS.t) (docs : list image_doc)
    (t : GalleryPage.tile) :
  In t (GalleryPage.draw_tiles fs docs) ->
  exists d, In d docs /\ i_saved_path d = GalleryPage.tile_path t
            /\ FS.exists_ fs (i_saved_path d) = true.
Proof.
  induction docs as [|d docs IH]; simpl; [tauto|].
  assert (Hskip : In t (GalleryPage.draw_tiles fs docs) ->
                  exists d0, (d = d0 \/ In d0 docs)
                    /\ i_saved_path d0 = GalleryPage.tile_path t
                    /\ FS.exists_ fs (i_saved_path d0) = true).
  { intros H. destruct (IH H) as [d0 [H1 H2]]. exists d0. auto. }
  destruct (negb (Py.truthy (i_saved_path d))
            || negb (FS.exists_ fs (i_saved_path d))) eqn:Hg; [exact Hskip|].
  destruct (FS.open fs (i_saved_path d)) as [img|]; [|exact Hskip].
  destruct (thumbnail img (180, 130)) as [thumb|]; [|exact Hskip].
  intros [<-|Hin]; [|exact (Hskip Hin)].
  exists d. simpl. apply orb_false_iff in Hg. destruct Hg as [_ Hg].
  apply negb_false_iff in Hg. auto.
Qed.

Lemma reload_from_images (controller : MoodBoardApp)
    (images_col : list image_doc) (fs : FS.t) (t : GalleryPage.tile) :
  In t (GalleryPage.reload controller images_col fs) ->
  exists d, In d images_col /\ i_saved_path d = GalleryPage.tile_path t
            /\ current_user controller = Some (i_username d).
Proof.
  unfold GalleryPage.reload.
  destruct (current_user controller) as [u|]; simpl; [|tauto].
  destruct (Py.truthy u); [|simpl; tauto].
  intros H. apply draw_tiles_from_docs in H. destruct H as [d [Hd [Hp _]]].
  unfold Images.find in Hd. apply sort_desc_in, filter_In in Hd.
  destruct Hd as [Hin Hu]. apply String.eqb_eq in Hu.
  exists d. subst u. auto.
Qed.

(** C9 (amended).  When at most one record of the image store carries the
    stored path, a confirmed delete leaves no record with that path, the
    gallery drawn afterwards has no tile for it, the other records are
    kept, and no message box is shown; all of this whether the removal of
    the file succeeds, is refused, or finds no file, and the records left
    are the same in each case. *)
Theorem do_delete_removes_record (path : string) (controller : MoodBoardApp)
    (images_col : list image_doc) (fs : FS.t) (denied : bool)
    (tiles : list GalleryPage.tile) :
  (List.length
     (filter (fun d => String.eqb (i_saved_path d) path) images_col)
   <= 1)%nat ->
  let r :=
    GalleryPage.do_delete true path controller images_col fs denied tiles in
  (forall d, In d (GalleryPage.dr_images r) -> i_saved_path d <> path)
  /\ (forall t, In t (GalleryPage.dr_tiles r) ->
                GalleryPage.tile_path t <> path)
  /\ (forall d, In d images_col -> i_saved_path d <> path ->
                In d (GalleryPage.dr_images r))
  /\ GalleryPage.dr_shown r = []
  /\ GalleryPage.dr_images r
     = GalleryPage.dr_images
         (GalleryPage.do_delete true path controller images_col fs
            (negb denied) tiles).
Proof.
  intros Hone r. subst r. unfold GalleryPage.do_delete. simpl.
  assert (Hgone : forall d, In d (Images.delete_one images_col path) ->
                            i_saved_path d <> path).
  { intros d Hd. unfold Images.delete_one in Hd.
    eapply remove_first_last in Hd; [|exact Hone].
    now apply String.eqb_neq in Hd. }
  repeat split.
  - exact Hgone.
  - intros t Ht. apply reload_from_images in Ht.
    destruct Ht as [d [Hd [Hp _]]]. rewrite <- Hp. exact (Hgone d Hd).
  - intros d Hd Hp. unfold Images.delete_one.
    apply remove_first_keeps; [now apply String.eqb_neq | exact Hd].
Qed.

End GalleryProperties.

Lemma do_delete_removes_record_witness :
  let saved1 := save_pressed [] [] t0 t1 in
  let r :=
    GalleryPage.do_delete (pillow := pillow_sizes) true cat_path editor_app
      (EditorPage.sr_images saved1) (EditorPage.sr_fs saved1) true [] in
  (List.length
     (filter (fun d => String.eqb (i_saved_path d) cat_path)
        (EditorPage.sr_images saved1)) <= 1)%nat
  /\ (forall d, In d (GalleryPage.dr_images r) -> i_saved_path d <> cat_path)
  /\ (forall t, In t (GalleryPage.dr_tiles r) ->
                GalleryPage.tile_path t <> cat_path)
  /\ (forall d, In d (EditorPage.sr_images saved1) ->
                i_saved_path d <> cat_path ->
                In d (GalleryPage.dr_images r))
  /\ GalleryPage.dr_shown r = []
  /\ GalleryPage.dr_images r
     = GalleryPage.dr_images
         (GalleryPage.do_delete (pillow := pillow_sizes) true cat_path
            editor_app (EditorPage.sr_images saved1)
            (EditorPage.sr_fs saved1) (negb true) []).
Proof.
  intros saved1 r.
  assert (Hone :
    (List.length
       (filter (fun d => String.eqb (i_saved_path d) cat_path)
          (EditorPage.sr_images saved1)) <= 1)%nat) by (vm_compute; lia).
  split; [exact Hone|].
  exact (do_delete_removes_record (pillow := pillow_sizes) cat_path editor_app
           (EditorPage.sr_images saved1) (EditorPage.sr_fs saved1) true []
           Hone).
Defined.

Example do_delete_sample :
  let saved1 := save_pressed [] [] t0 t1 in
  let r :=
    GalleryPage.do_delete (pillow := pillow_sizes) true cat_path editor_app
      (EditorPage.sr_images saved1) (EditorPage.sr_fs saved1) true [] in
  map i_saved_path (EditorPage.sr_images saved1) = [cat_path]
  /\ map GalleryPage.tile_path
       (GalleryPage.reload (pillow := pillow_sizes) editor_app
          (EditorPage.sr_images saved1) (EditorPage.sr_fs saved1))
     = [cat_path]
  /\ GalleryPage.dr_images r = []
  /\ GalleryPage.dr_tiles r = []
  /\ FS.exists_ (GalleryPage.dr_fs r) cat_path = true.
Proof. repeat split. Qed.

(** C9, as stated, fails: the delete goes by stored path and removes one
    record.  After two saves that read the same value from the clock two
    records carry the same path; when the removal of the file is refused,
    the gallery drawn after the delete still shows the image. *)
Lemma do_delete_shared_path :
  let saved1 := save_pressed [] [] t0 t1 in
  let saved2 :=
    save_pressed (EditorPage.sr_images saved1) (EditorPage.sr_fs saved1)
      t0 t2 in
  let r :=
    GalleryPage.do_delete (pillow := pillow_sizes) true cat_path editor_app
      (EditorPage.sr_images saved2) (EditorPage.sr_fs saved2) true [] in
  map i_saved_path (EditorPage.sr_images saved2) = [cat_path; cat_path]
  /\ map i_saved_at (EditorPage.sr_images saved2) = [t1; t2]
  /\ map i_saved_at (GalleryPage.dr_images r) = [t2]
  /\ map i_saved_path (GalleryPage.dr_images r) = [cat_path]
  /\ map GalleryPage.tile_path (GalleryPage.dr_tiles r) = [cat_path]
  /\ GalleryPage.dr_shown r = [].
Proof. repeat split. Qed.

(** After [save_board] the store holds a record for the pair with the
    layout of the page and the time of the save. *)
Lemma save_board_stores_layout (page : MoodBoardPage.t)
    (controller : MoodBoardApp) (boards_col : list board_doc)
    (owner name : string) (now : datetime) (oid : nat) :
  current_user controller = Some owner ->
  MoodBoardPage.current_board page = Some name ->
  owner <> "" -> name <> "" ->
  exists id,
    In (mk_board id owner name (MoodBoardPage.layout_of page) now)
       (MoodBoardPage.r_boards
          (MoodBoardPage.save_board page controller boards_col now oid)).
Proof.
  intros Hu Hb Ho Hn.
  rewrite (save_board_upserts page controller boards_col owner name now oid)
    by assumption.
  pose proof (update_one_upsert_records boards_col owner name
                (MoodBoardPage.layout_of page) now oid) as H.
  destruct (Boards.records_for owner name boards_col) as [|d rest];
    [exists oid | exists (b_id d)];
    (eapply proj1; apply filter_In; unfold Boards.records_for in H;
     rewrite H; left; reflexivity).
Qed.

(** ** The invariant of the board page *)

Lemma coords_some_item (c : Canvas.t) (id : nat) (xy : Z * Z) :
  Canvas.coords c id = Some xy ->
  exists it, In it (Canvas.items c) /\ Canvas.c_id it = id.
Proof.
  unfold Canvas.coords.
  destruct (find _ (Canvas.items c)) as [it|] eqn:Hf; [|discriminate].
  intros _. apply find_some in Hf. destruct Hf as [Hin Heq].
  apply Nat.eqb_eq in Heq. eauto.
Qed.

Lemma coords_create_other (c : Canvas.t) (x y : Z) (img : image) (id : nat) :
  id <> Canvas.next_id c ->
  Canvas.coords (snd (Canvas.create_image c x y img)) id = Canvas.coords c id.
Proof.
  intros Hne. unfold Canvas.coords, Canvas.create_image. simpl.
  destruct (find (fun it => Nat.eqb (Canvas.c_id it) id) (Canvas.items c))
    as [it|] eqn:Hf.
  - now rewrite (find_app_some _ _ _ _ Hf).
  - rewrite (find_app_none _ _ _ Hf). simpl.
    destruct (Nat.eqb_spec (Canvas.next_id c) id); [congruence | reflexivity].
Qed.

Lemma coords_create_new (c : Canvas.t) (x y : Z) (img : image) :
  (forall it, In it (Canvas.items c) ->
     (Canvas.c_id it < Canvas.next_id c)%nat) ->
  Canvas.coords (snd (Canvas.create_image c x y img)) (Canvas.next_id c)
  = Some (x, y).
Proof.
  intros Hb. unfold Canvas.coords, Canvas.create_image. simpl.
  assert (Hf : find (fun it => Nat.eqb (Canvas.c_id it) (Canvas.next_id c))
                 (Canvas.items c) = None).
  { apply find_none_intro. intros it Hit. apply Nat.eqb_neq.
    specialize (Hb it Hit). lia. }
  rewrite (find_app_none _ _ _ Hf). simpl. now rewrite Nat.eqb_refl.
Qed.

(** Raising an item changes the stacking order, not the positions. *)
Lemma coords_tag_raise (c : Canvas.t) (id id' : nat) :
  Canvas.coords (Canvas.tag_raise c id) id' = Canvas.coords c id'.
Proof.
  unfold Canvas.coords, Canvas.tag_raise. simpl.
  set (f := fun it => Nat.eqb (Canvas.c_id it) id').
  set (below := fun it => negb (Nat.eqb (Canvas.c_id it) id)).
  set (raised := fun it => Nat.eqb (Canvas.c_id it) id).
  set (l := Canvas.items c).
  assert (H : find f (filter below l ++ filter raised l) = find f l);
    [|now rewrite H].
  destruct (Nat.eqb_spec id' id) as [->|Hne].
  - assert (Hnone : find f (filter below l) = None).
    { apply find_none_intro. intros it Hit. apply filter_In in Hit.
      destruct Hit as [_ Hit]. unfold below in Hit. unfold f.
      now apply negb_true_iff in Hit. }
    rewrite (find_app_none _ _ _ Hnone).
    now apply find_filter_implied.
  - assert (Hlow : find f (filter below l) = find f l).
    { apply find_filter_implied. intros it Hit. unfold f, below in *.
      apply Nat.eqb_eq in Hit. apply negb_true_iff, Nat.eqb_neq. congruence. }
    destruct (find f l) as [it|] eqn:Hf.
    + now apply find_app_some.
    + rewrite (find_app_none _ _ _ Hlow).
      apply find_none_intro. intros it Hit. apply filter_In in Hit.
      destruct Hit as [_ Hit]. unfold raised in Hit. unfold f.
      apply Nat.eqb_eq in Hit. apply Nat.eqb_neq. congruence.
Qed.

Lemma coords_move (c : Canvas.t) (id id' : nat) (x y : Z) :
  Canvas.coords (Canvas.move c id x y) id'
  = if Nat.eqb id' id then
      match Canvas.coords c id with Some _ => Some (x, y) | None => None end
    else Canvas.coords c id'.
Proof.
  unfold Canvas.coords, Canvas.move. simpl.
  induction (Canvas.items c) as [|a l IH]; simpl.
  - now destruct (Nat.eqb id' id).
  - destruct (Nat.eqb_spec (Canvas.c_id a) id) as [Ha|Ha]; simpl.
    + destruct (Nat.eqb_spec id' id) as [->|Hne].
      * now rewrite Nat.eqb_refl.
      * destruct (Nat.eqb_spec id id'); [congruence|].
        destruct (Nat.eqb_spec (Canvas.c_id a) id'); [congruence|].
        rewrite IH. destruct (Nat.eqb_spec id' id); [congruence|reflexivity].
    + destruct (Nat.eqb_spec (Canvas.c_id a) id') as [Ha'|Ha'].
      * destruct (Nat.eqb_spec id' id); [congruence|reflexivity].
      * exact IH.
Qed.

Lemma page_ok_agrees (self : MoodBoardPage.t) :
  MoodBoardPage.page_ok self -> MoodBoardPage.canvas_agrees self.
Proof.
  intros [_ [Hc _]] meta Hin. now rewrite (Hc meta Hin).
Qed.

Lemma page_ok_init : MoodBoardPage.page_ok MoodBoardPage.init.
Proof.
  repeat split; simpl; try tauto. constructor.
Qed.

Lemma page_ok_clear_canvas (self : MoodBoardPage.t) :
  MoodBoardPage.page_ok (MoodBoardPage.clear_canvas self).
Proof.
  repeat split; simpl; try tauto. constructor.
Qed.

(** Creating a canvas item and appending its entry keeps the invariant. *)
Lemma consistent_place (c : Canvas.t) (items : list MoodBoardPage.meta)
    (path : string) (x y w h : Z) (img : image) :
  MoodBoardPage.consistent c items ->
  MoodBoardPage.consistent (snd (Canvas.create_image c x y img))
    (items ++ [MoodBoardPage.mk_meta (Canvas.next_id c) path x y w h]).
Proof.
  intros [Hnd [Hc Hb]].
  assert (Hlt : forall meta, In meta items ->
                  (MoodBoardPage.m_id meta < Canvas.next_id c)%nat).
  { intros meta Hin. destruct (coords_some_item _ _ _ (Hc meta Hin))
      as [it [Hit Hid]]. rewrite <- Hid. exact (Hb it Hit). }
  repeat split.
  - rewrite map_app. simpl. apply NoDup_app; [exact Hnd | | ].
    + repeat constructor. intros [].
    + intros id Hid [<-|[]]. apply in_map_iff in Hid.
      destruct Hid as [meta [Hm Hin]]. specialize (Hlt meta Hin). lia.
  - intros meta Hin. apply in_app_or in Hin. destruct Hin as [Hin|[<-|[]]].
    + rewrite coords_create_other; [exact (Hc meta Hin)|].
      specialize (Hlt meta Hin). lia.
    + simpl. now apply coords_create_new.
  - intros it Hit. simpl in *. apply in_app_or in Hit.
    destruct Hit as [Hit|[<-|[]]]; [specialize (Hb it Hit); lia | simpl; lia].
Qed.

Lemma consistent_tag_raise (c : Canvas.t) (items : list MoodBoardPage.meta)
    (id : nat) :
  MoodBoardPage.consistent c items ->
  MoodBoardPage.consistent (Canvas.tag_raise c id) items.
Proof.
  intros [Hnd [Hc Hb]]. repeat split; [exact Hnd | | ].
  - intros meta Hin. rewrite coords_tag_raise. exact (Hc meta Hin).
  - intros it Hit. simpl in *. apply in_app_or in Hit.
    destruct Hit as [Hit|Hit]; apply filter_In in Hit; apply Hb, Hit.
Qed.

Lemma move_meta_ids (id : nat) (x y : Z) (items : list MoodBoardPage.meta) :
  map MoodBoardPage.m_id (MoodBoardPage.move_meta id x y items)
  = map MoodBoardPage.m_id items.
Proof.
  induction items as [|a l IH]; simpl; [reflexivity|].
  destruct (Nat.eqb_spec (MoodBoardPage.m_id a) id) as [Ha|Ha]; simpl.
  - now rewrite Ha.
  - now rewrite IH.
Qed.

(** With different identifiers, [move_meta] changes the one entry of that
    identifier and no other. *)
Lemma move_meta_in (id : nat) (x y : Z) (items : list MoodBoardPage.meta)
    (m' : MoodBoardPage.meta) :
  NoDup (map MoodBoardPage.m_id items) ->
  In m' (MoodBoardPage.move_meta id x y items) ->
  (exists m, In m items /\ MoodBoardPage.m_id m = id
             /\ m' = MoodBoardPage.mk_meta id (MoodBoardPage.m_path m) x y
                       (MoodBoardPage.m_w m) (MoodBoardPage.m_h m))
  \/ (In m' items /\ MoodBoardPage.m_id m' <> id).
Proof.
  induction items as [|a l IH]; simpl; [tauto|].
  intros Hnd Hin. inversion Hnd as [|? ? Hnotin Hnd']; subst.
  destruct (Nat.eqb_spec (MoodBoardPage.m_id a) id) as [Ha|Ha].
  - destruct Hin as [<-|Hin].
    + left. exists a. auto.
    + right. split; [now right|]. intros Heq. apply Hnotin.
      rewrite Ha, <- Heq. now apply in_map.
  - destruct Hin as [<-|Hin].
    + right. auto.
    + destruct (IH Hnd' Hin) as [[m [H1 H2]]|[H1 H2]].
      * left. exists m. auto.
      * right. auto.
Qed.

Lemma page_ok_on_canvas_drag (self : MoodBoardPage.t) (event_x event_y : Z) :
  MoodBoardPage.page_ok self ->
  MoodBoardPage.page_ok (MoodBoardPage.on_canvas_drag self event_x event_y).
Proof.
  intros Hok. unfold MoodBoardPage.on_canvas_drag.
  destruct (MoodBoardPage.selected_item self) as [id|]; [|exact Hok].
  destruct Hok as [Hnd [Hc Hb]].
  set (dx := event_x - fst (MoodBoardPage.drag_offset self)).
  set (dy := event_y - snd (MoodBoardPage.drag_offset self)).
  repeat split; simpl.
  - rewrite move_meta_ids. exact Hnd.
  - intros m' Hin. rewrite coords_move.
    destruct (move_meta_in id dx dy _ m' Hnd Hin)
      as [[m [Hm [Hid ->]]]|[Hm Hid]]; simpl.
    + rewrite Nat.eqb_refl. rewrite <- Hid, (Hc m Hm). reflexivity.
    + destruct (Nat.eqb_spec (MoodBoardPage.m_id m') id); [contradiction|].
      exact (Hc m' Hm).
  - intros it Hit. apply in_map_iff in Hit. destruct Hit as [it0 [<- Hit0]].
    specialize (Hb it0 Hit0).
    destruct (Nat.eqb_spec (Canvas.c_id it0) id) as [Heq|Hne]; simpl;
      [rewrite <- Heq|]; exact Hb.
Qed.

Lemma page_ok_on_canvas_click (self : MoodBoardPage.t) (event_x event_y : Z)
    (overlapping : list nat) :
  MoodBoardPage.page_ok self ->
  MoodBoardPage.page_ok
    (MoodBoardPage.on_canvas_click self event_x event_y overlapping).
Proof.
  intros Hok. unfold MoodBoardPage.on_canvas_click.
  destruct (rev overlapping) as [|top rest]; [exact Hok|].
  destruct (find _ (MoodBoardPage.board_items self)) as [meta|]; [|exact Hok].
  destruct (Canvas.coords (MoodBoardPage.canvas self)
              (MoodBoardPage.m_id meta)) as [[cx cy]|]; [|exact Hok].
  now apply consistent_tag_raise.
Qed.

Lemma page_ok_on_canvas_release (self : MoodBoardPage.t) :
  MoodBoardPage.page_ok self ->
  MoodBoardPage.page_ok (MoodBoardPage.on_canvas_release self).
Proof. intros Hok. exact Hok. Qed.

Lemma page_ok_save_board (self : MoodBoardPage.t) (controller : MoodBoardApp)
    (boards_col : list board_doc) (now : datetime) (oid : nat) :
  MoodBoardPage.page_ok self ->
  MoodBoardPage.page_ok
    (MoodBoardPage.r_page
       (MoodBoardPage.save_board self controller boards_col now oid)).
Proof.
  intros Hok. unfold MoodBoardPage.save_board,
    MoodBoardPage.refresh_board_list.
  destruct (MoodBoardPage.current_board self) as [name|]; [|exact Hok].
  destruct (Py.truthy name); [|exact Hok].
  destruct (current_user controller) as [u|]; [|exact Hok].
  destruct (Py.truthy u); exact Hok.
Qed.

Lemma page_ok_new_board (self : MoodBoardPage.t) (controller : MoodBoardApp)
    (boards_col : list board_doc) (answer : option string) (now : datetime)
    (oid : nat) :
  MoodBoardPage.page_ok self ->
  MoodBoardPage.page_ok
    (MoodBoardPage.r_page
       (MoodBoardPage.new_board self controller boards_col answer now oid)).
Proof.
  intros Hok. unfold MoodBoardPage.new_board,
    MoodBoardPage.refresh_board_list.
  destruct (current_user controller) as [u|]; [|exact Hok].
  destruct (Py.truthy u); [|exact Hok].
  destruct answer as [name|]; [|exact Hok].
  destruct (Py.truthy name); exact Hok.
Qed.

(** The layout that is saved carries a position for every entry. *)
Lemma layout_of_positions (self : MoodBoardPage.t) :
  MoodBoardPage.positions_present (MoodBoardPage.layout_of self).
Proof.
  unfold MoodBoardPage.positions_present, MoodBoardPage.layout_of.
  apply Forall_forall. intros item Hin. apply in_map_iff in Hin.
  destruct Hin as [meta [<- _]].
  destruct (Canvas.coords _ _) as [[x y]|]; simpl; split; discriminate.
Qed.

Section BoardInvariant.
Context {pillow : Pillow}.

Lemma consistent_load_items (fs : FS.t) (layout : list layout_item) :
  MoodBoardPage.positions_present layout ->
  forall (c : Canvas.t) (items : list MoodBoardPage.meta),
  MoodBoardPage.consistent c items ->
  MoodBoardPage.consistent
    (fst (MoodBoardPage.load_items fs layout c items))
    (snd (MoodBoardPage.load_items fs layout c items)).
Proof.
  induction 1 as [|item layout [Hx Hy] _ IH]; intros c items Hok;
    [exact Hok|].
  simpl.
  destruct (li_path item) as [path|]; [|now apply IH].
  destruct (negb (Py.truthy path) || negb (FS.exists_ fs path));
    [now apply IH|].
  destruct (FS.open fs path) as [opened|]; [|now apply IH].
  destruct (thumbnail _ _) as [pil|]; [|now apply IH].
  destruct (li_x item) as [x|]; [|congruence].
  destruct (li_y item) as [y|]; [|congruence].
  simpl. apply IH.
  exact (consistent_place c items path x y (im_width pil) (im_height pil)
           pil Hok).
Qed.

(** Loading a board whose stored items carry their positions, as the
    layouts written by [save_board] do, establishes the invariant. *)
Lemma page_ok_load_board (self : MoodBoardPage.t)
    (boards_col : list board_doc) (fs : FS.t) (board_id : nat) :
  MoodBoardPage.page_ok self ->
  (forall doc, Boards.find_one boards_col board_id = Some doc ->
               MoodBoardPage.positions_present (b_layout doc)) ->
  MoodBoardPage.page_ok
    (fst (MoodBoardPage.load_board self boards_col fs board_id)).
Proof.
  intros Hok Hpos. unfold MoodBoardPage.load_board.
  destruct (Boards.find_one boards_col board_id) as [doc|]; [|exact Hok].
  specialize (Hpos doc eq_refl).
  pose proof (consistent_load_items fs (b_layout doc) Hpos
                (Canvas.delete_all (MoodBoardPage.canvas self)) []) as H.
  cbn [MoodBoardPage.clear_canvas MoodBoardPage.set_current_board
       MoodBoardPage.canvas MoodBoardPage.board_items].
  destruct (MoodBoardPage.load_items fs (b_layout doc)
              (Canvas.delete_all (MoodBoardPage.canvas self)) [])
    as [c items].
  apply H. repeat split; simpl; try tauto. constructor.
Qed.

Lemma page_ok_place_image (fs : FS.t) (ans : MoodBoardPage.add_answers)
    (self : MoodBoardPage.t) (boards : list board_doc) (shown : list dialog)
    (path : string) :
  MoodBoardPage.page_ok self ->
  MoodBoardPage.page_ok
    (MoodBoardPage.r_page
       (MoodBoardPage.place_image fs ans self boards shown path)).
Proof.
  intros Hok. unfold MoodBoardPage.place_image.
  destruct (FS.open fs path) as [opened|]; [|exact Hok].
  destruct (thumbnail _ _) as [pil|]; [|exact Hok].
  cbv zeta. simpl.
  destruct (Py.truthy_opt (MoodBoardPage.current_board self)); simpl;
    apply consistent_tag_raise;
    exact (consistent_place _ _ path _ _ (im_width pil) (im_height pil)
             pil Hok).
Qed.

Lemma page_ok_choose_image (controller : MoodBoardApp)
    (images_col : list image_doc) (fs : FS.t)
    (ans : MoodBoardPage.add_answers) (self : MoodBoardPage.t)
    (boards : list board_doc) (shown : list dialog) :
  MoodBoardPage.page_ok self ->
  MoodBoardPage.page_ok
    (MoodBoardPage.r_page
       (MoodBoardPage.choose_image controller images_col fs ans self boards
          shown)).
Proof.
  intros Hok. unfold MoodBoardPage.choose_image.
  destruct (MoodBoardPage.from_uploads ans).
  - destruct (match current_user controller with
              | Some username => Images.find images_col username
              | None => []
              end); [exact Hok|].
    destruct (MoodBoardPage.picked ans);
      [now apply page_ok_place_image | exact Hok].
  - destruct (Py.truthy (MoodBoardPage.chosen_file ans));
      [now apply page_ok_place_image | exact Hok].
Qed.

Lemma page_ok_add_image_to_board (self : MoodBoardPage.t)
    (controller : MoodBoardApp) (boards_col : list board_doc)
    (images_col : list image_doc) (fs : FS.t)
    (ans : MoodBoardPage.add_answers) (now : datetime) (oid : nat) :
  MoodBoardPage.page_ok self ->
  MoodBoardPage.page_ok
    (MoodBoardPage.r_page
       (MoodBoardPage.add_image_to_board self controller boards_col
          images_col fs ans now oid)).
Proof.
  intros Hok. unfold MoodBoardPage.add_image_to_board.
  destruct (Py.truthy_opt (MoodBoardPage.current_board self));
    [now apply page_ok_choose_image|].
  destruct (MoodBoardPage.create_now ans); [|exact Hok]. simpl.
  apply page_ok_choose_image.
  set (r := MoodBoardPage.new_board self controller boards_col
              (MoodBoardPage.new_name ans) now oid).
  assert (Hr : MoodBoardPage.page_ok (MoodBoardPage.r_page r))
    by now apply page_ok_new_board.
  set (s1 := MoodBoardPage.refresh_board_list (MoodBoardPage.r_page r)
               controller (MoodBoardPage.r_boards r)).
  assert (Hs1 : MoodBoardPage.page_ok s1).
  { subst s1. unfold MoodBoardPage.refresh_board_list.
    destruct (current_user controller) as [u|]; [|exact Hr].
    destruct (Py.truthy u); exact Hr. }
  destruct (MoodBoardPage._board_docs s1); exact Hs1.
Qed.

End BoardInvariant.

(** * Further properties of the handlers *)

(** ** Accounts *)

Section AccountProperties.
Context {bcrypt : Bcrypt}.

(** X1.  A user who registers and then logs in with the same user name
    (up to surrounding blanks) and the same password is logged in,
    provided the hashing library verifies the password against the hash
    it has just produced. *)
Theorem register_then_login (self retyped : LoginPage.t)
    (users_col : list user_doc) (salt : string) (utcnow : datetime)
    (controller : MoodBoardApp) :
  let u := Py.strip (LoginPage.username self) in
  let p := LoginPage.password self in
  u <> "" -> p <> "" -> Users.find_one users_col u = None ->
  check_password p (hash_password p salt) = true ->
  Py.strip (LoginPage.username retyped) = u ->
  LoginPage.password retyped = p ->
  LoginPage.attempt_login retyped
    (LoginPage.rr_users
       (LoginPage.attempt_register self users_col salt utcnow))
    controller
  = LoginPage.mk_login_result (LoginPage.mk "" "")
      (Controller.login controller u) [].
Proof.
  intros u p Hu Hp Hnone Hcheck Hru Hrp.
  destruct (attempt_register_inserts self users_col salt utcnow Hu Hp Hnone)
    as [_ Hfound].
  unfold LoginPage.attempt_login. rewrite Hru, Hrp.
  rewrite (proj2 (missing_field_guard u p) (conj Hu Hp)).
  fold u p in Hfound. rewrite Hfound. simpl. fold p. now rewrite Hcheck.
Qed.

(** Registration only ever appends: the records already stored are kept
    as they are, in their order, and at most one record is added. *)
Lemma attempt_register_appends (self : LoginPage.t)
    (users_col : list user_doc) (salt : string) (utcnow : datetime) :
  exists added,
    LoginPage.rr_users (LoginPage.attempt_register self users_col salt utcnow)
    = (users_col ++ added)%list
    /\ (List.length added <= 1)%nat
    /\ Forall (fun d => u_username d = Py.strip (LoginPage.username self)
                        /\ u_username d <> ""
                        /\ u_password d
                           = hash_password (LoginPage.password self) salt)
         added.
Proof.
  unfold LoginPage.attempt_register.
  destruct (negb _ || negb _) eqn:Hg.
  - exists []. simpl. rewrite app_nil_r. auto.
  - destruct (Users.find_one users_col _).
    + exists []. simpl. rewrite app_nil_r. auto.
    + apply missing_field_guard in Hg. destruct Hg as [Hu _].
      eexists. split; [reflexivity|]. simpl. split; [lia|].
      repeat constructor. exact Hu.
Qed.

(** X2.  Whatever is typed into the registration form, and however often
    "Register" is pressed, the user names of the [users] collection stay
    pairwise different, and none of them is empty. *)
Theorem register_all_names (attempts : list (LoginPage.t * string * datetime)) :
  NoDup (map u_username (LoginPage.register_all attempts []))
  /\ Forall (fun d => u_username d <> "")
       (LoginPage.register_all attempts []).
Proof.
  unfold LoginPage.register_all.
  assert (H : forall col,
            NoDup (map u_username col) /\
            Forall (fun d => u_username d <> "") col ->
            NoDup (map u_username
                     (fold_left
                        (fun col a =>
                           LoginPage.rr_users
                             (LoginPage.attempt_register (fst (fst a)) col
                                (snd (fst a)) (snd a)))
                        attempts col))
            /\ Forall (fun d => u_username d <> "")
                 (fold_left
                    (fun col a =>
                       LoginPage.rr_users
                         (LoginPage.attempt_register (fst (fst a)) col
                            (snd (fst a)) (snd a)))
                    attempts col)).
  { induction attempts as [|a attempts IH]; intros col Hcol; [exact Hcol|].
    simpl. apply IH. destruct Hcol as [Hnd Hne]. split.
    - now apply attempt_register_keeps_names_unique.
    - destruct (attempt_register_appends (fst (fst a)) col (snd (fst a))
                  (snd a)) as [added [-> [_ Hadd]]].
      apply Forall_app. split; [exact Hne|].
      eapply Forall_impl; [|exact Hadd]. intros d Hd. apply Hd. }
  apply H. split; constructor.
Qed.

(** X3.  With a user name that is empty or blank, or an empty password,
    neither "Register" nor "Login" does anything but show the
    missing-field warning: the store, the fields and the session are
    left as they are. *)
Theorem missing_fields_do_nothing (self : LoginPage.t)
    (users_col : list user_doc) (salt : string) (utcnow : datetime)
    (controller : MoodBoardApp) :
  Py.strip (LoginPage.username self) = "" \/ LoginPage.password self = "" ->
  LoginPage.attempt_register self users_col salt utcnow
  = LoginPage.mk_register_result self users_col
      [showwarning "Missing" "Provide username and password"]
  /\ LoginPage.attempt_login self users_col controller
     = LoginPage.mk_login_result self controller
         [showwarning "Missing" "Provide username and password"].
Proof.
  intros Hmiss.
  assert (Hg : negb (Py.truthy (Py.strip (LoginPage.username self)))
               || negb (Py.truthy (LoginPage.password self)) = true).
  { apply orb_true_iff.
    destruct Hmiss as [H|H]; [left|right];
      apply negb_true_iff, truthy_false; exact H. }
  unfold LoginPage.attempt_register, LoginPage.attempt_login.
  now rewrite Hg.
Qed.

End AccountProperties.

Lemma register_then_login_witness :
  let self := LoginPage.mk " bob " "pw1" in
  let retyped := LoginPage.mk "bob" "pw1" in
  Py.strip (LoginPage.username self) <> "" /\ LoginPage.password self <> ""
  /\ Users.find_one [alice_doc] (Py.strip (LoginPage.username self)) = None
  /\ check_password (bcrypt := plain_bcrypt) "pw1"
       (hash_password (bcrypt := plain_bcrypt) "pw1" "s4lt") = true
  /\ Py.strip (LoginPage.username retyped)
     = Py.strip (LoginPage.username self)
  /\ LoginPage.password retyped = LoginPage.password self
  /\ LoginPage.attempt_login (bcrypt := plain_bcrypt) retyped
       (LoginPage.rr_users
          (LoginPage.attempt_register (bcrypt := plain_bcrypt) self
             [alice_doc] "s4lt" t1))
       app0
     = LoginPage.mk_login_result (LoginPage.mk "" "")
         (Controller.login app0 "bob") [].
Proof.
  intros self retyped.
  assert (Hu : Py.strip (LoginPage.username self) <> "") by (cbv; discriminate).
  assert (Hp : LoginPage.password self <> "") by (cbv; discriminate).
  assert (Hn : Users.find_one [alice_doc] (Py.strip (LoginPage.username self))
               = None) by reflexivity.
  assert (Hc : check_password (bcrypt := plain_bcrypt) "pw1"
                 (hash_password (bcrypt := plain_bcrypt) "pw1" "s4lt") = true)
    by reflexivity.
  assert (Hru : Py.strip (LoginPage.username retyped)
                = Py.strip (LoginPage.username self)) by reflexivity.
  assert (Hrp : LoginPage.password retyped = LoginPage.password self)
    by reflexivity.
  repeat (split; [assumption|]).
  exact (register_then_login (bcrypt := plain_bcrypt) self retyped [alice_doc]
           "s4lt" t1 app0 Hu Hp Hn Hc Hru Hrp).
Defined.

Lemma missing_fields_do_nothing_witness :
  let self := LoginPage.mk "   " "secret" in
  (Py.strip (LoginPage.username self) = "" \/ LoginPage.password self = "")
  /\ LoginPage.attempt_register (bcrypt := plain_bcrypt) self [alice_doc]
       "s4lt" t1
     = LoginPage.mk_register_result self [alice_doc]
         [showwarning "Missing" "Provide username and password"]
  /\ LoginPage.attempt_login (bcrypt := plain_bcrypt) self [alice_doc] app0
     = LoginPage.mk_login_result self app0
         [showwarning "Missing" "Provide username and password"].
Proof.
  intros self.
  assert (H : Py.strip (LoginPage.username self) = ""
              \/ LoginPage.password self = "") by (left; reflexivity).
  split; [exact H|].
  exact (missing_fields_do_nothing (bcrypt := plain_bcrypt) self [alice_doc]
           "s4lt" t1 app0 H).
Defined.

(** ** Handlers without a session *)


Section SessionProperties.
Context {pillow : Pillow}.

Lemma place_image_boards (fs : FS.t) (ans : MoodBoardPage.add_answers)
    (self : MoodBoardPage.t) (boards : list board_doc) (shown : list dialog)
    (path : string) :
  MoodBoardPage.r_boards
    (MoodBoardPage.place_image fs ans self boards shown path) = boards.
Proof.
  unfold MoodBoardPage.place_image.
  destruct (FS.open fs path); [|reflexivity].
  destruct (thumbnail _ _); reflexivity.
Qed.

Lemma choose_image_boards (controller : MoodBoardApp)
    (images_col : list image_doc) (fs : FS.t)
    (ans : MoodBoardPage.add_answers) (self : MoodBoardPage.t)
    (boards : list board_doc) (shown : list dialog) :
  MoodBoardPage.r_boards
    (MoodBoardPage.choose_image controller images_col fs ans self boards shown)
  = boards.
Proof.
  unfold MoodBoardPage.choose_image.
  destruct (MoodBoardPage.from_uploads ans).
  - destruct (match current_user controller with
              | Some username => Images.find images_col username
              | None => []
              end); [reflexivity|].
    destruct (MoodBoardPage.picked ans);
      [apply place_image_boards | reflexivity].
  - destruct (Py.truthy (MoodBoardPage.chosen_file ans));
      [apply place_image_boards | reflexivity].
Qed.


End SessionProperties.


(** ** Listings, most recent first *)

Lemma lex_leb_total (a : list Z) :
  forall b, List.length a = List.length b ->
  lex_leb a b = false -> lex_leb b a = true.
Proof.
  induction a as [|x a IH]; intros [|y b] Hlen H; simpl in *;
    try discriminate; try reflexivity.
  injection Hlen as Hlen.
  apply orb_false_iff in H. destruct H as [Hlt H].
  apply Z.ltb_ge in Hlt. apply andb_false_iff in H.
  destruct (Z.eqb_spec x y) as [->|Hne].
  - destruct H as [H|H]; [discriminate|].
    rewrite Z.eqb_refl, (IH b Hlen H). now rewrite orb_true_r.
  - assert (Hyx : (y <? x) = true) by (apply Z.ltb_lt; lia).
    now rewrite Hyx.
Qed.

Lemma lex_leb_trans (a : list Z) :
  forall b c, lex_leb a b = true -> lex_leb b c = true -> lex_leb a c = true.
Proof.
  induction a as [|x a IH]; intros [|y b] [|z c] Hab Hbc; simpl in *;
    try discriminate; try reflexivity.
  apply orb_true_iff in Hab, Hbc. apply orb_true_iff.
  destruct Hab as [Hab|Hab], Hbc as [Hbc|Hbc];
    try apply Z.ltb_lt in Hab; try apply Z.ltb_lt in Hbc;
    try (apply andb_true_iff in Hab; destruct Hab as [Hxy Hab];
         apply Z.eqb_eq in Hxy);
    try (apply andb_true_iff in Hbc; destruct Hbc as [Hyz Hbc];
         apply Z.eqb_eq in Hyz).
  - left. apply Z.ltb_lt. lia.
  - left. apply Z.ltb_lt. lia.
  - left. apply Z.ltb_lt. lia.
  - right. apply andb_true_iff. split; [apply Z.eqb_eq; lia|].
    exact (IH b c Hab Hbc).
Qed.

Lemma datetime_leb_total (t t' : datetime) :
  datetime_leb t t' = false -> datetime_leb t' t = true.
Proof. apply lex_leb_total. reflexivity. Qed.

Lemma datetime_leb_trans (t t' t'' : datetime) :
  datetime_leb t t' = true -> datetime_leb t' t'' = true ->
  datetime_leb t t'' = true.
Proof. apply lex_leb_trans. Qed.

Section SortedProperties.
Context {D : Type} (saved_at : D -> datetime).

(** [a] comes before [b] in a listing: [a] is at least as recent. *)
Let before (a b : D) : Prop := datetime_leb (saved_at b) (saved_at a) = true.

Lemma insert_desc_sorted (d : D) (l : list D) :
  StronglySorted before l -> StronglySorted before (insert_desc saved_at d l).
Proof.
  induction 1 as [|e l Hs IH Hall]; simpl.
  - repeat constructor.
  - destruct (datetime_leb (saved_at e) (saved_at d)) eqn:Hed.
    + constructor; [constructor; assumption|].
      constructor; [exact Hed|].
      eapply Forall_impl; [|exact Hall]. intros x Hx. unfold before in *.
      exact (datetime_leb_trans _ _ _ Hx Hed).
    + constructor; [exact IH|].
      apply Forall_forall. intros x Hx. apply insert_desc_in in Hx.
      destruct Hx as [->|Hx].
      * exact (datetime_leb_total _ _ Hed).
      * exact (proj1 (Forall_forall _ _) Hall x Hx).
Qed.

Lemma sort_desc_sorted (l : list D) :
  StronglySorted before (sort_desc saved_at l).
Proof.
  induction l as [|d l IH]; simpl; [constructor|].
  now apply insert_desc_sorted.
Qed.

Lemma insert_desc_perm (d : D) (l : list D) :
  Permutation (insert_desc saved_at d l) (d :: l).
Proof.
  induction l as [|e l IH]; simpl; [reflexivity|].
  destruct (datetime_leb (saved_at e) (saved_at d)); [reflexivity|].
  rewrite IH. apply perm_swap.
Qed.

Lemma sort_desc_perm (l : list D) : Permutation (sort_desc saved_at l) l.
Proof.
  induction l as [|d l IH]; simpl; [reflexivity|].
  rewrite insert_desc_perm. now constructor.
Qed.

End SortedProperties.

(** X5.  The images a user's listing is drawn from are exactly the
    records of that user, each once, ordered so that every record is at
    least as recent as all records after it. *)
Theorem images_find_recent_first (images_col : list image_doc) (u : string) :
  StronglySorted
    (fun a b => datetime_leb (i_saved_at b) (i_saved_at a) = true)
    (Images.find images_col u)
  /\ Permutation (Images.find images_col u)
       (filter (fun d => String.eqb (i_username d) u) images_col).
Proof.
  unfold Images.find. split; [apply sort_desc_sorted | apply sort_desc_perm].
Qed.

(** X6.  After "New Board" with a name, for a logged-in user, the list of
    boards of the page holds the new board, with an empty layout, and is
    the user's boards, each once, most recent first. *)
Theorem new_board_listed (page : MoodBoardPage.t) (controller : MoodBoardApp)
    (boards_col : list board_doc) (owner name : string) (utcnow : datetime)
    (oid : nat) :
  current_user controller = Some owner -> owner <> "" -> name <> "" ->
  let r :=
    MoodBoardPage.new_board page controller boards_col (Some name) utcnow oid in
  MoodBoardPage.r_boards r
  = (boards_col ++ [mk_board oid owner name [] utcnow])%list
  /\ In (mk_board oid owner name [] utcnow)
       (MoodBoardPage._board_docs (MoodBoardPage.r_page r))
  /\ StronglySorted
       (fun a b => datetime_leb (b_saved_at b) (b_saved_at a) = true)
       (MoodBoardPage._board_docs (MoodBoardPage.r_page r))
  /\ Permutation (MoodBoardPage._board_docs (MoodBoardPage.r_page r))
       (filter (Boards.owned_by owner) (MoodBoardPage.r_boards r))
  /\ MoodBoardPage.board_items (MoodBoardPage.r_page r)
     = MoodBoardPage.board_items page
  /\ MoodBoardPage.current_board (MoodBoardPage.r_page r)
     = MoodBoardPage.current_board page.
Proof.
  intros Hu Ho Hn r. subst r.
  unfold MoodBoardPage.new_board, MoodBoardPage.refresh_board_list.
  apply truthy_true in Ho, Hn. rewrite Hu, Ho, Hn. simpl.
  unfold Boards.find.
  repeat split.
  - apply sort_desc_in, filter_In. unfold Boards.insert_one, Boards.owned_by.
    split; [apply in_or_app; right; left; reflexivity|].
    simpl. apply String.eqb_refl.
  - apply sort_desc_sorted.
  - apply sort_desc_perm.
Qed.

Lemma new_board_listed_witness :
  let r :=
    MoodBoardPage.new_board MoodBoardPage.init alice_app
      (MoodBoardPage.r_boards (saved fs_tall "/pics/tall.png")) (Some "Next")
      t2 9 in
  current_user alice_app = Some "alice" /\ "alice" <> "" /\ "Next" <> ""
  /\ MoodBoardPage.r_boards r
     = (MoodBoardPage.r_boards (saved fs_tall "/pics/tall.png")
        ++ [mk_board 9 "alice" "Next" [] t2])%list
  /\ In (mk_board 9 "alice" "Next" [] t2)
       (MoodBoardPage._board_docs (MoodBoardPage.r_page r))
  /\ StronglySorted
       (fun a b => datetime_leb (b_saved_at b) (b_saved_at a) = true)
       (MoodBoardPage._board_docs (MoodBoardPage.r_page r))
  /\ Permutation (MoodBoardPage._board_docs (MoodBoardPage.r_page r))
       (filter (Boards.owned_by "alice") (MoodBoardPage.r_boards r))
  /\ MoodBoardPage.board_items (MoodBoardPage.r_page r)
     = MoodBoardPage.board_items MoodBoardPage.init
  /\ MoodBoardPage.current_board (MoodBoardPage.r_page r)
     = MoodBoardPage.current_board MoodBoardPage.init.
Proof.
  intros r.
  assert (Hu : current_user alice_app = Some "alice") by reflexivity.
  assert (Ho : "alice" <> "") by discriminate.
  assert (Hn : "Next" <> "") by discriminate.
  repeat (split; [assumption|]).
  exact (new_board_listed MoodBoardPage.init alice_app
           (MoodBoardPage.r_boards (saved fs_tall "/pics/tall.png"))
           "alice" "Next" t2 9 Hu Ho Hn).
Defined.

Example boards_listed_recent_first :
  map b_board_name
    (Boards.find
       [mk_board 1 "alice" "Old" [] t0; mk_board 2 "bob" "Mine" [] t1;
        mk_board 3 "alice" "New" [] t2; mk_board 4 "alice" "Mid" [] t1]
       "alice")
  = ["New"; "Mid"; "Old"].
Proof. reflexivity. Qed.

(** ** Saving from the editor, and the gallery *)

Lemma lookup_write_same (fs : FS.t) (path : string) (f : file) :
  FS.lookup (FS.write fs path f) path = Some f.
Proof. unfold FS.write. simpl. now rewrite String.eqb_refl. Qed.

Lemma lookup_unlink_other (fs : FS.t) (path other : string) :
  other <> path -> FS.lookup (FS.unlink fs path) other = FS.lookup fs other.
Proof.
  intros Hne. unfold FS.unlink.
  induction fs as [|[p f] fs IH]; simpl; [reflexivity|].
  destruct (String.eqb_spec p path) as [->|Hp]; simpl.
  - destruct (String.eqb_spec path other); [congruence | exact IH].
  - destruct (String.eqb p other); [reflexivity | exact IH].
Qed.

Lemma lookup_unlink_same (fs : FS.t) (path : string) :
  FS.lookup (FS.unlink fs path) path = None.
Proof.
  unfold FS.unlink. induction fs as [|[p f] fs IH]; simpl; [reflexivity|].
  destruct (String.eqb_spec p path) as [->|Hp]; simpl; [exact IH|].
  destruct (String.eqb_spec p path); [contradiction | exact IH].
Qed.

Lemma lookup_write_other (fs : FS.t) (path other : string) (f : file) :
  other <> path -> FS.lookup (FS.write fs path f) other = FS.lookup fs other.
Proof.
  intros Hne. unfold FS.write. simpl.
  destruct (String.eqb_spec path other); [congruence|].
  now apply lookup_unlink_other.
Qed.

Lemma truthy_append (a b : string) :
  Py.truthy b = true -> Py.truthy (a ++ b) = true.
Proof. destruct a; simpl; auto. Qed.

(** The path of a stored file is never empty. *)
Lemma save_image_file_path_truthy (img : image) (username orig : string)
    (now : datetime) (fs : FS.t) :
  Py.truthy (fst (save_image_file img username orig now fs)) = true.
Proof.
  rewrite save_image_file_path.
  destruct (strftime_stamp_head now) as [c [rest [-> Hc]]].
  set (folder := OsPath.join UPLOAD_ROOT username).
  unfold OsPath.join. cbn [append]. apply Ascii.eqb_neq in Hc. rewrite Hc.
  destruct (negb (Py.truthy folder) || OsPath.ends_with_sep folder);
    apply truthy_append; reflexivity.
Qed.

Section GalleryListing.
Context {pillow : Pillow}.

(** A record is drawn when its path is not empty, its file opens and the
    thumbnail can be made. *)
Lemma draw_tiles_intro (fs : FS.t) (docs : list image_doc) (d : image_doc)
    (img thumb : image) :
  In d docs -> Py.truthy (i_saved_path d) = true ->
  FS.open fs (i_saved_path d) = Some img ->
  thumbnail img (180, 130) = Some thumb ->
  In (GalleryPage.mk_tile (i_saved_path d) thumb)
     (GalleryPage.draw_tiles fs docs).
Proof.
  intros Hin Ht Ho Hth.
  induction docs as [|e docs IH]; [contradiction|].
  cbn [GalleryPage.draw_tiles]. destruct Hin as [->|Hin].
  - rewrite Ht, (open_exists _ _ _ Ho), Ho, Hth. simpl. now left.
  - specialize (IH Hin).
    destruct (negb (Py.truthy (i_saved_path e))
              || negb (FS.exists_ fs (i_saved_path e))); [exact IH|].
    destruct (FS.open fs (i_saved_path e)) as [opened|]; [|exact IH].
    destruct (thumbnail opened (180, 130)); [right|]; exact IH.
Qed.

(** X7.  "Save Edited" by a logged-in user writes the working image,
    converted to RGBA, to the generated path, appends one record that
    carries that path, the base name of the uploaded file, the values of
    the four controls and the second reading of the clock, and leaves
    the records before untouched; the gallery drawn afterwards has a tile
    for the new path as soon as its thumbnail can be made. *)
Theorem save_edited_listed (self : EditorPage.t) (controller : MoodBoardApp)
    (images_col : list image_doc) (fs : FS.t) (utcnow_file utcnow_doc : datetime)
    (username : string) (work : image) :
  current_user controller = Some username -> username <> "" ->
  current_work_image controller = Some work ->
  let r :=
    EditorPage.save_edited self controller images_col fs utcnow_file
      utcnow_doc in
  exists orig_name out_path,
    out_path
    = fst (save_image_file (convert work "RGBA") username orig_name
             utcnow_file fs)
    /\ EditorPage.sr_images r
       = (images_col
          ++ [mk_image_doc username orig_name out_path
                (mk_filters (EditorPage.var_grayscale self)
                   (EditorPage.blur_var self) (EditorPage.brightness_var self)
                   (EditorPage.contrast_var self))
                utcnow_doc])%list
    /\ FS.open (EditorPage.sr_fs r) out_path = Some (convert work "RGBA")
    /\ (forall other, other <> out_path ->
          FS.lookup (EditorPage.sr_fs r) other = FS.lookup fs other)
    /\ (forall thumb,
          thumbnail (convert work "RGBA") (180, 130) = Some thumb ->
          In (GalleryPage.mk_tile out_path thumb)
             (GalleryPage.reload controller (EditorPage.sr_images r)
                (EditorPage.sr_fs r))).
Proof.
  intros Hu Hne Hw r. subst r. unfold EditorPage.save_edited.
  rewrite Hw, Hu. apply truthy_true in Hne. rewrite Hne.
  set (orig_name :=
         if Py.truthy_opt (current_image_path controller)
         then match current_image_path controller with
              | Some p => OsPath.basename p
              | None => "untitled"
              end
         else "untitled").
  exists orig_name.
  pose proof (save_image_file_path_truthy (convert work "RGBA") username
                orig_name utcnow_file fs) as Htruthy.
  assert (Hfs : snd (save_image_file (convert work "RGBA") username orig_name
                       utcnow_file fs)
                = FS.write fs
                    (fst (save_image_file (convert work "RGBA") username
                            orig_name utcnow_file fs))
                    (ImageFile (convert work "RGBA"))).
  { unfold save_image_file.
    destruct (OsPath.splitext (OsPath.basename orig_name)). reflexivity. }
  destruct (save_image_file (convert work "RGBA") username orig_name
              utcnow_file fs) as [out_path fs'] eqn:Hsave.
  simpl in Htruthy, Hfs. subst fs'. exists out_path. simpl.
  assert (Hopen : FS.open (FS.write fs out_path (ImageFile (convert work "RGBA")))
                    out_path = Some (convert work "RGBA")).
  { unfold FS.open. now rewrite lookup_write_same. }
  repeat split.
  - exact Hopen.
  - intros other Hother. now apply lookup_write_other.
  - intros thumb Hth. unfold GalleryPage.reload. rewrite Hu. simpl.
    rewrite Hne.
    apply (draw_tiles_intro _ _
             (mk_image_doc username orig_name out_path
                (mk_filters (EditorPage.var_grayscale self)
                   (EditorPage.blur_var self) (EditorPage.brightness_var self)
                   (EditorPage.contrast_var self)) utcnow_doc)
             (convert work "RGBA") thumb); auto.
    unfold Images.find, Images.insert_one.
    apply sort_desc_in, filter_In. split.
    + apply in_or_app. right. left. reflexivity.
    + simpl. apply String.eqb_refl.
Qed.

(** X8.  Every tile of the gallery belongs to a record of the logged-in
    user whose file exists at the time of drawing. *)
Theorem reload_tiles_owned (controller : MoodBoardApp)
    (images_col : list image_doc) (fs : FS.t) :
  Forall (fun t =>
            exists d, In d images_col
              /\ current_user controller = Some (i_username d)
              /\ i_saved_path d = GalleryPage.tile_path t
              /\ FS.exists_ fs (GalleryPage.tile_path t) = true)
         (GalleryPage.reload controller images_col fs).
Proof.
  apply Forall_forall. intros t Ht. unfold GalleryPage.reload in Ht.
  destruct (current_user controller) as [u|]; simpl in Ht; [|contradiction].
  destruct (Py.truthy u); [|contradiction].
  apply draw_tiles_from_docs in Ht. destruct Ht as [d [Hd [Hp He]]].
  unfold Images.find in Hd. apply sort_desc_in, filter_In in Hd.
  destruct Hd as [Hin Hu]. apply String.eqb_eq in Hu.
  exists d. rewrite <- Hp. subst u. auto.
Qed.

(** X9.  A record whose file is missing cannot be reached from the
    gallery: no tile is drawn for its path, and a preview of the path
    shows "File not found" and opens no window, so no Delete button. *)
Theorem missing_file_unreachable (path : string) (controller : MoodBoardApp)
    (images_col : list image_doc) (fs : FS.t) (tiles : list GalleryPage.tile) :
  FS.exists_ fs path = false ->
  Forall (fun t => GalleryPage.tile_path t <> path)
    (GalleryPage.reload controller images_col fs)
  /\ GalleryPage.preview_image path controller images_col fs tiles
     = GalleryPage.mk_preview_result None
         (GalleryPage.reload controller images_col fs)
         [showerror "Missing" "File not found"].
Proof.
  intros Hmiss. split.
  - apply Forall_forall. intros t Ht Heq. unfold GalleryPage.reload in Ht.
    destruct (current_user controller) as [u|]; simpl in Ht; [|contradiction].
    destruct (Py.truthy u); [|contradiction].
    apply draw_tiles_from_docs in Ht. destruct Ht as [d [_ [Hp He]]].
    rewrite Hp, Heq in He. congruence.
  - unfold GalleryPage.preview_image. now rewrite Hmiss.
Qed.

End GalleryListing.

Lemma save_edited_listed_witness :
  let editor := EditorPage.mk true 2.5%float 1%float 1.25%float in
  let work := mk_image "RGBA" 2 1 [0; 255] in
  let r :=
    EditorPage.save_edited (pillow := pillow_sizes) editor editor_app [] []
      t0 t1 in
  current_user editor_app = Some "alice" /\ "alice" <> ""
  /\ current_work_image editor_app = Some work
  /\ exists orig_name out_path,
       out_path
       = fst (save_image_file (convert (Pillow := pillow_sizes) work "RGBA")
                "alice" orig_name t0 [])
       /\ EditorPage.sr_images r
          = ([] ++ [mk_image_doc "alice" orig_name out_path
                      (mk_filters (EditorPage.var_grayscale editor)
                         (EditorPage.blur_var editor)
                         (EditorPage.brightness_var editor)
                         (EditorPage.contrast_var editor)) t1])%list
       /\ FS.open (EditorPage.sr_fs r) out_path
          = Some (convert (Pillow := pillow_sizes) work "RGBA")
       /\ (forall other, other <> out_path ->
             FS.lookup (EditorPage.sr_fs r) other = FS.lookup [] other)
       /\ (forall thumb,
             thumbnail (Pillow := pillow_sizes)
               (convert (Pillow := pillow_sizes) work "RGBA") (180, 130)
             = Some thumb ->
             In (GalleryPage.mk_tile out_path thumb)
                (GalleryPage.reload (pillow := pillow_sizes) editor_app
                   (EditorPage.sr_images r) (EditorPage.sr_fs r))).
Proof.
  intros editor work r.
  assert (Hu : current_user editor_app = Some "alice") by reflexivity.
  assert (Hn : "alice" <> "") by discriminate.
  assert (Hw : current_work_image editor_app = Some work) by reflexivity.
  repeat (split; [assumption|]).
  exact (save_edited_listed (pillow := pillow_sizes) editor editor_app [] []
           t0 t1 "alice" work Hu Hn Hw).
Defined.

Example save_edited_sample :
  let r :=
    EditorPage.save_edited (pillow := pillow_sizes)
      (EditorPage.mk true 2.5%float 1%float 1.25%float) editor_app [] []
      t0 t1 in
  EditorPage.sr_images r
  = [mk_image_doc "alice" "cat.jpg" cat_path
       (mk_filters true 2.5%float 1%float 1.25%float) t1]
  /\ map GalleryPage.tile_path
       (GalleryPage.reload (pillow := pillow_sizes) editor_app
          (EditorPage.sr_images r) (EditorPage.sr_fs r))
     = [cat_path].
Proof. repeat split. Qed.

Lemma missing_file_unreachable_witness :
  let images := EditorPage.sr_images (save_pressed [] [] t0 t1) in
  FS.exists_ [] cat_path = false
  /\ Forall (fun t => GalleryPage.tile_path t <> cat_path)
       (GalleryPage.reload (pillow := pillow_sizes) editor_app images [])
  /\ GalleryPage.preview_image (pillow := pillow_sizes) cat_path editor_app
       images [] []
     = GalleryPage.mk_preview_result None
         (GalleryPage.reload (pillow := pillow_sizes) editor_app images [])
         [showerror "Missing" "File not found"].
Proof.
  intros images.
  assert (H : FS.exists_ [] cat_path = false) by reflexivity.
  split; [exact H|].
  exact (missing_file_unreachable (pillow := pillow_sizes) cat_path editor_app
           images [] [] H).
Defined.

(** ** Boards: what a save touches *)

Lemma set_first_ids (u name : string) (layout : list layout_item)
    (now : datetime) (col : list board_doc) :
  forall col', Boards.set_first u name layout now col = Some col' ->
  map b_id col' = map b_id col.
Proof.
  induction col as [|d col IH]; intros col' H; simpl in H; [discriminate|].
  destruct (Boards.keyed u name d).
  - injection H as <-. reflexivity.
  - destruct (Boards.set_first u name layout now col) as [r|]; [|discriminate].
    injection H as <-. simpl. now rewrite (IH r).
Qed.

(** The identifiers after the upsert: those before, in their order, and
    the fresh one behind them when a record is inserted. *)
Lemma update_one_upsert_ids (col : list board_doc) (u name : string)
    (layout : list layout_item) (now : datetime) (oid : nat) :
  exists tail,
    map b_id (Boards.update_one_upsert col u name layout now oid)
    = (map b_id col ++ tail)%list
    /\ (tail = [] \/ tail = [oid]).
Proof.
  unfold Boards.update_one_upsert.
  destruct (Boards.set_first u name layout now col) as [col'|] eqn:Hs.
  - exists []. rewrite app_nil_r. split; [|now left].
    exact (set_first_ids _ _ _ _ _ _ Hs).
  - exists [oid]. rewrite map_app. auto.
Qed.

Lemma boards_find_one_unique (col : list board_doc) (d : board_doc) :
  NoDup (map b_id col) -> In d col -> Boards.find_one col (b_id d) = Some d.
Proof.
  unfold Boards.find_one. induction col as [|e col IH]; simpl; [tauto|].
  intros Hnd Hin. inversion Hnd as [|? ? Hnotin Hnd']; subst.
  destruct (Nat.eqb_spec (b_id e) (b_id d)) as [Heq|Hne].
  - destruct Hin as [->|Hin]; [reflexivity|].
    exfalso. apply Hnotin. rewrite Heq. now apply in_map.
  - destruct Hin as [->|Hin]; [congruence | now apply IH].
Qed.

(** X10.  "Save Board" leaves every record under another owner or another
    name exactly as it is, keeps the identifiers of all records and their
    order, and adds at most one record, under the fresh identifier. *)
Theorem save_board_keeps_others (page : MoodBoardPage.t)
    (controller : MoodBoardApp) (boards_col : list board_doc)
    (utcnow : datetime) (oid : nat) :
  let u := MoodBoardPage.get (current_user controller) "" in
  let n := MoodBoardPage.get (MoodBoardPage.current_board page) "" in
  let boards' :=
    MoodBoardPage.r_boards
      (MoodBoardPage.save_board page controller boards_col utcnow oid) in
  filter (fun d => negb (Boards.keyed u n d)) boards'
  = filter (fun d => negb (Boards.keyed u n d)) boards_col
  /\ exists tail,
       map b_id boards' = (map b_id boards_col ++ tail)%list
       /\ (tail = [] \/ tail = [oid]).
Proof.
  intros u n boards'. subst u n boards'. unfold MoodBoardPage.save_board.
  assert (Hsame : exists tail,
            map b_id boards_col = (map b_id boards_col ++ tail)%list
            /\ (tail = [] \/ tail = [oid])).
  { exists []. rewrite app_nil_r. auto. }
  destruct (MoodBoardPage.current_board page) as [name|]; [|now split].
  destruct (Py.truthy name); [|now split].
  destruct (current_user controller) as [owner|]; [|now split].
  destruct (Py.truthy owner); [|now split].
  simpl. split.
  - apply update_one_upsert_others.
  - apply update_one_upsert_ids.
Qed.

Section SaveAndSelect.
Context {pillow : Pillow}.

(** X11.  Save, then pick the board in the list.  With board identifiers
    that are pairwise different and a fresh identifier at hand, "Save
    Board" puts the board into the list of the page, under its name and
    the time of the save, and selecting that line of the list brings back
    every entry, in order, with its path, position and size, provided
    each entry is reloadable; the page afterwards satisfies the
    invariant. *)
Theorem save_then_select (page : MoodBoardPage.t) (controller : MoodBoardApp)
    (boards_col : list board_doc) (fs : FS.t) (owner name : string)
    (utcnow : datetime) (oid : nat) :
  MoodBoardPage.page_ok page ->
  Forall (MoodBoardPage.reloadable fs) (MoodBoardPage.board_items page) ->
  current_user controller = Some owner ->
  MoodBoardPage.current_board page = Some name ->
  owner <> "" -> name <> "" ->
  NoDup (map b_id boards_col) -> ~ In oid (map b_id boards_col) ->
  let r := MoodBoardPage.save_board page controller boards_col utcnow oid in
  exists idx doc,
    nth_error (MoodBoardPage._board_docs (MoodBoardPage.r_page r)) idx
    = Some doc
    /\ b_username doc = owner /\ b_board_name doc = name
    /\ b_saved_at doc = utcnow
    /\ map MoodBoardPage.placed
         (MoodBoardPage.board_items
            (fst (MoodBoardPage.on_board_select (MoodBoardPage.r_page r)
                    (MoodBoardPage.r_boards r) fs (Some idx))))
       = map MoodBoardPage.placed (MoodBoardPage.board_items page)
    /\ MoodBoardPage.current_board
         (fst (MoodBoardPage.on_board_select (MoodBoardPage.r_page r)
                 (MoodBoardPage.r_boards r) fs (Some idx)))
       = Some name
    /\ MoodBoardPage.page_ok
         (fst (MoodBoardPage.on_board_select (MoodBoardPage.r_page r)
                 (MoodBoardPage.r_boards r) fs (Some idx))).
Proof.
  intros Hok Hre Hu Hb Ho Hn Hnd Hfresh r.
  destruct (save_board_stores_layout page controller boards_col owner name
              utcnow oid Hu Hb Ho Hn) as [id Hin].
  fold r in Hin.
  set (doc := mk_board id owner name (MoodBoardPage.layout_of page) utcnow)
    in *.
  assert (Hboards : MoodBoardPage.r_boards r
                    = Boards.update_one_upsert boards_col owner name
                        (MoodBoardPage.layout_of page) utcnow oid).
  { subst r. now apply save_board_upserts. }
  assert (Hnd' : NoDup (map b_id (MoodBoardPage.r_boards r))).
  { rewrite Hboards.
    destruct (update_one_upsert_ids boards_col owner name
                (MoodBoardPage.layout_of page) utcnow oid)
      as [tail [-> [-> | ->]]].
    - now rewrite app_nil_r.
    - apply NoDup_app; [exact Hnd | repeat constructor; intros [] | ].
      intros a Ha [<-|[]]. contradiction. }
  assert (Hpage : MoodBoardPage.r_page r
                  = MoodBoardPage.refresh_board_list page controller
                      (MoodBoardPage.r_boards r)).
  { subst r. unfold MoodBoardPage.save_board.
    pose proof (proj2 (truthy_true owner) Ho) as Hot.
    pose proof (proj2 (truthy_true name) Hn) as Hnt.
    now rewrite Hb, Hnt, Hu, Hot. }
  assert (Hdocs : MoodBoardPage._board_docs (MoodBoardPage.r_page r)
                  = Boards.find (MoodBoardPage.r_boards r) owner).
  { rewrite Hpage. unfold MoodBoardPage.refresh_board_list.
    pose proof (proj2 (truthy_true owner) Ho) as Hot.
    now rewrite Hu, Hot. }
  assert (Hlisted : In doc (Boards.find (MoodBoardPage.r_boards r) owner)).
  { unfold Boards.find. apply sort_desc_in, filter_In. split; [exact Hin|].
    unfold Boards.owned_by. simpl. apply String.eqb_refl. }
  destruct (In_nth_error _ _ Hlisted) as [idx Hidx].
  exists idx, doc. rewrite Hdocs.
  split; [exact Hidx|]. repeat (split; [reflexivity|]).
  unfold MoodBoardPage.on_board_select. rewrite Hdocs, Hidx.
  assert (Hfind : Boards.find_one (MoodBoardPage.r_boards r) (b_id doc)
                  = Some doc) by now apply boards_find_one_unique.
  destruct (load_board_found (MoodBoardPage.r_page r)
              (MoodBoardPage.r_boards r) fs (b_id doc) doc Hfind)
    as [Hname Hitems].
  split; [|split; [exact Hname|]].
  - rewrite Hitems. subst doc. cbn [b_layout].
    rewrite (layout_of_agrees page (page_ok_agrees page Hok)).
    now rewrite load_items_reloadable.
  - apply page_ok_load_board.
    + rewrite Hpage. unfold MoodBoardPage.refresh_board_list.
      destruct (current_user controller) as [x|]; [|exact Hok].
      destruct (Py.truthy x); exact Hok.
    + intros d Hd. rewrite Hfind in Hd. injection Hd as <-.
      apply layout_of_positions.
Qed.

End SaveAndSelect.

Lemma save_then_select_witness :
  let page := MoodBoardPage.r_page (added fs_icon "/pics/icon.png") in
  let boards := MoodBoardPage.r_boards (added fs_icon "/pics/icon.png") in
  let r := MoodBoardPage.save_board page alice_app boards t1 2 in
  MoodBoardPage.page_ok page
  /\ Forall (MoodBoardPage.reloadable (pillow := pillow_sizes) fs_icon)
       (MoodBoardPage.board_items page)
  /\ current_user alice_app = Some "alice"
  /\ MoodBoardPage.current_board page = Some "Trip"
  /\ "alice" <> "" /\ "Trip" <> ""
  /\ NoDup (map b_id boards) /\ ~ In 2%nat (map b_id boards)
  /\ exists idx doc,
       nth_error (MoodBoardPage._board_docs (MoodBoardPage.r_page r)) idx
       = Some doc
       /\ b_username doc = "alice" /\ b_board_name doc = "Trip"
       /\ b_saved_at doc = t1
       /\ map MoodBoardPage.placed
            (MoodBoardPage.board_items
               (fst (MoodBoardPage.on_board_select (pillow := pillow_sizes)
                       (MoodBoardPage.r_page r) (MoodBoardPage.r_boards r)
                       fs_icon (Some idx))))
          = map MoodBoardPage.placed (MoodBoardPage.board_items page)
       /\ MoodBoardPage.current_board
            (fst (MoodBoardPage.on_board_select (pillow := pillow_sizes)
                    (MoodBoardPage.r_page r) (MoodBoardPage.r_boards r)
                    fs_icon (Some idx)))
          = Some "Trip"
       /\ MoodBoardPage.page_ok
            (fst (MoodBoardPage.on_board_select (pillow := pillow_sizes)
                    (MoodBoardPage.r_page r) (MoodBoardPage.r_boards r)
                    fs_icon (Some idx))).
Proof.
  intros page boards r.
  assert (Hok : MoodBoardPage.page_ok page).
  { apply (page_ok_add_image_to_board (pillow := pillow_sizes)).
    exact page_ok_init. }
  assert (Hre : Forall (MoodBoardPage.reloadable (pillow := pillow_sizes) fs_icon)
                  (MoodBoardPage.board_items page)).
  { repeat constructor; [discriminate|].
    exists (mk_image "RGBA" 64 48 []), (mk_image "RGBA" 64 48 []).
    repeat split. }
  assert (Hu : current_user alice_app = Some "alice") by reflexivity.
  assert (Hb : MoodBoardPage.current_board page = Some "Trip") by reflexivity.
  assert (Ho : "alice" <> "") by discriminate.
  assert (Hn : "Trip" <> "") by discriminate.
  assert (Hnd : NoDup (map b_id boards)).
  { repeat constructor. intros []. }
  assert (Hfresh : ~ In 2%nat (map b_id boards)).
  { intros [H|[]]. discriminate. }
  repeat (split; [assumption|]).
  exact (save_then_select (pillow := pillow_sizes) page alice_app boards
           fs_icon "alice" "Trip" t1 2 Hok Hre Hu Hb Ho Hn Hnd Hfresh).
Defined.

(** ** Placing and dragging images *)

Lemma filter_all {A : Type} (f : A -> bool) (l : list A) :
  (forall x, In x l -> f x = true) -> filter f l = l.
Proof.
  induction l as [|a l IH]; simpl; [reflexivity|]. intros H.
  rewrite (H a (or_introl eq_refl)). f_equal. apply IH.
  intros x Hx. apply H. now right.
Qed.

Lemma filter_none {A : Type} (f : A -> bool) (l : list A) :
  (forall x, In x l -> f x = false) -> filter f l = [].
Proof.
  induction l as [|a l IH]; simpl; [reflexivity|]. intros H.
  rewrite (H a (or_introl eq_refl)). apply IH.
  intros x Hx. apply H. now right.
Qed.

(** Raising the item that was created last leaves the display list as it
    is. *)
Lemma tag_raise_last (c : Canvas.t) (x y : Z) (img : image) :
  (forall it, In it (Canvas.items c) ->
     (Canvas.c_id it < Canvas.next_id c)%nat) ->
  Canvas.tag_raise (snd (Canvas.create_image c x y img)) (Canvas.next_id c)
  = snd (Canvas.create_image c x y img).
Proof.
  intros Hb. unfold Canvas.tag_raise, Canvas.create_image. simpl. f_equal.
  rewrite !filter_app. simpl. rewrite Nat.eqb_refl. simpl.
  rewrite filter_all, filter_none; [now rewrite app_nil_r | | ].
  - intros it Hit. apply Nat.eqb_neq. specialize (Hb it Hit). lia.
  - intros it Hit. apply negb_true_iff, Nat.eqb_neq.
    specialize (Hb it Hit). lia.
Qed.

Lemma find_meta_unique (items : list MoodBoardPage.meta)
    (m : MoodBoardPage.meta) :
  NoDup (map MoodBoardPage.m_id items) -> In m items ->
  find (fun meta => Nat.eqb (MoodBoardPage.m_id meta) (MoodBoardPage.m_id m))
    items = Some m.
Proof.
  induction items as [|a l IH]; simpl; [tauto|].
  intros Hnd Hin. inversion Hnd as [|? ? Hnotin Hnd']; subst.
  destruct (Nat.eqb_spec (MoodBoardPage.m_id a) (MoodBoardPage.m_id m))
    as [Heq|Hne].
  - destruct Hin as [->|Hin]; [reflexivity|].
    exfalso. apply Hnotin. rewrite Heq. now apply in_map.
  - destruct Hin as [->|Hin]; [congruence | now apply IH].
Qed.

Lemma move_meta_moved (id : nat) (x y : Z) (items : list MoodBoardPage.meta)
    (m : MoodBoardPage.meta) :
  NoDup (map MoodBoardPage.m_id items) -> In m items ->
  MoodBoardPage.m_id m = id ->
  In (MoodBoardPage.mk_meta id (MoodBoardPage.m_path m) x y
        (MoodBoardPage.m_w m) (MoodBoardPage.m_h m))
     (MoodBoardPage.move_meta id x y items).
Proof.
  induction items as [|a l IH]; simpl; [tauto|].
  intros Hnd Hin Hid. inversion Hnd as [|? ? Hnotin Hnd']; subst.
  destruct (Nat.eqb_spec (MoodBoardPage.m_id a) (MoodBoardPage.m_id m))
    as [Heq|Hne].
  - destruct Hin as [->|Hin]; [now left|].
    exfalso. apply Hnotin. rewrite Heq. now apply in_map.
  - destruct Hin as [->|Hin]; [congruence | right; now apply IH].
Qed.

Lemma move_meta_others (id : nat) (x y : Z) (items : list MoodBoardPage.meta)
    (o : MoodBoardPage.meta) :
  In o items -> MoodBoardPage.m_id o <> id ->
  In o (MoodBoardPage.move_meta id x y items).
Proof.
  induction items as [|a l IH]; simpl; [tauto|].
  intros [->|Hin] Hne.
  - destruct (Nat.eqb_spec (MoodBoardPage.m_id o) id);
      [contradiction | now left].
  - destruct (Nat.eqb (MoodBoardPage.m_id a) id); right; auto.
Qed.

Section PlacingProperties.
Context {pillow : Pillow}.

(** X12.  "Add Image" with a board open and a file chosen from the disk:
    the picture, thumbnailed to at most 300 by 300, becomes the last
    entry and the topmost canvas item, at 40 + 10 n pixels from the left
    and from the top where n is the number of entries before; the other
    entries, the open board and the [boards] collection stay as they
    were. *)
Theorem add_image_placed (self : MoodBoardPage.t) (controller : MoodBoardApp)
    (boards_col : list board_doc) (images_col : list image_doc) (fs : FS.t)
    (ans : MoodBoardPage.add_answers) (utcnow : datetime) (oid : nat)
    (opened pil : image) :
  MoodBoardPage.page_ok self ->
  Py.truthy_opt (MoodBoardPage.current_board self) = true ->
  MoodBoardPage.from_uploads ans = false ->
  MoodBoardPage.chosen_file ans <> "" ->
  FS.open fs (MoodBoardPage.chosen_file ans) = Some opened ->
  thumbnail (convert opened "RGBA") (300, 300) = Some pil ->
  let r :=
    MoodBoardPage.add_image_to_board self controller boards_col images_col
      fs ans utcnow oid in
  let n := Z.of_nat (List.length (MoodBoardPage.board_items self)) in
  let id := Canvas.next_id (MoodBoardPage.canvas self) in
  MoodBoardPage.board_items (MoodBoardPage.r_page r)
  = (MoodBoardPage.board_items self
     ++ [MoodBoardPage.mk_meta id (MoodBoardPage.chosen_file ans)
           (40 + n * 10) (40 + n * 10) (im_width pil) (im_height pil)])%list
  /\ Canvas.items (MoodBoardPage.canvas (MoodBoardPage.r_page r))
     = (Canvas.items (MoodBoardPage.canvas self)
        ++ [Canvas.mk_item id (40 + n * 10) (40 + n * 10) pil])%list
  /\ MoodBoardPage.current_board (MoodBoardPage.r_page r)
     = MoodBoardPage.current_board self
  /\ MoodBoardPage.r_boards r = boards_col
  /\ MoodBoardPage.r_shown r = [].
Proof.
  intros Hok Hb Hfrom Hfile Ho Hth r n id. subst r.
  unfold MoodBoardPage.add_image_to_board, MoodBoardPage.choose_image,
    MoodBoardPage.place_image.
  apply truthy_true in Hfile. rewrite Hb, Hfrom, Hfile, Ho, Hth.
  cbv zeta. cbn [Canvas.create_image MoodBoardPage.set_items
    MoodBoardPage.current_board MoodBoardPage.board_items
    MoodBoardPage.canvas]. rewrite Hb.
  cbn [MoodBoardPage.r_page MoodBoardPage.r_boards MoodBoardPage.r_shown
    MoodBoardPage.set_items MoodBoardPage.board_items MoodBoardPage.canvas
    MoodBoardPage.current_board].
  destruct Hok as [_ [_ Hbound]].
  pose proof (tag_raise_last (MoodBoardPage.canvas self) (40 + n * 10)
                (40 + n * 10) pil Hbound) as Hraise.
  unfold Canvas.create_image in Hraise. cbn [snd] in Hraise.
  fold n id. fold id in Hraise. rewrite Hraise.
  repeat split.
Qed.

(** X13.  Grabbing an entry and dragging: when the pointer goes down on
    the entry that is topmost under it and moves, the entry and its
    canvas item move by exactly the pointer's displacement; the other
    entries stay where they are, no entry is added or lost, and after the
    button is released further motion moves nothing. *)
Theorem click_then_drag (self : MoodBoardPage.t) (below : list nat)
    (x0 y0 x1 y1 : Z) (m : MoodBoardPage.meta) :
  MoodBoardPage.page_ok self -> In m (MoodBoardPage.board_items self) ->
  let top := MoodBoardPage.m_id m in
  let s1 := MoodBoardPage.on_canvas_click self x0 y0 (below ++ [top]) in
  let s2 := MoodBoardPage.on_canvas_drag s1 x1 y1 in
  let x' := MoodBoardPage.m_x m + (x1 - x0) in
  let y' := MoodBoardPage.m_y m + (y1 - y0) in
  In (MoodBoardPage.mk_meta top (MoodBoardPage.m_path m) x' y'
        (MoodBoardPage.m_w m) (MoodBoardPage.m_h m))
     (MoodBoardPage.board_items s2)
  /\ Canvas.coords (MoodBoardPage.canvas s2) top = Some (x', y')
  /\ map MoodBoardPage.m_id (MoodBoardPage.board_items s2)
     = map MoodBoardPage.m_id (MoodBoardPage.board_items self)
  /\ Forall (fun o =>
               MoodBoardPage.m_id o = top
               \/ (In o (MoodBoardPage.board_items s2)
                   /\ Canvas.coords (MoodBoardPage.canvas s2)
                        (MoodBoardPage.m_id o)
                      = Some (MoodBoardPage.m_x o, MoodBoardPage.m_y o)))
            (MoodBoardPage.board_items self)
  /\ MoodBoardPage.on_canvas_drag (MoodBoardPage.on_canvas_release s2) x1 y1
     = MoodBoardPage.on_canvas_release s2.
Proof.
  intros Hok Hin top s1 s2 x' y'.
  destruct Hok as [Hnd [Hc Hb]].
  assert (Hs1 : s1 = MoodBoardPage.set_selection self (Some top)
                       (x0 - MoodBoardPage.m_x m, y0 - MoodBoardPage.m_y m)
                       (Canvas.tag_raise (MoodBoardPage.canvas self) top)
                       (MoodBoardPage.board_items self)).
  { subst s1. unfold MoodBoardPage.on_canvas_click.
    rewrite rev_app_distr. simpl.
    fold top. unfold top at 1. rewrite (find_meta_unique _ m Hnd Hin).
    now rewrite (Hc m Hin). }
  assert (Hs2 : s2 = MoodBoardPage.set_selection s1 (Some top)
                       (MoodBoardPage.drag_offset s1)
                       (Canvas.move (Canvas.tag_raise
                                       (MoodBoardPage.canvas self) top)
                          top x' y')
                       (MoodBoardPage.move_meta top x' y'
                          (MoodBoardPage.board_items self))).
  { subst s2. rewrite Hs1. unfold MoodBoardPage.on_canvas_drag. simpl.
    replace (x1 - (x0 - MoodBoardPage.m_x m)) with x' by (unfold x'; lia).
    replace (y1 - (y0 - MoodBoardPage.m_y m)) with y' by (unfold y'; lia).
    reflexivity. }
  rewrite Hs2. simpl. repeat split.
  - now apply move_meta_moved.
  - rewrite coords_move, Nat.eqb_refl, coords_tag_raise. fold top.
    unfold top at 1. now rewrite (Hc m Hin).
  - apply move_meta_ids.
  - apply Forall_forall. intros o Ho.
    destruct (Nat.eq_dec (MoodBoardPage.m_id o) top) as [Heq|Hne];
      [now left | right].
    split; [now apply move_meta_others|].
    rewrite coords_move.
    destruct (Nat.eqb_spec (MoodBoardPage.m_id o) top); [contradiction|].
    rewrite coords_tag_raise. exact (Hc o Ho).
Qed.

End PlacingProperties.

Lemma add_image_placed_witness :
  let self := MoodBoardPage.r_page (added fs_icon "/pics/icon.png") in
  let ans := trip_answers "/pics/tall.png" in
  let opened := mk_image "RGB" 200 301 [] in
  let pil := mk_image "RGBA" 199 300 [] in
  let r :=
    MoodBoardPage.add_image_to_board (pillow := pillow_sizes) self alice_app
      [] [] fs_tall ans t2 5 in
  let n := Z.of_nat (List.length (MoodBoardPage.board_items self)) in
  let id := Canvas.next_id (MoodBoardPage.canvas self) in
  MoodBoardPage.page_ok self
  /\ Py.truthy_opt (MoodBoardPage.current_board self) = true
  /\ MoodBoardPage.from_uploads ans = false
  /\ MoodBoardPage.chosen_file ans <> ""
  /\ FS.open fs_tall (MoodBoardPage.chosen_file ans) = Some opened
  /\ thumbnail (Pillow := pillow_sizes)
       (convert (Pillow := pillow_sizes) opened "RGBA") (300, 300) = Some pil
  /\ MoodBoardPage.board_items (MoodBoardPage.r_page r)
     = (MoodBoardPage.board_items self
        ++ [MoodBoardPage.mk_meta id (MoodBoardPage.chosen_file ans)
              (40 + n * 10) (40 + n * 10) (im_width pil) (im_height pil)])%list
  /\ Canvas.items (MoodBoardPage.canvas (MoodBoardPage.r_page r))
     = (Canvas.items (MoodBoardPage.canvas self)
        ++ [Canvas.mk_item id (40 + n * 10) (40 + n * 10) pil])%list
  /\ MoodBoardPage.current_board (MoodBoardPage.r_page r)
     = MoodBoardPage.current_board self
  /\ MoodBoardPage.r_boards r = []
  /\ MoodBoardPage.r_shown r = [].
Proof.
  intros self ans opened pil r n id.
  assert (Hok : MoodBoardPage.page_ok self).
  { apply (page_ok_add_image_to_board (pillow := pillow_sizes)).
    exact page_ok_init. }
  assert (Hb : Py.truthy_opt (MoodBoardPage.current_board self) = true)
    by reflexivity.
  assert (Hf : MoodBoardPage.from_uploads ans = false) by reflexivity.
  assert (Hc : MoodBoardPage.chosen_file ans <> "") by discriminate.
  assert (Ho : FS.open fs_tall (MoodBoardPage.chosen_file ans) = Some opened)
    by reflexivity.
  assert (Ht : thumbnail (Pillow := pillow_sizes)
                 (convert (Pillow := pillow_sizes) opened "RGBA") (300, 300)
               = Some pil) by reflexivity.
  repeat (split; [assumption|]).
  exact (add_image_placed (pillow := pillow_sizes) self alice_app [] []
           fs_tall ans t2 5 opened pil Hok Hb Hf Hc Ho Ht).
Defined.

Example add_second_image_sample :
  map MoodBoardPage.placed
    (MoodBoardPage.board_items
       (MoodBoardPage.r_page
          (MoodBoardPage.add_image_to_board (pillow := pillow_sizes)
             (MoodBoardPage.r_page (added fs_icon "/pics/icon.png"))
             alice_app [] [] fs_tall (trip_answers "/pics/tall.png") t2 5)))
  = [("/pics/icon.png", 40, 40, 64, 48); ("/pics/tall.png", 50, 50, 199, 300)].
Proof. reflexivity. Qed.

Lemma click_then_drag_witness :
  let self := MoodBoardPage.r_page (added fs_icon "/pics/icon.png") in
  let m := MoodBoardPage.mk_meta 1 "/pics/icon.png" 40 40 64 48 in
  let top := MoodBoardPage.m_id m in
  let s1 := MoodBoardPage.on_canvas_click self 50 60 ([] ++ [top]) in
  let s2 := MoodBoardPage.on_canvas_drag s1 130 100 in
  let x' := MoodBoardPage.m_x m + (130 - 50) in
  let y' := MoodBoardPage.m_y m + (100 - 60) in
  MoodBoardPage.page_ok self /\ In m (MoodBoardPage.board_items self)
  /\ In (MoodBoardPage.mk_meta top (MoodBoardPage.m_path m) x' y'
          (MoodBoardPage.m_w m) (MoodBoardPage.m_h m))
       (MoodBoardPage.board_items s2)
  /\ Canvas.coords (MoodBoardPage.canvas s2) top = Some (x', y')
  /\ map MoodBoardPage.m_id (MoodBoardPage.board_items s2)
     = map MoodBoardPage.m_id (MoodBoardPage.board_items self)
  /\ Forall (fun o =>
               MoodBoardPage.m_id o = top
               \/ (In o (MoodBoardPage.board_items s2)
                   /\ Canvas.coords (MoodBoardPage.canvas s2)
                        (MoodBoardPage.m_id o)
                      = Some (MoodBoardPage.m_x o, MoodBoardPage.m_y o)))
            (MoodBoardPage.board_items self)
  /\ MoodBoardPage.on_canvas_drag (MoodBoardPage.on_canvas_release s2) 130 100
     = MoodBoardPage.on_canvas_release s2.
Proof.
  intros self m top s1 s2 x' y'.
  assert (Hok : MoodBoardPage.page_ok self).
  { apply (page_ok_add_image_to_board (pillow := pillow_sizes)).
    exact page_ok_init. }
  assert (Hin : In m (MoodBoardPage.board_items self)) by (left; reflexivity).
  split; [exact Hok|]. split; [exact Hin|].
  exact (click_then_drag self [] 50 60 130 100 m Hok Hin).
Defined.

Example drag_sample :
  let self := MoodBoardPage.r_page (added fs_icon "/pics/icon.png") in
  let s2 :=
    MoodBoardPage.on_canvas_drag
      (MoodBoardPage.on_canvas_click self 50 60 [1%nat]) 130 100 in
  map MoodBoardPage.placed (MoodBoardPage.board_items s2)
  = [("/pics/icon.png", 120, 80, 64, 48)]
  /\ MoodBoardPage.layout_of s2
     = [mk_layout_item (Some "/pics/icon.png") (Some 120) (Some 80) (Some 64)
          (Some 48)].
Proof. repeat split. Qed.

(** ** The invariant along any use of the board page *)

Lemma remove_first_forall {A : Type} (P : A -> Prop) (p : A -> bool)
    (l : list A) :
  Forall P l -> Forall P (remove_first p l).
Proof.
  induction 1 as [|a l Ha Hl IH]; simpl; [constructor|].
  destruct (p a); [exact Hl | now constructor].
Qed.

Lemma upsert_positions (col : list board_doc) (u name : string)
    (layout : list layout_item) (now : datetime) (oid : nat) :
  MoodBoardPage.positions_present layout ->
  Forall (fun d => MoodBoardPage.positions_present (b_layout d)) col ->
  Forall (fun d => MoodBoardPage.positions_present (b_layout d))
    (Boards.update_one_upsert col u name layout now oid).
Proof.
  intros Hl Hcol. unfold Boards.update_one_upsert.
  destruct (Boards.set_first u name layout now col) as [col'|] eqn:Hs.
  - revert col' Hs. induction Hcol as [|d col Hd Hcol IH]; intros col' Hs;
      simpl in Hs; [discriminate|].
    destruct (Boards.keyed u name d).
    + injection Hs as <-. constructor; assumption.
    + destruct (Boards.set_first u name layout now col) as [r|];
        [|discriminate].
      injection Hs as <-. constructor; [exact Hd | now apply IH].
  - apply Forall_app. split; [exact Hcol|]. repeat constructor. exact Hl.
Qed.

Lemma new_board_positions (self : MoodBoardPage.t) (controller : MoodBoardApp)
    (boards_col : list board_doc) (answer : option string) (now : datetime)
    (oid : nat) :
  Forall (fun d => MoodBoardPage.positions_present (b_layout d)) boards_col ->
  Forall (fun d => MoodBoardPage.positions_present (b_layout d))
    (MoodBoardPage.r_boards
       (MoodBoardPage.new_board self controller boards_col answer now oid)).
Proof.
  intros H. unfold MoodBoardPage.new_board.
  destruct (current_user controller) as [u|]; [|exact H].
  destruct (Py.truthy u); [|exact H].
  destruct answer as [name|]; [|exact H].
  destruct (Py.truthy name); [|exact H].
  simpl. apply Forall_app. split; [exact H|]. repeat constructor.
Qed.

Lemma save_board_positions (self : MoodBoardPage.t) (controller : MoodBoardApp)
    (boards_col : list board_doc) (now : datetime) (oid : nat) :
  Forall (fun d => MoodBoardPage.positions_present (b_layout d)) boards_col ->
  Forall (fun d => MoodBoardPage.positions_present (b_layout d))
    (MoodBoardPage.r_boards
       (MoodBoardPage.save_board self controller boards_col now oid)).
Proof.
  intros H. unfold MoodBoardPage.save_board.
  destruct (MoodBoardPage.current_board self) as [name|]; [|exact H].
  destruct (Py.truthy name); [|exact H].
  destruct (current_user controller) as [u|]; [|exact H].
  destruct (Py.truthy u); [|exact H].
  simpl. apply upsert_positions; [apply layout_of_positions | exact H].
Qed.

Lemma page_ok_refresh_board_list (self : MoodBoardPage.t)
    (controller : MoodBoardApp) (boards_col : list board_doc) :
  MoodBoardPage.page_ok self ->
  MoodBoardPage.page_ok
    (MoodBoardPage.refresh_board_list self controller boards_col).
Proof.
  intros Hok. unfold MoodBoardPage.refresh_board_list.
  destruct (current_user controller) as [u|]; [|exact Hok].
  destruct (Py.truthy u); exact Hok.
Qed.

Section RunInvariant.
Context {pillow : Pillow}.

Lemma page_ok_load_stored (self : MoodBoardPage.t)
    (boards_col : list board_doc) (fs : FS.t) (board_id : nat) :
  MoodBoardPage.page_ok self ->
  Forall (fun d => MoodBoardPage.positions_present (b_layout d)) boards_col ->
  MoodBoardPage.page_ok
    (fst (MoodBoardPage.load_board self boards_col fs board_id)).
Proof.
  intros Hok Hstore. apply page_ok_load_board; [exact Hok|].
  intros doc Hf. unfold Boards.find_one in Hf. apply find_some in Hf.
  exact (proj1 (Forall_forall _ _) Hstore doc (proj1 Hf)).
Qed.

Lemma handle_keeps_invariant (controller : MoodBoardApp)
    (st : MoodBoardPage.t * list board_doc) (e : MoodBoardPage.event) :
  MoodBoardPage.page_ok (fst st)
  /\ Forall (fun d => MoodBoardPage.positions_present (b_layout d)) (snd st) ->
  MoodBoardPage.page_ok (fst (MoodBoardPage.handle controller st e))
  /\ Forall (fun d => MoodBoardPage.positions_present (b_layout d))
       (snd (MoodBoardPage.handle controller st e)).
Proof.
  destruct st as [self boards]. simpl. intros [Hok Hstore].
  destruct e; simpl.
  - split; [now apply page_ok_new_board | now apply new_board_positions].
  - split; [now apply page_ok_add_image_to_board|].
    unfold MoodBoardPage.add_image_to_board.
    destruct (Py.truthy_opt (MoodBoardPage.current_board self)).
    + now rewrite choose_image_boards.
    + destruct (MoodBoardPage.create_now ans); [|exact Hstore].
      cbn [negb]. cbv zeta. rewrite choose_image_boards.
      now apply new_board_positions.
  - split; [now apply page_ok_on_canvas_click | exact Hstore].
  - split; [now apply page_ok_on_canvas_drag | exact Hstore].
  - split; [exact Hok | exact Hstore].
  - split; [now apply page_ok_save_board | now apply save_board_positions].
  - split; [|exact Hstore]. unfold MoodBoardPage.on_board_select.
    destruct sel as [idx|]; [|exact Hok].
    destruct (nth_error (MoodBoardPage._board_docs self) idx);
      [now apply page_ok_load_stored | exact Hok].
  - split; [|exact Hstore]. unfold MoodBoardPage.load_board_dialog.
    destruct (current_user controller) as [u|]; [|exact Hok].
    destruct (Py.truthy u); [|exact Hok].
    destruct (Boards.find boards u); [exact Hok|].
    destruct picked; [now apply page_ok_load_stored | exact Hok].
  - unfold MoodBoardPage.delete_selected_board.
    destruct sel as [idx|]; [|now split].
    destruct (nth_error (MoodBoardPage._board_docs self) idx) as [doc|];
      [|now split].
    destruct confirm; [|now split]. simpl. split.
    + pose proof (page_ok_refresh_board_list self controller
                    (Boards.delete_one boards (b_id doc)) Hok) as Hr.
      destruct (MoodBoardPage.current_board
                  (MoodBoardPage.refresh_board_list self controller
                     (Boards.delete_one boards (b_id doc)))) as [name|];
        [|exact Hr].
      destruct (String.eqb name (b_board_name doc));
        [apply page_ok_clear_canvas | exact Hr].
    + now apply remove_first_forall.
  - split; [apply page_ok_clear_canvas | exact Hstore].
Qed.

(** X14.  Whatever the user does on the board page, starting from the
    empty page and the empty collection (new boards, adding images,
    clicks, drags, saves, loads, deletions, clearing, in any order and
    with any answers), the entries keep different canvas identifiers,
    every entry has its canvas item at the position the entry records,
    and every stored layout carries a position for each of its items. *)
Theorem run_keeps_invariant (controller : MoodBoardApp)
    (events : list MoodBoardPage.event) :
  MoodBoardPage.page_ok
    (fst (MoodBoardPage.run controller events (MoodBoardPage.init, [])))
  /\ Forall (fun d => MoodBoardPage.positions_present (b_layout d))
       (snd (MoodBoardPage.run controller events (MoodBoardPage.init, []))).
Proof.
  unfold MoodBoardPage.run.
  assert (H : forall st,
            MoodBoardPage.page_ok (fst st)
            /\ Forall (fun d => MoodBoardPage.positions_present (b_layout d))
                 (snd st) ->
            MoodBoardPage.page_ok
              (fst (fold_left (MoodBoardPage.handle controller) events st))
            /\ Forall (fun d => MoodBoardPage.positions_present (b_layout d))
                 (snd (fold_left (MoodBoardPage.handle controller) events st))).
  { induction events as [|e events IH]; intros st Hst; [exact Hst|].
    simpl. apply IH. now apply handle_keeps_invariant. }
  apply H. simpl. split; [exact page_ok_init | constructor].
Qed.

End RunInvariant.

(** ** Boards whose images were deleted *)

Section DanglingPaths.
Context {pillow : Pillow}.

(** Loading from a file system that lacks [path] and agrees with [fs]
    elsewhere is loading, from [fs], the layout without the items of that
    path. *)
Lemma load_items_without (fs fs' : FS.t) (path : string) :
  FS.lookup fs' path = None ->
  (forall other, other <> path -> FS.lookup fs' other = FS.lookup fs other) ->
  forall (layout : list layout_item) (c : Canvas.t)
         (items : list MoodBoardPage.meta),
  MoodBoardPage.load_items fs' layout c items
  = MoodBoardPage.load_items fs
      (filter (fun item =>
                 match li_path item with
                 | Some p => negb (String.eqb p path)
                 | None => true
                 end) layout)
      c items.
Proof.
  intros Hgone Hsame.
  induction layout as [|item layout IH']; intros c items; [reflexivity|].
  destruct (li_path item) as [p|] eqn:Hp.
  - destruct (String.eqb_spec p path) as [->|Hne].
    + cbn [filter MoodBoardPage.load_items]. rewrite Hp, String.eqb_refl.
      cbn [negb]. unfold FS.exists_ at 1. rewrite Hgone.
      cbn [negb]. rewrite orb_true_r. apply IH'.
    + cbn [filter MoodBoardPage.load_items]. rewrite Hp.
      apply String.eqb_neq in Hne as Hneb. rewrite Hneb. cbn [negb].
      cbn [MoodBoardPage.load_items]. rewrite Hp.
      unfold FS.exists_, FS.open. rewrite (Hsame p Hne).
      destruct (negb (Py.truthy p)
                || negb match FS.lookup fs p with
                        | Some _ => true
                        | None => false
                        end); [apply IH'|].
      destruct (FS.lookup fs p) as [[img|]|]; try apply IH'.
      destruct (thumbnail (convert img "RGBA")
                  (MoodBoardPage.get (li_w item) 200,
                   MoodBoardPage.get (li_h item) 200)); [|apply IH'].
      cbv zeta. cbn [Canvas.create_image]. apply IH'.
  - cbn [filter MoodBoardPage.load_items]. rewrite Hp.
    cbn [MoodBoardPage.load_items]. rewrite Hp. apply IH'.
Qed.

(** X15.  Deleting a saved image whose file can be removed, then loading
    a board that places it: the file is gone, the board loads without
    the entries of that path, and all its other entries load exactly as
    they would have loaded before the deletion had the layout not
    contained that path. *)
Theorem deleted_image_skipped (path : string) (controller : MoodBoardApp)
    (images_col : list image_doc) (fs : FS.t) (tiles : list GalleryPage.tile)
    (self : MoodBoardPage.t) (boards_col : list board_doc) (board_id : nat)
    (doc : board_doc) :
  Boards.find_one boards_col board_id = Some doc ->
  let r :=
    GalleryPage.do_delete true path controller images_col fs false tiles in
  let reloaded :=
    fst (MoodBoardPage.load_board self boards_col (GalleryPage.dr_fs r)
           board_id) in
  FS.exists_ (GalleryPage.dr_fs r) path = false
  /\ Forall (fun m => MoodBoardPage.m_path m <> path)
       (MoodBoardPage.board_items reloaded)
  /\ MoodBoardPage.board_items reloaded
     = snd (MoodBoardPage.load_items fs
              (filter (fun item =>
                         match li_path item with
                         | Some p => negb (String.eqb p path)
                         | None => true
                         end) (b_layout doc))
              (Canvas.delete_all (MoodBoardPage.canvas self)) []).
Proof.
  intros Hf r reloaded. subst reloaded.
  assert (Hfs : FS.lookup (GalleryPage.dr_fs r) path = None
                /\ forall other, other <> path ->
                     FS.lookup (GalleryPage.dr_fs r) other
                     = FS.lookup fs other).
  { subst r. unfold GalleryPage.do_delete, FS.remove. simpl.
    unfold FS.exists_.
    destruct (FS.lookup fs path) eqn:Hl; simpl.
    - split; [apply lookup_unlink_same|].
      intros other Ho. now apply lookup_unlink_other.
    - split; [exact Hl | reflexivity]. }
  destruct Hfs as [Hgone Hsame].
  assert (Hex : FS.exists_ (GalleryPage.dr_fs r) path = false).
  { unfold FS.exists_. now rewrite Hgone. }
  destruct (load_board_found self boards_col (GalleryPage.dr_fs r) board_id
              doc Hf) as [_ Hitems].
  split; [exact Hex|]. split.
  - rewrite Hitems.
    destruct (load_items_spec (GalleryPage.dr_fs r) (b_layout doc)
                (Canvas.delete_all (MoodBoardPage.canvas self)) [])
      as [new [-> [Hnew _]]].
    simpl. eapply Forall_impl; [|exact Hnew].
    intros m [[item [_ Hl]] _] Heq.
    destruct Hl as [opened [pil [_ [_ [He _]]]]].
    rewrite Heq in He. congruence.
  - rewrite Hitems.
    now rewrite (load_items_without fs (GalleryPage.dr_fs r) path Hgone Hsame).
Qed.

End DanglingPaths.

Lemma deleted_image_skipped_witness :
  let fs := (fs_icon ++ fs_tall)%list in
  let doc :=
    mk_board 5 "alice" "Both"
      [mk_layout_item (Some "/pics/icon.png") (Some 12) (Some 30) (Some 64)
         (Some 48);
       mk_layout_item (Some "/pics/tall.png") (Some 90) (Some 10) (Some 199)
         (Some 300)] t2 in
  let r :=
    GalleryPage.do_delete (pillow := pillow_sizes) true "/pics/icon.png"
      alice_app [] fs false [] in
  let reloaded :=
    fst (MoodBoardPage.load_board (pillow := pillow_sizes) MoodBoardPage.init
           [doc] (GalleryPage.dr_fs r) 5) in
  Boards.find_one [doc] 5 = Some doc
  /\ FS.exists_ (GalleryPage.dr_fs r) "/pics/icon.png" = false
  /\ Forall (fun m => MoodBoardPage.m_path m <> "/pics/icon.png")
       (MoodBoardPage.board_items reloaded)
  /\ MoodBoardPage.board_items reloaded
     = snd (MoodBoardPage.load_items (pillow := pillow_sizes) fs
              (filter (fun item =>
                         match li_path item with
                         | Some p => negb (String.eqb p "/pics/icon.png")
                         | None => true
                         end) (b_layout doc))
              (Canvas.delete_all (MoodBoardPage.canvas MoodBoardPage.init))
              []).
Proof.
  intros fs doc r reloaded.
  assert (Hf : Boards.find_one [doc] 5 = Some doc) by reflexivity.
  split; [exact Hf|].
  exact (deleted_image_skipped (pillow := pillow_sizes) "/pics/icon.png"
           alice_app [] fs [] MoodBoardPage.init [doc] 5 doc Hf).
Defined.

(** ** The stored file sits directly in the user's folder *)

Lemma has_sep_cons (c : ascii) (s : string) :
  OsPath.has_sep (String c s) = Ascii.eqb OsPath.sep c || OsPath.has_sep s.
Proof. reflexivity. Qed.

Lemma has_sep_append (a b : string) :
  OsPath.has_sep (a ++ b) = OsPath.has_sep a || OsPath.has_sep b.
Proof.
  induction a as [|c a IH]; [reflexivity|].
  change (String c a ++ b) with (String c (a ++ b)).
  now rewrite !has_sep_cons, IH, orb_assoc.
Qed.

Lemma basename_has_no_sep (p : string) :
  OsPath.has_sep (OsPath.basename p) = false.
Proof.
  induction p as [|c p IH]; simpl; [reflexivity|].
  destruct (Ascii.eqb_spec c OsPath.sep) as [Hc|Hc]; [exact IH|].
  destruct (existsb (Ascii.eqb OsPath.sep) (list_ascii_of_string p)) eqn:He;
    [exact IH|].
  rewrite has_sep_cons. unfold OsPath.has_sep. rewrite He.
  destruct (Ascii.eqb_spec OsPath.sep c); [congruence | reflexivity].
Qed.

Lemma basename_without_sep (p : string) :
  OsPath.has_sep p = false -> OsPath.basename p = p.
Proof.
  destruct p as [|c p]; [reflexivity|].
  rewrite has_sep_cons. intros H. apply orb_false_iff in H.
  destruct H as [Hc Hp]. cbn [OsPath.basename].
  rewrite Ascii.eqb_sym in Hc. rewrite Hc.
  unfold OsPath.has_sep in Hp. now rewrite Hp.
Qed.

(** The base name of what follows a separator. *)
Lemma basename_after_sep (a b : string) :
  OsPath.has_sep b = false ->
  OsPath.basename (a ++ String OsPath.sep b) = b.
Proof.
  intros Hb. induction a as [|c a IH].
  - change ("" ++ String OsPath.sep b) with (String OsPath.sep b).
    cbn [OsPath.basename]. rewrite Ascii.eqb_refl.
    now apply basename_without_sep.
  - change (String c a ++ String OsPath.sep b)
      with (String c (a ++ String OsPath.sep b)).
    cbn [OsPath.basename].
    destruct (Ascii.eqb c OsPath.sep); [exact IH|].
    assert (He : existsb (Ascii.eqb OsPath.sep)
                   (list_ascii_of_string (a ++ String OsPath.sep b)) = true).
    { change (OsPath.has_sep (a ++ String OsPath.sep b) = true).
      rewrite has_sep_append, has_sep_cons, Ascii.eqb_refl.
      cbn [orb]. apply orb_true_r. }
    now rewrite He.
Qed.

Lemma ends_with_sep_split (s : string) :
  OsPath.ends_with_sep s = true -> exists a, s = a ++ String OsPath.sep "".
Proof.
  induction s as [|c s IH]; simpl; [discriminate|].
  destruct s as [|c' s'].
  - intros H. apply Ascii.eqb_eq in H. subst c. now exists "".
  - intros H. destruct (IH H) as [a Ha]. exists (String c a).
    simpl. now rewrite <- Ha.
Qed.

Lemma substring_prefix_no_sep (p : string) :
  forall i, OsPath.has_sep p = false ->
  OsPath.has_sep (substring 0 i p) = false.
Proof.
  induction p as [|c p IH]; intros [|i] H; try reflexivity.
  cbn [substring]. rewrite has_sep_cons in *.
  apply orb_false_iff in H. destruct H as [Hc Hp].
  now rewrite Hc, (IH i Hp).
Qed.

Lemma splitext_no_sep (p : string) :
  OsPath.has_sep p = false ->
  OsPath.has_sep (fst (OsPath.splitext p)) = false.
Proof.
  intros H. unfold OsPath.splitext.
  destruct (OsPath.rfind_dot p) as [i|]; [|exact H].
  destruct (OsPath.all_dots (substring 0 i p)); [exact H|].
  simpl. now apply substring_prefix_no_sep.
Qed.

Lemma zfill_no_sep (k : nat) (n : Z) : OsPath.has_sep (zfill k n) = false.
Proof.
  revert n. induction k as [|k IH]; intros n; [reflexivity|].
  cbn [zfill]. rewrite has_sep_append, IH, has_sep_cons.
  cbn [orb]. change (OsPath.has_sep "") with false. rewrite orb_false_r.
  apply Ascii.eqb_neq. intros Heq.
  apply (digit_not_sep (n mod 10)); [apply Z.mod_pos_bound; lia | congruence].
Qed.

Lemma strftime_stamp_no_sep (t : datetime) :
  OsPath.has_sep (strftime_stamp t) = false.
Proof.
  unfold strftime_stamp. rewrite !has_sep_append, !zfill_no_sep. reflexivity.
Qed.

(** X16.  Whatever directories the original file name carries, the
    stored file sits directly in the folder [os.path.join] makes for the
    user: the base name of the stored path is the generated name, which
    contains no separator. *)
Theorem stored_name_is_flat (img : image) (username orig : string)
    (now : datetime) (fs : FS.t) :
  let out_name :=
    strftime_stamp now ++ "_"
    ++ fst (OsPath.splitext (OsPath.basename orig)) ++ ".png" in
  OsPath.has_sep out_name = false
  /\ OsPath.basename (fst (save_image_file img username orig now fs))
     = out_name.
Proof.
  intros out_name.
  assert (Hflat : OsPath.has_sep out_name = false).
  { subst out_name. rewrite !has_sep_append, strftime_stamp_no_sep.
    rewrite (splitext_no_sep _ (basename_has_no_sep orig)). reflexivity. }
  split; [exact Hflat|].
  rewrite save_image_file_path. fold out_name.
  destruct (strftime_stamp_head now) as [c [rest [Hstamp Hc]]].
  assert (Hname : exists rest', out_name = String c rest').
  { subst out_name. rewrite Hstamp. cbn [append]. eauto. }
  destruct Hname as [rest' Hname]. clearbody out_name.
  generalize (OsPath.join UPLOAD_ROOT username). intros folder.
  unfold OsPath.join. rewrite Hname.
  apply Ascii.eqb_neq in Hc. rewrite Hc. rewrite <- Hname.
  destruct (Py.truthy folder) eqn:Hf; cbn [negb orb].
  - destruct (OsPath.ends_with_sep folder) eqn:He.
    + destruct (ends_with_sep_split folder He) as [a ->].
      rewrite append_assoc. cbn [append].
      now apply basename_after_sep.
    + now apply basename_after_sep.
  - apply truthy_false in Hf. rewrite Hf. cbn [append].
    now apply basename_without_sep.
Qed.

Example stored_name_sample :
  fst (save_image_file (mk_image "RGBA" 1 1 [7]) "alice"
         "../../etc/cron.d/job.sh" t0 [])
  = "uploads/alice/20240309T070501000042_job.png".
Proof. reflexivity. Qed.

(** ** Deleting a board *)

(** With identifiers that are pairwise different, [delete_one] removes
    every record of the identifier. *)
Lemma delete_one_unique (col : list board_doc) (id : nat) :
  NoDup (map b_id col) ->
  Boards.delete_one col id
  = filter (fun d => negb (Nat.eqb (b_id d) id)) col.
Proof.
  unfold Boards.delete_one. induction col as [|d col IH]; simpl; [reflexivity|].
  intros Hnd. inversion Hnd as [|? ? Hnotin Hnd']; subst.
  destruct (Nat.eqb_spec (b_id d) id) as [Heq|Hne]; simpl.
  - symmetry. apply filter_all. intros x Hx.
    apply negb_true_iff, Nat.eqb_neq. intros Hx'. apply Hnotin.
    rewrite Heq, <- Hx'. now apply in_map.
  - f_equal. now apply IH.
Qed.

Lemma filter_commute {A : Type} (f g : A -> bool) (l : list A) :
  filter f (filter g l) = filter g (filter f l).
Proof.
  induction l as [|a l IH]; simpl; [reflexivity|].
  destruct (f a) eqn:Hf, (g a) eqn:Hg; simpl;
    rewrite ?Hf, ?Hg, IH; reflexivity.
Qed.

(** What a confirmed deletion does to the collection and to the page. *)
Lemma delete_selected_board_effect (self : MoodBoardPage.t)
    (controller : MoodBoardApp) (boards_col : list board_doc) (idx : nat)
    (doc : board_doc) :
  nth_error (MoodBoardPage._board_docs self) idx = Some doc ->
  NoDup (map b_id boards_col) ->
  let r :=
    MoodBoardPage.delete_selected_board self controller boards_col
      (Some idx) true in
  MoodBoardPage.r_boards r
  = filter (fun d => negb (Nat.eqb (b_id d) (b_id doc))) boards_col
  /\ MoodBoardPage.current_board (MoodBoardPage.r_page r)
     = MoodBoardPage.current_board self
  /\ MoodBoardPage.board_items (MoodBoardPage.r_page r)
     = (if match MoodBoardPage.current_board self with
           | Some name => String.eqb name (b_board_name doc)
           | None => false
           end
        then [] else MoodBoardPage.board_items self).
Proof.
  intros Hidx Hnd r. subst r. unfold MoodBoardPage.delete_selected_board.
  rewrite Hidx. cbn [negb]. cbv zeta.
  cbn [MoodBoardPage.r_boards MoodBoardPage.r_shown MoodBoardPage.r_page].
  rewrite (delete_one_unique boards_col (b_id doc) Hnd).
  set (boards' := filter _ boards_col).
  assert (Hr : MoodBoardPage.current_board
                 (MoodBoardPage.refresh_board_list self controller boards')
               = MoodBoardPage.current_board self
               /\ MoodBoardPage.board_items
                    (MoodBoardPage.refresh_board_list self controller boards')
                  = MoodBoardPage.board_items self).
  { unfold MoodBoardPage.refresh_board_list.
    destruct (current_user controller) as [u|]; [|now split].
    destruct (Py.truthy u); now split. }
  destruct Hr as [Hcur Hitems].
  split; [reflexivity|]. rewrite Hcur.
  destruct (MoodBoardPage.current_board self) as [name|].
  - destruct (String.eqb name (b_board_name doc)); simpl; auto.
  - auto.
Qed.

(** X17.  A confirmed "Delete Board" on a line of the list, with board
    identifiers that are pairwise different: the record of that
    identifier is removed and no lookup finds it any more, the other
    records stay in their order, and the canvas is cleared exactly when
    the open board has the name of the deleted one; the name of the open
    board is kept in either case. *)
Theorem delete_selected_board_removes (self : MoodBoardPage.t)
    (controller : MoodBoardApp) (boards_col : list board_doc) (idx : nat)
    (doc : board_doc) :
  nth_error (MoodBoardPage._board_docs self) idx = Some doc ->
  NoDup (map b_id boards_col) ->
  let r :=
    MoodBoardPage.delete_selected_board self controller boards_col
      (Some idx) true in
  MoodBoardPage.r_boards r
  = filter (fun d => negb (Nat.eqb (b_id d) (b_id doc))) boards_col
  /\ Boards.find_one (MoodBoardPage.r_boards r) (b_id doc) = None
  /\ MoodBoardPage.r_shown r = [showinfo "Deleted" "Board removed."]
  /\ MoodBoardPage.current_board (MoodBoardPage.r_page r)
     = MoodBoardPage.current_board self
  /\ MoodBoardPage.board_items (MoodBoardPage.r_page r)
     = (if match MoodBoardPage.current_board self with
           | Some name => String.eqb name (b_board_name doc)
           | None => false
           end
        then [] else MoodBoardPage.board_items self).
Proof.
  intros Hidx Hnd r.
  destruct (delete_selected_board_effect self controller boards_col idx doc
              Hidx Hnd) as [Hb [Hc Hi]].
  fold r in Hb, Hc, Hi.
  split; [exact Hb|]. split.
  - rewrite Hb. unfold Boards.find_one. apply find_none_intro. intros x Hx.
    apply filter_In in Hx. destruct Hx as [_ Hx].
    now apply negb_true_iff in Hx.
  - split; [|split; assumption].
    subst r. unfold MoodBoardPage.delete_selected_board. now rewrite Hidx.
Qed.

(** X18.  The name of the open board outlives its deletion: when the open
    board, the only record of its owner and name, is deleted and "Save
    Board" is pressed afterwards, the board exists again, as a new record
    under the fresh identifier with an empty layout. *)
Theorem deleted_board_saved_again (self : MoodBoardPage.t)
    (controller : MoodBoardApp) (boards_col : list board_doc) (idx : nat)
    (doc : board_doc) (owner name : string) (utcnow : datetime) (oid : nat) :
  nth_error (MoodBoardPage._board_docs self) idx = Some doc ->
  NoDup (map b_id boards_col) ->
  current_user controller = Some owner -> owner <> "" -> name <> "" ->
  MoodBoardPage.current_board self = Some name ->
  b_board_name doc = name ->
  Boards.records_for owner name boards_col = [doc] ->
  let r1 :=
    MoodBoardPage.delete_selected_board self controller boards_col
      (Some idx) true in
  let r2 :=
    MoodBoardPage.save_board (MoodBoardPage.r_page r1) controller
      (MoodBoardPage.r_boards r1) utcnow oid in
  Boards.records_for owner name (MoodBoardPage.r_boards r1) = []
  /\ MoodBoardPage.board_items (MoodBoardPage.r_page r1) = []
  /\ Boards.records_for owner name (MoodBoardPage.r_boards r2)
     = [mk_board oid owner name [] utcnow].
Proof.
  intros Hidx Hnd Hu Ho Hn Hcur Hname Hrec r1 r2.
  destruct (delete_selected_board_effect self controller boards_col idx
              doc Hidx Hnd) as [Hb [Hc Hi]].
  fold r1 in Hb, Hc, Hi.
  assert (Hgone : Boards.records_for owner name (MoodBoardPage.r_boards r1)
                  = []).
  { rewrite Hb. unfold Boards.records_for in *. rewrite filter_commute, Hrec.
    simpl. now rewrite Nat.eqb_refl. }
  assert (Hempty : MoodBoardPage.board_items (MoodBoardPage.r_page r1) = []).
  { rewrite Hi, Hcur, Hname, String.eqb_refl. reflexivity. }
  split; [exact Hgone|]. split; [exact Hempty|].
  subst r2.
  rewrite (save_board_upserts (MoodBoardPage.r_page r1) controller
             (MoodBoardPage.r_boards r1) owner name utcnow oid Hu)
    by (try assumption; now rewrite Hc).
  rewrite update_one_upsert_records, Hgone.
  unfold MoodBoardPage.layout_of. now rewrite Hempty.
Qed.

Lemma delete_selected_board_removes_witness :
  let self := MoodBoardPage.r_page (saved fs_tall "/pics/tall.png") in
  let boards := MoodBoardPage.r_boards (saved fs_tall "/pics/tall.png") in
  let doc := mk_board 1 "alice" "Trip" (MoodBoardPage.layout_of self) t1 in
  let r :=
    MoodBoardPage.delete_selected_board self alice_app boards (Some 0%nat)
      true in
  nth_error (MoodBoardPage._board_docs self) 0 = Some doc
  /\ NoDup (map b_id boards)
  /\ MoodBoardPage.r_boards r
     = filter (fun d => negb (Nat.eqb (b_id d) (b_id doc))) boards
  /\ Boards.find_one (MoodBoardPage.r_boards r) (b_id doc) = None
  /\ MoodBoardPage.r_shown r = [showinfo "Deleted" "Board removed."]
  /\ MoodBoardPage.current_board (MoodBoardPage.r_page r)
     = MoodBoardPage.current_board self
  /\ MoodBoardPage.board_items (MoodBoardPage.r_page r)
     = (if match MoodBoardPage.current_board self with
           | Some name => String.eqb name (b_board_name doc)
           | None => false
           end
        then [] else MoodBoardPage.board_items self).
Proof.
  intros self boards doc r.
  assert (H1 : nth_error (MoodBoardPage._board_docs self) 0 = Some doc)
    by (vm_compute; reflexivity).
  assert (H2 : NoDup (map b_id boards))
    by (vm_compute; repeat constructor; intros []).
  split; [exact H1|]. split; [exact H2|].
  exact (delete_selected_board_removes self alice_app boards 0%nat doc H1 H2).
Defined.

Lemma deleted_board_saved_again_witness :
  let self := MoodBoardPage.r_page (saved fs_tall "/pics/tall.png") in
  let boards := MoodBoardPage.r_boards (saved fs_tall "/pics/tall.png") in
  let doc := mk_board 1 "alice" "Trip" (MoodBoardPage.layout_of self) t1 in
  let r1 :=
    MoodBoardPage.delete_selected_board self alice_app boards (Some 0%nat)
      true in
  let r2 :=
    MoodBoardPage.save_board (MoodBoardPage.r_page r1) alice_app
      (MoodBoardPage.r_boards r1) t2 3 in
  nth_error (MoodBoardPage._board_docs self) 0 = Some doc
  /\ NoDup (map b_id boards)
  /\ current_user alice_app = Some "alice"
  /\ MoodBoardPage.current_board self = Some "Trip"
  /\ b_board_name doc = "Trip"
  /\ Boards.records_for "alice" "Trip" boards = [doc]
  /\ Boards.records_for "alice" "Trip" (MoodBoardPage.r_boards r1) = []
  /\ MoodBoardPage.board_items (MoodBoardPage.r_page r1) = []
  /\ Boards.records_for "alice" "Trip" (MoodBoardPage.r_boards r2)
     = [mk_board 3 "alice" "Trip" [] t2].
Proof.
  intros self boards doc r1 r2.
  assert (H1 : nth_error (MoodBoardPage._board_docs self) 0 = Some doc)
    by (vm_compute; reflexivity).
  assert (H2 : NoDup (map b_id boards))
    by (vm_compute; repeat constructor; intros []).
  assert (H3 : current_user alice_app = Some "alice") by reflexivity.
  assert (H4 : MoodBoardPage.current_board self = Some "Trip")
    by (vm_compute; reflexivity).
  assert (H5 : b_board_name doc = "Trip") by reflexivity.
  assert (H6 : Boards.records_for "alice" "Trip" boards = [doc])
    by (vm_compute; reflexivity).
  repeat (split; [assumption|]).
  apply (deleted_board_saved_again self alice_app boards 0%nat doc "alice"
           "Trip" t2 3%nat H1 H2 H3); try assumption; discriminate.
Defined.

(** ** The session: profile, logout, and the editor's original image *)

Section ProfileProperties.
Context {bcrypt : Bcrypt}.

(** X19.  Register, log in, open the profile.  After a registration at the
    clock reading [utcnow] and a login with the same name and password,
    the dashboard is raised for that user and the profile page shows the
    user name and, as "Member since", the reading of the registration
    written as year-month-day hour:minute:second. *)
Theorem profile_after_register (self retyped : LoginPage.t)
    (users_col : list user_doc) (salt : string) (utcnow : datetime)
    (controller : MoodBoardApp) :
  let u := Py.strip (LoginPage.username self) in
  let p := LoginPage.password self in
  u <> "" -> p <> "" -> Users.find_one users_col u = None ->
  check_password p (hash_password p salt) = true ->
  Py.strip (LoginPage.username retyped) = u ->
  LoginPage.password retyped = p ->
  let users' :=
    LoginPage.rr_users
      (LoginPage.attempt_register self users_col salt utcnow) in
  let app := LoginPage.lr_app
               (LoginPage.attempt_login retyped users' controller) in
  current_user app = Some u
  /\ raised_page app = "DashboardPage"
  /\ ProfilePage.on_show app users'
     = "Username: " ++ u ++ newline ++ "Member since: "
       ++ ProfilePage.strftime_seconds utcnow.
Proof.
  intros u p Hu Hp Hnone Hcheck Hru Hrp users' app.
  destruct (attempt_register_inserts self users_col salt utcnow Hu Hp Hnone)
    as [_ Hfound].
  fold u p users' in Hfound.
  assert (Happ : app = Controller.login controller u).
  { subst app. unfold LoginPage.attempt_login. rewrite Hru, Hrp.
    rewrite (proj2 (missing_field_guard u p) (conj Hu Hp)).
    rewrite Hfound. cbn [u_password]. now rewrite Hcheck. }
  rewrite Happ. split; [reflexivity|]. split; [reflexivity|].
  unfold ProfilePage.on_show.
  cbn [Controller.login Controller.show_page current_user].
  rewrite (proj2 (truthy_true u) Hu), Hfound. reflexivity.
Qed.

End ProfileProperties.

Lemma profile_after_register_witness :
  let self := LoginPage.mk " bob " "pw1" in
  let retyped := LoginPage.mk "bob" "pw1" in
  let users' :=
    LoginPage.rr_users
      (LoginPage.attempt_register (bcrypt := plain_bcrypt) self [alice_doc]
         "s4lt" t1) in
  let app := LoginPage.lr_app
               (LoginPage.attempt_login (bcrypt := plain_bcrypt) retyped
                  users' app0) in
  Py.strip (LoginPage.username self) <> "" /\ LoginPage.password self <> ""
  /\ Users.find_one [alice_doc] (Py.strip (LoginPage.username self)) = None
  /\ check_password (bcrypt := plain_bcrypt) "pw1"
       (hash_password (bcrypt := plain_bcrypt) "pw1" "s4lt") = true
  /\ Py.strip (LoginPage.username retyped)
     = Py.strip (LoginPage.username self)
  /\ LoginPage.password retyped = LoginPage.password self
  /\ current_user app = Some "bob"
  /\ raised_page app = "DashboardPage"
  /\ ProfilePage.on_show app users'
     = "Username: bob" ++ newline ++ "Member since: 2024-03-09 07:06:30".
Proof.
  intros self retyped users' app.
  assert (Hu : Py.strip (LoginPage.username self) <> "") by (cbv; discriminate).
  assert (Hp : LoginPage.password self <> "") by (cbv; discriminate).
  assert (Hn : Users.find_one [alice_doc] (Py.strip (LoginPage.username self))
               = None) by reflexivity.
  assert (Hc : check_password (bcrypt := plain_bcrypt) "pw1"
                 (hash_password (bcrypt := plain_bcrypt) "pw1" "s4lt") = true)
    by reflexivity.
  assert (Hru : Py.strip (LoginPage.username retyped)
                = Py.strip (LoginPage.username self)) by reflexivity.
  assert (Hrp : LoginPage.password retyped = LoginPage.password self)
    by reflexivity.
  repeat (split; [assumption|]).
  exact (profile_after_register (bcrypt := plain_bcrypt) self retyped
           [alice_doc] "s4lt" t1 app0 Hu Hp Hn Hc Hru Hrp).
Defined.

(** The profile of a session without user looks up the placeholder name:
    a registered account of that very name lends it its date. *)
Example profile_of_placeholder_account :
  let users :=
    LoginPage.rr_users
      (LoginPage.attempt_register (bcrypt := plain_bcrypt)
         (LoginPage.mk "<not logged>" "pw") [] "s4lt" t2) in
  ProfilePage.on_show app0 []
  = "Username: <not logged>" ++ newline ++ "Member since: -"
  /\ ProfilePage.on_show app0 users
     = "Username: <not logged>" ++ newline
       ++ "Member since: 2024-03-09 07:08:12".
Proof. split; reflexivity. Qed.

Section SessionProperties.
Context {pillow : Pillow} {filters : PillowFilters}.

(** X20.  A confirmed logout forgets the picture of the editor: whoever
    logs in next finds no path, no original and no working image, so
    "Apply Filters" and "Reset" do nothing and "Save Edited" writes
    neither file nor record.  A login alone keeps the three fields, and a
    declined logout changes nothing. *)
Theorem logout_forgets_image (controller : MoodBoardApp) (next_user : string)
    (self : EditorPage.t) (images_col : list image_doc) (fs : FS.t)
    (utcnow_file utcnow_doc : datetime) :
  let c :=
    Controller.login (DashboardPage.do_logout controller true) next_user in
  current_user c = Some next_user
  /\ current_image_path c = None
  /\ current_original_image c = None
  /\ current_work_image c = None
  /\ EditorPage.apply_filters self c = c
  /\ EditorPage.reset_edits self c = (self, c)
  /\ EditorPage.save_edited self c images_col fs utcnow_file utcnow_doc
     = EditorPage.mk_save_result images_col fs
         [showwarning "No Image" "Load an image first"]
  /\ current_work_image (Controller.login controller next_user)
     = current_work_image controller
  /\ current_original_image (Controller.login controller next_user)
     = current_original_image controller
  /\ current_image_path (Controller.login controller next_user)
     = current_image_path controller
  /\ DashboardPage.do_logout controller false = controller.
Proof. intros c. repeat split. Qed.

(** X21.  Every edit starts from the original image.  "Apply Filters"
    never works on the result of an earlier application, so the filters
    do not pile up; "Reset" after any application is "Reset"; the working
    image "Reset" sets is the one "Apply Filters" sets with the neutral
    values; and neither handler touches the original image, the path, the
    user or the raised page. *)
Theorem edits_start_from_original (s1 s2 : EditorPage.t)
    (controller : MoodBoardApp) :
  EditorPage.apply_filters s2 (EditorPage.apply_filters s1 controller)
  = EditorPage.apply_filters s2 controller
  /\ EditorPage.reset_edits s2 (EditorPage.apply_filters s1 controller)
     = EditorPage.reset_edits s2 controller
  /\ EditorPage.apply_filters s2 (snd (EditorPage.reset_edits s1 controller))
     = EditorPage.apply_filters s2 controller
  /\ snd (EditorPage.reset_edits s1 controller)
     = EditorPage.apply_filters EditorPage.neutral controller
  /\ current_original_image (EditorPage.apply_filters s1 controller)
     = current_original_image controller
  /\ current_image_path (EditorPage.apply_filters s1 controller)
     = current_image_path controller
  /\ current_user (EditorPage.apply_filters s1 controller)
     = current_user controller
  /\ raised_page (EditorPage.apply_filters s1 controller)
     = raised_page controller.
Proof.
  unfold EditorPage.apply_filters, EditorPage.reset_edits.
  destruct controller as [user path [base|] work page];
    cbn [current_original_image current_user current_image_path
         current_work_image raised_page Controller.set_work_image snd];
    repeat split.
Qed.

End SessionProperties.
